(** * Azure DevOps PR contribution analysis: paginated fetch, date-window
      filter, aggregation and failure policy

    Shallow embedding of [ado_pr_contribution.py] and [org_pr_count.py].

    - Python [str] is [string]; the [str] methods the scripts call are in
      [PyStr].
    - A pull request, a repository and a project are records whose optional
      fields are the keys the scripts read with [.get] (absent key = [None]);
      [creationDate] is read with [pr['creationDate']], so its absence is a
      [KeyError].
    - Exceptions are values of [exn]; code that can raise returns a [result].
    - The network and standard error are a trace of [event]s collected by the
      monad [M]; [while True] loops take fuel.
    - [datetime.fromisoformat], [int] and the process environment are the
      fields of the class [Runtime]; [Reference.runtime] is an instance that
      follows the grammar CPython documents for them. *)

From Stdlib Require Import ZArith List String Ascii Bool Arith Lia DecimalString.
From Stdlib Require Import Permutation Sorted.
Import ListNotations.

Open Scope string_scope.
Open Scope list_scope.

Infix "+:+" := String.append (at level 60, right associativity).

(* ================================================================= *)
(** ** Python [str] methods *)

Module PyStr.

(** [c in s], one-character needle. *)
Fixpoint contains_char (c : ascii) (s : string) : bool :=
  match s with
  | EmptyString => false
  | String a s' => Ascii.eqb a c || contains_char c s'
  end.

(** [s.replace(c, new)], one-character pattern: every occurrence. *)
Fixpoint replace_char (c : ascii) (new : string) (s : string) : string :=
  match s with
  | EmptyString => EmptyString
  | String a s' =>
      if Ascii.eqb a c then new +:+ replace_char c new s'
      else String a (replace_char c new s')
  end.

(** [s.rsplit(c, 1)]: [[before; after]] around the last [c], or [[s]] when
    [c] does not occur. *)
Fixpoint rsplit1 (c : ascii) (s : string) : list string :=
  match s with
  | EmptyString => [EmptyString]
  | String a s' =>
      match rsplit1 c s' with
      | [before; after] => [String a before; after]
      | _ => if Ascii.eqb a c then [EmptyString; s'] else [s]
      end
  end.

(** [s[:n]]. *)
Fixpoint take (n : nat) (s : string) : string :=
  match n, s with
  | S n', String a s' => String a (take n' s')
  | _, _ => EmptyString
  end.

(** [s.startswith(p)]. *)
Definition startswith (p s : string) : bool := String.prefix p s.

(** [needle in s]. *)
Fixpoint contains (needle s : string) : bool :=
  String.prefix needle s ||
  match s with
  | EmptyString => false
  | String _ s' => contains needle s'
  end.

(** [s.split(c)], one-character separator. *)
Fixpoint split (c : ascii) (s : string) : list string :=
  match s with
  | EmptyString => [EmptyString]
  | String a s' =>
      if Ascii.eqb a c then EmptyString :: split c s'
      else match split c s' with
           | w :: ws => String a w :: ws
           | [] => [String a EmptyString]
           end
  end.

(** [str.isspace] on the ASCII range: TAB..CR, FS..US and the space. *)
Definition is_space (a : ascii) : bool :=
  let n := nat_of_ascii a in
  ((9 <=? n) && (n <=? 13) || (28 <=? n) && (n <=? 32))%nat.

Fixpoint lstrip (s : string) : string :=
  match s with
  | String a s' => if is_space a then lstrip s' else s
  | EmptyString => EmptyString
  end.

Fixpoint rstrip (s : string) : string :=
  match s with
  | EmptyString => EmptyString
  | String a s' =>
      match rstrip s' with
      | EmptyString => if is_space a then EmptyString else String a EmptyString
      | r => String a r
      end
  end.

(** [s.strip()]. *)
Definition strip (s : string) : string := rstrip (lstrip s).

End PyStr.

(* ================================================================= *)
(** ** Dates *)

(** [datetime.date]: the scripts only compare dates, which Python does
    field by field. *)
Record date := mkDate { year : Z; month : Z; day : Z }.

(** [datetime.datetime] as [fromisoformat] builds it; [tzoffset] is the
    UTC offset in microseconds of an aware value. *)
Record datetime := mkDatetime {
  dt_date : date;          (* [.date()] *)
  hour : Z;
  minute : Z;
  second : Z;
  microsecond : Z;
  tzoffset : option Z
}.

Definition date_ltb (a b : date) : bool :=
  (year a <? year b)%Z
  || ((year a =? year b)%Z
      && ((month a <? month b)%Z
          || ((month a =? month b)%Z && (day a <? day b)%Z))).

Definition date_leb (a b : date) : bool := negb (date_ltb b a).

Definition date_lt (a b : date) : Prop := date_ltb a b = true.
Definition date_le (a b : date) : Prop := date_leb a b = true.

(** Gregorian calendar, for [now + timedelta(days=1)]. *)
Definition is_leap (y : Z) : bool :=
  ((y mod 4 =? 0) && (negb (y mod 100 =? 0) || (y mod 400 =? 0)))%Z.

Definition days_in_month (y m : Z) : Z :=
  if (m =? 2)%Z then (if is_leap y then 29 else 28)%Z
  else if ((m =? 4) || (m =? 6) || (m =? 9) || (m =? 11))%Z then 30%Z
  else 31%Z.

(** [d + timedelta(days=1)] on the date fields (below year 9999, where
    Python raises [OverflowError]). *)
Definition next_day (d : date) : date :=
  if (day d <? days_in_month (year d) (month d))%Z
  then mkDate (year d) (month d) (day d + 1)
  else if (month d <? 12)%Z then mkDate (year d) (month d + 1) 1
  else mkDate (year d + 1) 1 1.

(** [d.replace(day=1)]. *)
Definition replace_day_1 (d : date) : date := mkDate (year d) (month d) 1.

Fixpoint zeros (n : nat) : string :=
  match n with
  | O => EmptyString
  | S n' => String "0" (zeros n')
  end.

(** [f"{n:0<width>d}"]. *)
Definition format_0d (width : nat) (n : Z) : string :=
  let digits := NilZero.string_of_uint (N.to_uint (Z.abs_N n)) in
  if (n <? 0)%Z
  then "-" +:+ zeros (width - 1 - String.length digits) +:+ digits
  else zeros (width - String.length digits) +:+ digits.

(** [d.strftime('%Y-%m-%d')] and [d.strftime('%Y-%m')], for years of four
    digits. *)
Definition strftime_Y_m_d (d : date) : string :=
  format_0d 4 (year d) +:+ "-" +:+ format_0d 2 (month d) +:+ "-" +:+ format_0d 2 (day d).

Definition strftime_Y_m (d : date) : string :=
  format_0d 4 (year d) +:+ "-" +:+ format_0d 2 (month d).

(* ================================================================= *)
(** ** Exceptions *)

Inductive exn :=
| KeyError (key : string)
| ValueError
| TypeError
| SystemExit (code : Z).

(** [isinstance(e, Exception)]: [SystemExit] derives from [BaseException]
    only, so [except Exception] lets it through. *)
Definition is_Exception (e : exn) : bool :=
  match e with
  | SystemExit _ => false
  | _ => true
  end.

Inductive result (A : Type) :=
| Ok (a : A)
| Raise (e : exn).
Arguments Ok {A} a.
Arguments Raise {A} e.

Definition rbind {A B} (r : result A) (k : A -> result B) : result B :=
  match r with
  | Ok a => k a
  | Raise e => Raise e
  end.

Declare Scope result_scope.
Delimit Scope result_scope with result.
Notation "x <- r ;; k" := (rbind r (fun x => k))
  (at level 100, r at next level, right associativity) : result_scope.
Notation "' p <- r ;; k" := (rbind r (fun p => k))
  (at level 100, p pattern, r at next level, right associativity) : result_scope.

(* ================================================================= *)
(** ** What the scripts take from Python and from the process *)

Class Runtime := {
  (** [datetime.fromisoformat]; [None] is [ValueError]. *)
  fromisoformat : string -> option datetime;
  (** [int(s)] on a [str]; [None] is [ValueError]. *)
  py_int : string -> option Z
}.

(* ================================================================= *)
(** ** Timestamp repair

    The block that both scripts repeat before every [fromisoformat] of a
    pull-request timestamp ([ado_pr_contribution.py] lines 205-213 and
    243-250, [org_pr_count.py] lines 216-224 and 249-256). *)

Definition clean_date (date_field : string) : string :=
  let clean_date := PyStr.replace_char "Z" "+00:00" date_field in
  if PyStr.contains_char "." clean_date && PyStr.contains_char "+" clean_date then
    match PyStr.rsplit1 "+" clean_date with
    | [date_part; tz_part] =>
        if PyStr.contains_char "." date_part then
          match PyStr.rsplit1 "." date_part with
          | [main_part; microseconds] =>
              let microseconds :=
                if (6 <? String.length microseconds)%nat
                then PyStr.take 6 microseconds
                else microseconds in
              main_part +:+ "." +:+ microseconds +:+ "+" +:+ tz_part
          | _ => clean_date     (* not reached: '.' is in [date_part] *)
          end
        else clean_date
    | _ => clean_date           (* not reached: '+' is in [clean_date] *)
    end
  else clean_date.

(* ================================================================= *)
(** ** Data model: the JSON objects of the listing API *)

(** An identity reference ([createdBy], an entry of [reviewers]). *)
Record identity := mkIdentity {
  displayName : option string
}.

(** A pull request as one entry of a page's [value] array. A key holds
    what the service documents for it; [None] is an absent key.
    [repositoryName] and [projectName] are not sent by the service: they are
    the two keys [get_all_pull_requests] writes. [other_keys] stands for the
    rest of the object (title, status, branches, ...), which the scripts
    never read. *)
Record pull_request := mkPR {
  pullRequestId : Z;
  creationDate : option string;
  closedDate : option string;
  createdBy : option identity;
  reviewers : option (list identity);
  other_keys : list (string * string);
  repositoryName : option string;
  projectName : option string
}.

(** [repo['id']], [repo['name']]. *)
Record repository := mkRepo {
  repo_id : string;
  repo_name : string
}.

(** [project['name']]. *)
Record project := mkProject {
  project_name : string
}.

(* ================================================================= *)
(** ** The outside world: service, [az] CLI, standard error *)

(** What [session.get] followed by [raise_for_status] and [json()['value']]
    gives. *)
Inductive response (A : Type) :=
| Success (value : A)
| NoValueKey                       (* 2xx whose JSON object has no ['value'] *)
| HttpError (status_code : Z)      (* [RequestException] carrying a response *)
| ConnectionError.                 (* [RequestException] without a response *)
Arguments Success {A} value.
Arguments NoValueKey {A}.
Arguments HttpError {A} status_code.
Arguments ConnectionError {A}.

Inductive request :=
| ListProjects
| ListRepositories (project : string)
| ListPullRequests (project : string) (repository_id : string) (skip top : nat).

(** What [az account get-access-token --resource r] gives. *)
Inductive az_result :=
| AzToken (accessToken : string)
| AzCalledProcessError
| AzBadOutput.                     (* stdout is not the expected JSON *)

Record environment := mkEnv {
  now : datetime;                                   (* [datetime.now()] *)
  configured_organization : string;                 (* [get_organization_from_azure_cli()] *)
  az_get_access_token : string -> az_result;
  projects_of : response (list project);
  repositories_of : string -> response (list repository);
  pull_requests_of : string -> string -> nat -> nat -> response (list pull_request)
}.

(** Lines the scripts write to standard error whatever [VERBOSITY] is. *)
Inductive message :=
| AuthenticationError
| ErrorFetchingProjects
| ErrorFetchingRepositories
| NetworkErrorRepositories (project : string)
| NetworkErrorPullRequests (repository_id : string)
| WarningProjectFailed (project : string) (e : exn)
| NoProjectsFound
| InvalidArguments
| InvalidDate
| ErrorFailed (e : exn).

Inductive event :=
| Request (rq : request)
| Stderr (msg : message).

(** Computations that talk to the world: the outcome and the events the
    computation added, in order. The service answers a request the same way
    each time, so nothing is read back from the trace. [None] is a loop that
    ran out of fuel. *)
Definition M (A : Type) : Type := (option (result A) * list event)%type.

Definition ret {A} (a : A) : M A := (Some (Ok a), []).

Definition raise {A} (e : exn) : M A := (Some (Raise e), []).

Definition out_of_fuel {A} : M A := (None, []).

Definition bind {A B} (m : M A) (k : A -> M B) : M B :=
  match m with
  | (Some (Ok a), tr) => let (r, tr') := k a in (r, tr ++ tr')
  | (Some (Raise e), tr) => (Some (Raise e), tr)
  | (None, tr) => (None, tr)
  end.

Definition lift {A} (r : result A) : M A := (Some r, []).

Definition emit (ev : event) : M unit := (Some (Ok tt), [ev]).

(** [try: m  except Exception as e: handler e]. *)
Definition try_except_Exception {A} (m : M A) (handler : exn -> M A) : M A :=
  match m with
  | (Some (Raise e), tr) =>
      if is_Exception e
      then let (r, tr') := handler e in (r, tr ++ tr')
      else (Some (Raise e), tr)
  | r => r
  end.

Definition fmap {A B} (f : A -> B) (m : M A) : M B :=
  match m with
  | (Some (Ok a), tr) => (Some (Ok (f a)), tr)
  | (Some (Raise e), tr) => (Some (Raise e), tr)
  | (None, tr) => (None, tr)
  end.

Declare Scope io_scope.
Delimit Scope io_scope with io.
Notation "x <- m ;; k" := (bind m (fun x => k))
  (at level 100, m at next level, right associativity) : io_scope.
Notation "m ;; k" := (bind m (fun _ => k))
  (at level 100, right associativity) : io_scope.

(** [sys.exit(code)]. *)
Definition sys_exit {A} (code : Z) : M A := raise (SystemExit code).

(** The pull-request page requests of a trace. *)
Definition is_page_request (ev : event) : bool :=
  match ev with
  | Request (ListPullRequests _ _ _ _) => true
  | _ => false
  end.

Definition page_requests (tr : list event) : list event := filter is_page_request tr.

(* ================================================================= *)
(** ** [collections.Counter] and insertion-ordered [dict]

    Both keep their keys in first-insertion order, and the rankings break
    ties by that order, so they are association lists. *)

Module Collections.

Definition Counter := list (string * nat).

(** [c[key] += 1]. *)
Fixpoint incr (key : string) (c : Counter) : Counter :=
  match c with
  | [] => [(key, 1)]
  | (k, n) :: c' =>
      if String.eqb k key then (k, n + 1) :: c' else (k, n) :: incr key c'
  end.

(** [c[key]]: a [Counter] answers 0 for a missing key. *)
Fixpoint count_of (c : Counter) (key : string) : nat :=
  match c with
  | [] => 0
  | (k, n) :: c' => if String.eqb k key then n else count_of c' key
  end.

(** [d[key] = value] on a [dict]: an existing key keeps its place. *)
Fixpoint dict_set (key : string) (value : nat) (d : list (string * nat))
  : list (string * nat) :=
  match d with
  | [] => [(key, value)]
  | (k, v) :: d' =>
      if String.eqb k key then (k, value) :: d' else (k, v) :: dict_set key value d'
  end.

(** [d[key]], when the key is there. *)
Fixpoint dict_get (d : list (string * nat)) (key : string) : option nat :=
  match d with
  | [] => None
  | (k, v) :: d' => if String.eqb k key then Some v else dict_get d' key
  end.

(** Insertion into a list sorted by decreasing count, before the first
    entry that is not strictly larger. *)
Fixpoint insert_desc (x : string * nat) (l : list (string * nat))
  : list (string * nat) :=
  match l with
  | [] => [x]
  | y :: l' => if (snd x <? snd y)%nat then y :: insert_desc x l' else x :: y :: l'
  end.

(** [sorted(items, key=itemgetter(1), reverse=True)]: stable, so equal
    counts stay in insertion order. *)
Definition sorted_desc (items : list (string * nat)) : list (string * nat) :=
  fold_right insert_desc [] items.

(** [c.most_common(n)] ([heapq.nlargest], i.e. the first [n] of the sorted
    items) and [c.most_common()]. *)
Definition most_common (n : option nat) (c : Counter) : list (string * nat) :=
  match n with
  | Some n => firstn n (sorted_desc c)
  | None => sorted_desc c
  end.

End Collections.

(* ================================================================= *)
(** ** [ado_pr_contribution.py] *)

Module Contribution.

Definition DEFAULT_PROJECT : string := "ic.cloud-core".
Definition USE_CREATION_DATE : bool := false.

(** The client object: [self.organization], [self.project] (the session only
    carries the token). *)
Record AzureDevOpsAPI := mkAPI {
  organization : string;
  project_of : string
}.

Section Client.
Context {rt : Runtime} (env : environment).

Definition resources_to_try : list string :=
  [ "499b84ac-1321-427f-aa17-267ca6975798";
    "https://app.vssps.visualstudio.com/";
    "https://dev.azure.com/" ].

(** The [for resource in resources_to_try] loop: [Ok (Some t)] after a
    [break], [Ok None] when every resource failed, [Raise] when the output
    of [az] could not be read. *)
Fixpoint try_resources (resources : list string) : result (option string) :=
  match resources with
  | [] => Ok None
  | resource :: rest =>
      match az_get_access_token env resource with
      | AzToken t => Ok (Some t)
      | AzCalledProcessError => try_resources rest
      | AzBadOutput => Raise ValueError
      end
  end.

(** Every failure path prints and ends in [sys.exit(1)]. *)
Definition _setup_authentication : M unit :=
  match try_resources resources_to_try with
  | Ok (Some access_token) =>
      if String.eqb access_token "" then
        (emit (Stderr AuthenticationError) ;; sys_exit 1)%io
      else ret tt
  | _ => (emit (Stderr AuthenticationError) ;; sys_exit 1)%io
  end.

(** [AzureDevOpsAPI(organization, project)]. *)
Definition new_AzureDevOpsAPI (organization project : string) : M AzureDevOpsAPI :=
  (_setup_authentication ;; ret (mkAPI organization project))%io.

Definition get_repositories (self : AzureDevOpsAPI) : M (list repository) :=
  (emit (Request (ListRepositories (project_of self))) ;;
   match repositories_of env (project_of self) with
   | Success value => ret value
   | NoValueKey => raise (KeyError "value")
   | HttpError _ | ConnectionError =>
       emit (Stderr ErrorFetchingRepositories) ;; ret []
   end)%io.

Definition get_pull_requests (self : AzureDevOpsAPI) (repository_id : string)
    (skip top : nat) : M (list pull_request) :=
  (emit (Request (ListPullRequests (project_of self) repository_id skip top)) ;;
   match pull_requests_of env (project_of self) repository_id skip top with
   | Success value => ret value
   | NoValueKey => raise (KeyError "value")
   | HttpError status_code =>
       if (status_code =? 404)%Z then ret []
       else if (status_code =? 403)%Z then ret []
       else ret []
   | ConnectionError =>
       emit (Stderr (NetworkErrorPullRequests repository_id)) ;; ret []
   end)%io.

(** [pr['repositoryName'] = repo_name; pr['projectName'] = self.project]. *)
Definition annotate (repo_name project : string) (pr : pull_request) : pull_request :=
  {| pullRequestId := pullRequestId pr;
     creationDate := creationDate pr;
     closedDate := closedDate pr;
     createdBy := createdBy pr;
     reviewers := reviewers pr;
     other_keys := other_keys pr;
     repositoryName := Some repo_name;
     projectName := Some project |}.

(** [pr['creationDate'] if use_creation_date else pr.get('closedDate')]. *)
Definition date_field_of (use_creation_date : bool) (pr : pull_request)
  : result (option string) :=
  if use_creation_date then
    match creationDate pr with
    | Some s => Ok (Some s)
    | None => Raise (KeyError "creationDate")
    end
  else Ok (closedDate pr).

(** [datetime.fromisoformat(s).date()] outside any [try]. *)
Definition date_of_iso (s : string) : result date :=
  match fromisoformat s with
  | Some dt => Ok (dt_date dt)
  | None => Raise ValueError
  end.

(** Body of [for pr in prs] (lines 197-228). [Some pr'] when the record was
    annotated and appended to [filtered_prs], [None] when the iteration left
    it alone. *)
Definition filter_pr (self : AzureDevOpsAPI) (repo_name start_date end_date : string)
    (use_creation_date : bool) (pr : pull_request) : result (option pull_request) :=
  (date_field <- date_field_of use_creation_date pr ;;
   match date_field with
   | Some date_field =>
       if String.eqb date_field "" then Ok None
       else
         match fromisoformat (clean_date date_field) with
         | None => Ok None                       (* except ValueError: continue *)
         | Some dt =>
             let pr_date := dt_date dt in
             start_dt <- date_of_iso start_date ;;
             end_dt <- date_of_iso end_date ;;
             if date_leb start_dt pr_date && date_ltb pr_date end_dt
             then Ok (Some (annotate repo_name (project_of self) pr))
             else Ok None
         end
   | None => Ok None
   end)%result.

(** The whole [for pr in prs] loop. The records of [prs] are the very
    objects appended to [filtered_prs], so the loop returns the page as the
    assignments left it together with [filtered_prs]. *)
Fixpoint filter_prs (self : AzureDevOpsAPI) (repo_name start_date end_date : string)
    (use_creation_date : bool) (prs : list pull_request)
  : result (list pull_request * list pull_request) :=
  match prs with
  | [] => Ok ([], [])
  | pr :: rest =>
      (kept <- filter_pr self repo_name start_date end_date use_creation_date pr ;;
       ' (rest', filtered_prs) <-
           filter_prs self repo_name start_date end_date use_creation_date rest ;;
       match kept with
       | Some pr' => Ok (pr' :: rest', pr' :: filtered_prs)
       | None => Ok (pr :: rest', filtered_prs)
       end)%result
  end.

(** Lines 238-257: whether the loop [break]s because the newest record of
    the page is older than the window. *)
Definition newest_is_older (start_date : string) (use_creation_date : bool)
    (prs : list pull_request) : result bool :=
  match prs with
  | newest :: _ =>
      if use_creation_date then
        match creationDate newest with
        | None => Raise (KeyError "creationDate")
        | Some newest_pr_date_str =>
            match fromisoformat (clean_date newest_pr_date_str) with
            | None => Ok false                   (* except ValueError: pass *)
            | Some newest_dt =>
                match fromisoformat start_date with
                | None => Ok false               (* except ValueError: pass *)
                | Some start_dt => Ok (date_ltb (dt_date newest_dt) (dt_date start_dt))
                end
            end
        end
      else Ok false
  | [] => Ok false
  end.

Definition batch_size : nat := 100.

(** Locals of one turn of [for i, repo in enumerate(repositories)]. *)
Record repo_state := mkRepoState {
  all_prs : list pull_request;
  total_fetched : nat;
  skip : nat;
  repo_pr_count : nat;
  repo_has_data : bool
}.

(** [while True] of lines 185-259, one unit of fuel per turn. *)
Fixpoint fetch_repository (fuel : nat) (self : AzureDevOpsAPI) (repo : repository)
    (start_date end_date : string) (use_creation_date : bool) (st : repo_state)
  : M repo_state :=
  match fuel with
  | O => out_of_fuel
  | S fuel' =>
      (prs <- get_pull_requests self (repo_id repo) (skip st) batch_size ;;
       let repo_has_data' :=
         match prs with
         | _ :: _ => if negb (repo_has_data st) then true else repo_has_data st
         | [] => repo_has_data st
         end in
       match prs with
       | [] =>
           ret (mkRepoState (all_prs st) (total_fetched st) (skip st)
                  (repo_pr_count st) repo_has_data')
       | _ :: _ =>
           pf <- lift (filter_prs self (repo_name repo) start_date end_date
                         use_creation_date prs) ;;
           let (prs, filtered_prs) := pf : list pull_request * list pull_request in
           let st' :=
             mkRepoState (all_prs st ++ filtered_prs)
               (total_fetched st + List.length prs) (skip st)
               (repo_pr_count st + List.length filtered_prs) repo_has_data' in
           if (List.length prs <? batch_size)%nat then ret st'
           else
             stop <- lift (newest_is_older start_date use_creation_date prs) ;;
             if (stop : bool) then ret st'
             else
               fetch_repository fuel' self repo start_date end_date use_creation_date
                 (mkRepoState (all_prs st') (total_fetched st')
                    (skip st' + batch_size) (repo_pr_count st') (repo_has_data st'))
       end)%io
  end.

(** Locals of [get_all_pull_requests] that outlive one repository. *)
Record project_state := mkProjectState {
  ps_all_prs : list pull_request;
  ps_total_fetched : nat;
  repos_with_prs : nat;
  repos_skipped : nat
}.

(** One turn of [for i, repo in enumerate(repositories)]. *)
Definition process_repository (fuel : nat) (self : AzureDevOpsAPI)
    (start_date end_date : string) (use_creation_date : bool)
    (ps : project_state) (repo : repository) : M project_state :=
  (st <- fetch_repository fuel self repo start_date end_date use_creation_date
           (mkRepoState (ps_all_prs ps) (ps_total_fetched ps) 0 0 false) ;;
   if (0 <? repo_pr_count st)%nat then
     ret (mkProjectState (all_prs st) (total_fetched st)
            (repos_with_prs ps + 1) (repos_skipped ps))
   else if negb (repo_has_data st) then
     ret (mkProjectState (all_prs st) (total_fetched st)
            (repos_with_prs ps) (repos_skipped ps + 1))
   else
     ret (mkProjectState (all_prs st) (total_fetched st)
            (repos_with_prs ps) (repos_skipped ps)))%io.

Fixpoint process_repositories (fuel : nat) (self : AzureDevOpsAPI)
    (start_date end_date : string) (use_creation_date : bool)
    (ps : project_state) (repositories : list repository) : M project_state :=
  match repositories with
  | [] => ret ps
  | repo :: rest =>
      (ps' <- process_repository fuel self start_date end_date use_creation_date ps repo ;;
       process_repositories fuel self start_date end_date use_creation_date ps' rest)%io
  end.

Definition get_all_pull_requests (fuel : nat) (self : AzureDevOpsAPI)
    (start_date end_date : string) (use_creation_date : bool)
  : M (list pull_request) :=
  (repositories <- get_repositories self ;;
   ps <- process_repositories fuel self start_date end_date use_creation_date
           (mkProjectState [] 0 0 0) repositories ;;
   ret (ps_all_prs ps))%io.

(** [for i, project in enumerate(projects)] of
    [fetch_prs_from_multiple_projects], from the running [all_prs]. *)
Fixpoint fetch_projects (fuel : nat) (organization : string) (projects : list string)
    (start_date end_date : string) (use_creation_date : bool)
    (all_prs : list pull_request) : M (list pull_request) :=
  match projects with
  | [] => ret all_prs
  | project :: rest =>
      (all_prs' <-
         try_except_Exception
           (api <- new_AzureDevOpsAPI organization project ;;
            project_prs <- get_all_pull_requests fuel api start_date end_date
                             use_creation_date ;;
            ret (all_prs ++ project_prs))
           (fun e => emit (Stderr (WarningProjectFailed project e)) ;; ret all_prs) ;;
       fetch_projects fuel organization rest start_date end_date use_creation_date
         all_prs')%io
  end.

Definition fetch_prs_from_multiple_projects (fuel : nat) (organization : string)
    (projects : list string) (start_date end_date : string)
    (use_creation_date : bool) : M (list pull_request) :=
  fetch_projects fuel organization projects start_date end_date use_creation_date [].

End Client.

(** *** Command line and date range *)

(** What [parse_arguments] returns. *)
Record arguments := mkArgs {
  arg_projects : list string;
  arg_year : option string;
  arg_month : option string;
  use_current_month : bool;
  use_whole_year : bool
}.

(** The first loop of [parse_arguments]: the last [-v]/[-vv] sets
    [VERBOSITY], everything else is kept. *)
Fixpoint strip_verbosity (argv : list string) (VERBOSITY : nat) : nat * list string :=
  match argv with
  | [] => (VERBOSITY, [])
  | arg :: rest =>
      if String.eqb arg "-vv" then strip_verbosity rest 2
      else if String.eqb arg "-v" then strip_verbosity rest 1
      else let (v, args) := strip_verbosity rest VERBOSITY in (v, arg :: args)
  end.

(** [[p.strip() for p in arg.split(',')]]. *)
Definition project_list (arg : string) : list string :=
  map PyStr.strip (PyStr.split "," arg).

Section CommandLine.
Context {rt : Runtime}.

(** [parse_arguments], on [sys.argv[1:]] and the initial [VERBOSITY]; the
    new [VERBOSITY] comes back with the result. *)
Definition parse_arguments (argv : list string) (VERBOSITY : nat) : nat * M arguments :=
  let (VERBOSITY, args) := strip_verbosity argv VERBOSITY in
  (VERBOSITY,
   match args with
   | [] => ret (mkArgs [DEFAULT_PROJECT] None None true false)
   | [arg] =>
       let as_projects := ret (mkArgs (project_list arg) None None true false) in
       match py_int arg with
       | Some year_int =>
           if ((2000 <=? year_int) && (year_int <=? 2030))%Z
           then ret (mkArgs [DEFAULT_PROJECT] (Some arg) None false true)
           else as_projects
       | None => as_projects
       end
   | [arg1; arg2] =>
       let second_try :=
         let invalid := (emit (Stderr InvalidArguments) ;; sys_exit 1)%io in
         match py_int arg2 with
         | Some year_int =>
             if ((2000 <=? year_int) && (year_int <=? 2030))%Z
             then ret (mkArgs (project_list arg1) (Some arg2) None false true)
             else invalid
         | None => invalid
         end in
       match py_int arg1 with
       | Some year_int =>
           if ((2000 <=? year_int) && (year_int <=? 2030))%Z then
             match py_int arg2 with
             | Some month_int =>
                 if ((1 <=? month_int) && (month_int <=? 12))%Z
                 then ret (mkArgs [DEFAULT_PROJECT] (Some arg1) (Some arg2) false false)
                 else second_try
             | None => second_try
             end
           else second_try
       | None => second_try
       end
   | [arg1; arg2; arg3] =>
       ret (mkArgs (project_list arg1) (Some arg2) (Some arg3) false false)
   | _ => (emit (Stderr InvalidArguments) ;; sys_exit 1)%io
   end).

End CommandLine.

Section DateRange.
Context {rt : Runtime} (env : environment).

(** [int(s)] outside any [try]. *)
Definition int_of (s : string) : M Z :=
  match py_int s with
  | Some n => ret n
  | None => raise ValueError
  end.

(** The [except ValueError] of both validators. *)
Definition invalid_date {A} : M A :=
  (emit (Stderr InvalidDate) ;; sys_exit 1)%io.

Definition validate_year_input (year : option string) : M string :=
  match year with
  | None => raise TypeError                          (* [int(None)] *)
  | Some year =>
      match py_int year with
      | Some year_int =>
          if ((year_int <? 2000) || (year_int >? 2030))%Z then invalid_date
          else ret (format_0d 4 year_int)
      | None => invalid_date
      end
  end.

Definition validate_date_inputs (year month : option string) : M (string * string) :=
  match year with
  | None => raise TypeError                          (* [int(None)] *)
  | Some year =>
      match py_int year with
      | Some year_int =>
          match month with
          | None => raise TypeError                  (* [int(None)] *)
          | Some month =>
              match py_int month with
              | Some month_int =>
                  if ((year_int <? 2000) || (year_int >? 2030))%Z then invalid_date
                  else if ((month_int <? 1) || (month_int >? 12))%Z then invalid_date
                  else ret (format_0d 4 year_int, format_0d 2 month_int)
              | None => invalid_date
              end
          end
      | None => invalid_date
      end
  end.

(** [get_date_range]: [(start_date, end_date, period_desc)]. *)
Definition get_date_range (year month : option string)
    (use_current_month use_whole_year : bool) : M (string * string * string) :=
  if use_current_month then
    let today := dt_date (now env) in
    let start_date := strftime_Y_m_d (replace_day_1 today) in
    let end_date := strftime_Y_m_d (next_day today) in
    let period_desc :=
      "for the current month (" +:+ strftime_Y_m today +:+ ") up to today" in
    ret (start_date, end_date, period_desc)
  else if use_whole_year then
    (year_formatted <- validate_year_input year ;;
     let start_date := year_formatted +:+ "-01-01" in
     y <- int_of year_formatted ;;
     let end_date := format_0d 4 (y + 1) +:+ "-01-01" in
     let period_desc := "for the year " +:+ year_formatted in
     ret (start_date, end_date, period_desc))%io
  else
    (ym <- validate_date_inputs year month ;;
     let (year_formatted, month_formatted) := ym : string * string in
     let start_date := year_formatted +:+ "-" +:+ month_formatted +:+ "-01" in
     next_month <-
       (if String.eqb month_formatted "12" then
          y <- int_of year_formatted ;;
          ret (format_0d 4 (y + 1) +:+ "-01-01")
        else
          m <- int_of month_formatted ;;
          ret (year_formatted +:+ "-" +:+ format_0d 2 (m + 1) +:+ "-01")) ;;
     let end_date := next_month in
     let period_desc := "for " +:+ year_formatted +:+ "-" +:+ month_formatted in
     ret (start_date, end_date, period_desc))%io.

End DateRange.

(** *** Aggregation *)

(** The four counters of [analyze_pr_data]. *)
Record tally := mkTally {
  authors : Collections.Counter;
  reviewers_count : Collections.Counter;
  repositories : Collections.Counter;
  projects : Collections.Counter
}.

(** [x.get('displayName', 'Unknown')]. *)
Definition display_name (x : identity) : string :=
  match displayName x with
  | Some name => name
  | None => "Unknown"
  end.

(** [pr.get('createdBy', {}).get('displayName', 'Unknown')]. *)
Definition author_of (pr : pull_request) : string :=
  match createdBy pr with
  | Some who => display_name who
  | None => "Unknown"
  end.

(** [pr.get('reviewers', [])]. *)
Definition reviewers_of (pr : pull_request) : list identity :=
  match reviewers pr with
  | Some l => l
  | None => []
  end.

(** The test of line 466. *)
Definition is_human (reviewer_name : string) : bool :=
  negb (PyStr.startswith "[" reviewer_name)
  && negb (PyStr.contains "Cloud Services" reviewer_name).

(** [for reviewer in pr.get('reviewers', [])]. *)
Fixpoint count_reviewers (l : list identity) (reviewers : Collections.Counter)
  : Collections.Counter :=
  match l with
  | [] => reviewers
  | reviewer :: rest =>
      let reviewer_name := display_name reviewer in
      if is_human reviewer_name
      then count_reviewers rest (Collections.incr reviewer_name reviewers)
      else count_reviewers rest reviewers
  end.

(** Body of [for pr in prs] in [analyze_pr_data]. *)
Definition count_pr (t : tally) (pr : pull_request) : tally :=
  let author := author_of pr in
  let repo_name := match repositoryName pr with Some n => n | None => "Unknown" end in
  let project_name := match projectName pr with Some n => n | None => "Unknown" end in
  {| authors := Collections.incr author (authors t);
     reviewers_count := count_reviewers (reviewers_of pr) (reviewers_count t);
     repositories := Collections.incr repo_name (repositories t);
     projects := Collections.incr project_name (projects t) |}.

Definition tally_prs (prs : list pull_request) : tally :=
  fold_left count_pr prs (mkTally [] [] [] []).

(** The dictionary [analyze_pr_data] returns. *)
Record stats := mkStats {
  stats_authors : list (string * nat);
  stats_reviewers : list (string * nat);
  stats_repositories : list (string * nat);
  stats_projects : list (string * nat);
  total_prs : nat
}.

Definition analyze_pr_data (prs : list pull_request) : stats :=
  let t := tally_prs prs in
  {| stats_authors := Collections.most_common (Some 10) (authors t);
     stats_reviewers := Collections.most_common (Some 10) (reviewers_count t);
     stats_repositories := Collections.most_common (Some 10) (repositories t);
     stats_projects := Collections.most_common None (projects t);
     total_prs := List.length prs |}.

(** *** [main] *)

(** What [main] writes to standard output. *)
Inductive report :=
| NoPullRequestsFound (start_date end_date : string) (projects : list string)
| Results (s : stats) (projects : list string) (period_desc : string).

Section Main.
Context {rt : Runtime} (env : environment).

Definition main (fuel : nat) (argv : list string) : M report :=
  (args <- snd (parse_arguments argv 0) ;;
   range <- get_date_range env (arg_year args) (arg_month args)
              (use_current_month args) (use_whole_year args) ;;
   let '(start_date, end_date, period_desc) := range : string * string * string in
   let organization := configured_organization env in
   let projects := arg_projects args in
   try_except_Exception
     (prs <-
        match projects with
        | [project] =>
            api <- new_AzureDevOpsAPI env organization project ;;
            get_all_pull_requests env fuel api start_date end_date USE_CREATION_DATE
        | _ =>
            fetch_prs_from_multiple_projects env fuel organization projects
              start_date end_date USE_CREATION_DATE
        end ;;
      match prs with
      | [] => ret (NoPullRequestsFound start_date end_date projects)
      | _ :: _ => ret (Results (analyze_pr_data prs) projects period_desc)
      end)
     (fun e => emit (Stderr (ErrorFailed e)) ;; sys_exit 1))%io.

End Main.

End Contribution.

(* ================================================================= *)
(** ** [org_pr_count.py] *)

Module OrgCount.

Definition USE_CREATION_DATE : bool := false.

(** The client object: [self.organization]. *)
Record AzureDevOpsOrgAPI := mkAPI {
  organization : string
}.

Section Client.
Context {rt : Runtime} (env : environment).

(** Same text as in the other script. *)
Definition _setup_authentication : M unit :=
  match Contribution.try_resources env Contribution.resources_to_try with
  | Ok (Some access_token) =>
      if String.eqb access_token "" then
        (emit (Stderr AuthenticationError) ;; sys_exit 1)%io
      else ret tt
  | _ => (emit (Stderr AuthenticationError) ;; sys_exit 1)%io
  end.

Definition new_AzureDevOpsOrgAPI (organization : string) : M AzureDevOpsOrgAPI :=
  (_setup_authentication ;; ret (mkAPI organization))%io.

Definition get_all_projects (self : AzureDevOpsOrgAPI) : M (list project) :=
  (emit (Request ListProjects) ;;
   match projects_of env with
   | Success value => ret value
   | NoValueKey => raise (KeyError "value")
   | HttpError _ | ConnectionError =>
       emit (Stderr ErrorFetchingProjects) ;; ret []
   end)%io.

Definition get_repositories (self : AzureDevOpsOrgAPI) (project_name : string)
  : M (list repository) :=
  (emit (Request (ListRepositories project_name)) ;;
   match repositories_of env project_name with
   | Success value => ret value
   | NoValueKey => raise (KeyError "value")
   | HttpError _ => ret []
   | ConnectionError =>
       emit (Stderr (NetworkErrorRepositories project_name)) ;; ret []
   end)%io.

Definition get_pull_requests (self : AzureDevOpsOrgAPI) (project_name repository_id : string)
    (skip top : nat) : M (list pull_request) :=
  (emit (Request (ListPullRequests project_name repository_id skip top)) ;;
   match pull_requests_of env project_name repository_id skip top with
   | Success value => ret value
   | NoValueKey => raise (KeyError "value")
   | HttpError status_code =>
       if (status_code =? 404)%Z then ret []
       else if (status_code =? 403)%Z then ret []
       else ret []
   | ConnectionError =>
       emit (Stderr (NetworkErrorPullRequests repository_id)) ;; ret []
   end)%io.

(** Body of [for pr in prs] (lines 209-236): whether [filtered_pr_count]
    grows by one. *)
Definition in_range (start_date end_date : string) (use_creation_date : bool)
    (pr : pull_request) : result bool :=
  (date_field <- Contribution.date_field_of use_creation_date pr ;;
   match date_field with
   | Some date_field =>
       if String.eqb date_field "" then Ok false
       else
         match fromisoformat (clean_date date_field) with
         | None => Ok false                      (* except ValueError: continue *)
         | Some dt =>
             let pr_date := dt_date dt in
             start_dt <- Contribution.date_of_iso start_date ;;
             end_dt <- Contribution.date_of_iso end_date ;;
             Ok (date_leb start_dt pr_date && date_ltb pr_date end_dt)
         end
   | None => Ok false
   end)%result.

(** The [for pr in prs] loop: the final [filtered_pr_count]. *)
Fixpoint count_in_range (start_date end_date : string) (use_creation_date : bool)
    (prs : list pull_request) (filtered_pr_count : nat) : result nat :=
  match prs with
  | [] => Ok filtered_pr_count
  | pr :: rest =>
      (hit <- in_range start_date end_date use_creation_date pr ;;
       count_in_range start_date end_date use_creation_date rest
         (if (hit : bool) then filtered_pr_count + 1 else filtered_pr_count))%result
  end.

Definition batch_size : nat := 100.

(** Locals of one turn of [for repo in repositories]. *)
Record repo_state := mkRepoState {
  skip : nat;
  repo_pr_count : nat;
  repo_has_data : bool
}.

(** [while True] of lines 197-265. *)
Fixpoint count_repository (fuel : nat) (self : AzureDevOpsOrgAPI)
    (project_name : string) (repo : repository) (start_date end_date : string)
    (use_creation_date : bool) (st : repo_state) : M repo_state :=
  match fuel with
  | O => out_of_fuel
  | S fuel' =>
      (prs <- get_pull_requests self project_name (repo_id repo) (skip st) batch_size ;;
       let repo_has_data' :=
         match prs with
         | _ :: _ => if negb (repo_has_data st) then true else repo_has_data st
         | [] => repo_has_data st
         end in
       match prs with
       | [] => ret (mkRepoState (skip st) (repo_pr_count st) repo_has_data')
       | _ :: _ =>
           filtered_pr_count <-
             lift (count_in_range start_date end_date use_creation_date prs 0) ;;
           let st' :=
             mkRepoState (skip st) (repo_pr_count st + filtered_pr_count)
               repo_has_data' in
           if (List.length prs <? batch_size)%nat then ret st'
           else
             stop <- lift (Contribution.newest_is_older start_date use_creation_date prs) ;;
             if (stop : bool) then ret st'
             else
               count_repository fuel' self project_name repo start_date end_date
                 use_creation_date
                 (mkRepoState (skip st' + batch_size) (repo_pr_count st')
                    (repo_has_data st'))
       end)%io
  end.

(** Locals of [count_project_prs] that outlive one repository. *)
Record project_state := mkProjectState {
  total_pr_count : nat;
  repos_with_prs : nat;
  repos_skipped : nat
}.

(** One turn of [for repo in repositories]. *)
Definition process_repository (fuel : nat) (self : AzureDevOpsOrgAPI)
    (project_name start_date end_date : string) (use_creation_date : bool)
    (ps : project_state) (repo : repository) : M project_state :=
  (st <- count_repository fuel self project_name repo start_date end_date
           use_creation_date (mkRepoState 0 0 false) ;;
   let ps' :=
     if (0 <? repo_pr_count st)%nat then
       mkProjectState (total_pr_count ps) (repos_with_prs ps + 1) (repos_skipped ps)
     else if negb (repo_has_data st) then
       mkProjectState (total_pr_count ps) (repos_with_prs ps) (repos_skipped ps + 1)
     else ps in
   ret (mkProjectState (total_pr_count ps' + repo_pr_count st)
          (repos_with_prs ps') (repos_skipped ps')))%io.

Fixpoint process_repositories (fuel : nat) (self : AzureDevOpsOrgAPI)
    (project_name start_date end_date : string) (use_creation_date : bool)
    (ps : project_state) (repositories : list repository) : M project_state :=
  match repositories with
  | [] => ret ps
  | repo :: rest =>
      (ps' <- process_repository fuel self project_name start_date end_date
                use_creation_date ps repo ;;
       process_repositories fuel self project_name start_date end_date
         use_creation_date ps' rest)%io
  end.

Definition count_project_prs (fuel : nat) (self : AzureDevOpsOrgAPI)
    (project_name start_date end_date : string) (use_creation_date : bool) : M nat :=
  (repositories <- get_repositories self project_name ;;
   ps <- process_repositories fuel self project_name start_date end_date
           use_creation_date (mkProjectState 0 0 0) repositories ;;
   ret (total_pr_count ps))%io.

(** [for i, project in enumerate(projects)] of [main] (lines 461-480), from
    the running [(project_counts, total_prs)]. *)
Fixpoint count_projects (fuel : nat) (api : AzureDevOpsOrgAPI)
    (start_date end_date : string) (projects : list project)
    (project_counts : list (string * nat)) (total_prs : nat)
  : M (list (string * nat) * nat) :=
  match projects with
  | [] => ret (project_counts, total_prs)
  | project :: rest =>
      let project_name := project_name project in
      (acc <-
         try_except_Exception
           (project_pr_count <- count_project_prs fuel api project_name start_date
                                  end_date USE_CREATION_DATE ;;
            ret (Collections.dict_set project_name project_pr_count project_counts,
                 total_prs + project_pr_count))
           (fun e =>
              emit (Stderr (WarningProjectFailed project_name e)) ;;
              ret (Collections.dict_set project_name 0 project_counts, total_prs)) ;;
       count_projects fuel api start_date end_date rest (fst acc) (snd acc))%io
  end.

(** What [main] writes to standard output. *)
Record report := mkReport {
  report_total_prs : nat;
  breakdown : list (string * nat);
  projects_analyzed : nat;
  projects_with_prs : nat
}.

(** [main] from line 441 on, for the [(start_date, end_date)] that lines
    427-430 computed. *)
Definition main (fuel VERBOSITY : nat) (start_date end_date : string) : M report :=
  let organization := configured_organization env in
  try_except_Exception
    (api <- new_AzureDevOpsOrgAPI organization ;;
     projects <- get_all_projects api ;;
     match projects with
     | [] => emit (Stderr NoProjectsFound) ;; sys_exit 1
     | _ :: _ =>
         acc <- count_projects fuel api start_date end_date projects [] 0 ;;
         let (project_counts, total_prs) := acc : list (string * nat) * nat in
         let sorted_projects := Collections.sorted_desc project_counts in
         ret {| report_total_prs := total_prs;
                breakdown :=
                  filter (fun item => (0 <? snd item)%nat || (2 <=? VERBOSITY)%nat)
                    sorted_projects;
                projects_analyzed := List.length projects;
                projects_with_prs :=
                  List.length (filter (fun item => (0 <? snd item)%nat) project_counts) |}
     end)%io
    (fun e => emit (Stderr (ErrorFailed e)) ;; sys_exit 1)%io.

End Client.

End OrgCount.

(* ================================================================= *)
(** ** A reference runtime

    [fromisoformat] after the grammar CPython 3.7-3.10 documents,
    [YYYY-MM-DD[*HH[:MM[:SS[.fff[fff]]]][+HH:MM[:SS[.ffffff]]]]], and [int]
    for decimal literals. The theorems below hold for every [Runtime]; this
    one makes them run. *)

Module Reference.

Definition digit (a : ascii) : option Z :=
  let n := nat_of_ascii a in
  if ((48 <=? n) && (n <=? 57))%nat then Some (Z.of_nat (n - 48)) else None.

(** Exactly [n] decimal digits, then the rest. *)
Fixpoint read_digits (n : nat) (acc : Z) (s : string) : option (Z * string) :=
  match n with
  | O => Some (acc, s)
  | S n' =>
      match s with
      | String a s' =>
          match digit a with
          | Some d => read_digits n' (10 * acc + d) s'
          | None => None
          end
      | EmptyString => None
      end
  end.

Definition expect (c : ascii) (s : string) : option string :=
  match s with
  | String a s' => if Ascii.eqb a c then Some s' else None
  | EmptyString => None
  end.

Definition obind {A B} (o : option A) (k : A -> option B) : option B :=
  match o with
  | Some a => k a
  | None => None
  end.

Declare Scope opt_scope.
Delimit Scope opt_scope with opt.
Notation "x <- o ;; k" := (obind o (fun x => k))
  (at level 100, o at next level, right associativity) : opt_scope.
Notation "' p <- o ;; k" := (obind o (fun p => k))
  (at level 100, p pattern, o at next level, right associativity) : opt_scope.

(** [HH[:MM[:SS[.fff[fff]]]]] up to the end of the string. *)
Definition parse_hh_mm_ss_ff (s : string) : option (Z * Z * Z * Z) :=
  (' (h, s) <- read_digits 2 0 s ;;
   match s with
   | EmptyString => Some (h, 0, 0, 0)%Z
   | _ =>
       s <- expect ":" s ;;
       ' (m, s) <- read_digits 2 0 s ;;
       match s with
       | EmptyString => Some (h, m, 0, 0)%Z
       | _ =>
           s <- expect ":" s ;;
           ' (sec, s) <- read_digits 2 0 s ;;
           match s with
           | EmptyString => Some (h, m, sec, 0)%Z
           | _ =>
               s <- expect "." s ;;
               if (String.length s =? 3)%nat then
                 ' (us, _) <- read_digits 3 0 s ;; Some (h, m, sec, us * 1000)%Z
               else if (String.length s =? 6)%nat then
                 ' (us, _) <- read_digits 6 0 s ;; Some (h, m, sec, us)%Z
               else None
           end
       end
   end)%opt.

(** The time text up to the first ['+'] or ['-'], and what follows the sign. *)
Fixpoint split_tz (s : string) : string * option (bool * string) :=
  match s with
  | EmptyString => (EmptyString, None)
  | String a s' =>
      if Ascii.eqb a "+" then (EmptyString, Some (false, s'))
      else if Ascii.eqb a "-" then (EmptyString, Some (true, s'))
      else let (t, z) := split_tz s' in (String a t, z)
  end.

Definition valid_time (h m sec us : Z) : bool :=
  ((0 <=? h) && (h <? 24) && (0 <=? m) && (m <? 60) && (0 <=? sec) && (sec <? 60)
   && (0 <=? us) && (us <? 1000000))%Z.

Definition valid_date (y m d : Z) : bool :=
  ((1 <=? y) && (y <=? 9999) && (1 <=? m) && (m <=? 12) && (1 <=? d)
   && (d <=? days_in_month y m))%Z.

(** The offset in microseconds, strictly inside one day either way. *)
Definition parse_tz (negative : bool) (tzstr : string) : option Z :=
  let n := String.length tzstr in
  if ((n =? 5) || (n =? 8) || (n =? 15))%nat then
    (' (h, m, sec, us) <- parse_hh_mm_ss_ff tzstr ;;
     if valid_time h m sec us then
       let off := (((h * 60 + m) * 60 + sec) * 1000000 + us)%Z in
       Some (if negative then (- off)%Z else off)
     else None)%opt
  else None.

(** [YYYY-MM-DD] at the head of the string, and what follows it. *)
Definition parse_date (s : string) : option (date * string) :=
  (' (y, s) <- read_digits 4 0 s ;;
   s <- expect "-" s ;;
   ' (m, s) <- read_digits 2 0 s ;;
   s <- expect "-" s ;;
   ' (d, s) <- read_digits 2 0 s ;;
   if valid_date y m d then Some (mkDate y m d, s) else None)%opt.

(** [HH[:MM[:SS[.fff[fff]]]][+HH:MM[:SS[.ffffff]]]]: hour, minute, second,
    microsecond and offset. *)
Definition parse_time (tstr : string) : option (Z * Z * Z * Z * option Z) :=
  let (timestr, tz) := split_tz tstr in
  (' (h, mi, sec, us) <- parse_hh_mm_ss_ff timestr ;;
   if valid_time h mi sec us then
     match tz with
     | None => Some (h, mi, sec, us, None)
     | Some (negative, tzstr) =>
         off <- parse_tz negative tzstr ;;
         Some (h, mi, sec, us, Some off)
     end
   else None)%opt.

(** The date, then one separator of any kind, then the time. *)
Definition fromisoformat (date_string : string) : option datetime :=
  (' (d, rest) <- parse_date date_string ;;
   match rest with
   | EmptyString => Some (mkDatetime d 0 0 0 0 None)
   | String _ tstr =>
       ' (h, mi, sec, us, tz) <- parse_time tstr ;;
       Some (mkDatetime d h mi sec us tz)
   end)%opt.

(** Decimal digits with single underscores between them. *)
Fixpoint read_int (acc : Z) (after_digit : bool) (s : string) : option Z :=
  match s with
  | EmptyString => if after_digit then Some acc else None
  | String a s' =>
      match digit a with
      | Some d => read_int (10 * acc + d) true s'
      | None =>
          if Ascii.eqb a "_" && after_digit then read_int acc false s' else None
      end
  end.

(** [int(s)]: surrounding white space, an optional sign, decimal digits. *)
Definition py_int (s : string) : option Z :=
  match PyStr.strip s with
  | String "-" body => option_map Z.opp (read_int 0 false body)
  | String "+" body => read_int 0 false body
  | body => read_int 0 false body
  end.

Definition runtime : Runtime := Build_Runtime fromisoformat py_int.

End Reference.


(* ================================================================= *)
(** ** Vocabulary of the specification *)

Module Spec.


(** Whether [n], printed on [width] digits, is read back as [n]. *)
Definition reads_back (width : nat) (n : Z) : bool :=
  match Reference.read_digits width 0 (format_0d width n) with
  | Some (v, EmptyString) => (v =? n)%Z
  | _ => false
  end.

(** Whether the reference [int] reads [n], printed on [width] digits, as
    [n]. *)
Definition int_reads_back (width : nat) (n : Z) : bool :=
  match Reference.py_int (format_0d width n) with
  | Some v => (v =? n)%Z
  | None => false
  end.

(** A date [date(y, m, d)] accepts, below the last year. *)
Definition valid_today (d : date) : Prop :=
  Reference.valid_date (year d) (month d) (day d) = true /\ (year d < 9999)%Z.



(** The timestamp the run is configured to look at. *)
Definition configured_timestamp (use_creation_date : bool) (pr : pull_request)
  : option string :=
  if use_creation_date then creationDate pr else closedDate pr.

(** The calendar date of a record's configured timestamp, when the record
    has one and it can be read. *)
Definition record_date {rt : Runtime} (use_creation_date : bool) (pr : pull_request)
  : option date :=
  match configured_timestamp use_creation_date pr with
  | Some timestamp =>
      if String.eqb timestamp "" then None
      else option_map dt_date (fromisoformat (clean_date timestamp))
  | None => None
  end.

(** [start <= d < end]. *)
Definition in_window (start_dt end_dt d : date) : Prop :=
  date_le start_dt d /\ date_lt d end_dt.

(** A repository that holds exactly [items], listed [top] at a time from
    offset [skip]. *)
Definition served_in_pages (env : environment) (project repository_id : string)
    (items : list pull_request) : Prop :=
  forall skip top,
    pull_requests_of env project repository_id skip top
    = Success (firstn top (skipn skip items)).

(** What the filter loop may do to a record: nothing, or the two
    assignments. *)
Definition touched (repo_name project : string) (pr pr' : pull_request) : Prop :=
  pr' = pr \/ pr' = Contribution.annotate repo_name project pr.

(** The body of the [try] of [fetch_prs_from_multiple_projects] up to the
    records of the project. *)
Definition project_run {rt : Runtime} (env : environment) (fuel : nat)
    (organization start_date end_date : string) (use_creation_date : bool)
    (project : string) : M (list pull_request) :=
  (api <- Contribution.new_AzureDevOpsAPI env organization project ;;
   Contribution.get_all_pull_requests env fuel api start_date end_date
     use_creation_date)%io.

(** A unit of work that comes to an end without leaving the process: it
    returns, or raises an [Exception]. *)
Definition settles {A} (m : M A) : Prop :=
  match fst m with
  | Some (Ok _) => True
  | Some (Raise e) => is_Exception e = true
  | None => False
  end.

(** The records a project contributes: those its run returned. *)
Definition contribution (m : M (list pull_request)) : list pull_request :=
  match fst m with
  | Some (Ok prs) => prs
  | _ => []
  end.

(** The count a project contributes. *)
Definition counted (m : M nat) : nat :=
  match fst m with
  | Some (Ok n) => n
  | _ => 0
  end.

(** The warning a failed project leaves on standard error. *)
Definition warning {A} (project : string) (m : M A) : list event :=
  match fst m with
  | Some (Raise e) => [Stderr (WarningProjectFailed project e)]
  | _ => []
  end.

(** What the per-project [main] reports for the records [prs]. *)
Definition report_of (prs : list pull_request) (projects : list string)
    (start_date end_date period_desc : string) : Contribution.report :=
  match prs with
  | [] => Contribution.NoPullRequestsFound start_date end_date projects
  | _ :: _ => Contribution.Results (Contribution.analyze_pr_data prs) projects period_desc
  end.

(** [1] when the two names are the same, [0] otherwise. *)
Definition one_if (a b : string) : nat := if String.eqb a b then 1 else 0.

(** The display names of the reviewers of a record that the aggregator
    counts: those that pass the service-account test, with repetitions. *)
Definition counted_reviewers (pr : pull_request) : list string :=
  filter Contribution.is_human
    (map Contribution.display_name (Contribution.reviewers_of pr)).

(** How many entries of the reviewer list of [pr] count for [name]. *)
Definition reviews_by (pr : pull_request) (name : string) : nat :=
  count_occ string_dec (counted_reviewers pr) name.

(** The repository and project names the aggregator reads. *)
Definition repository_of (pr : pull_request) : string :=
  match repositoryName pr with Some n => n | None => "Unknown" end.

Definition project_name_of (pr : pull_request) : string :=
  match projectName pr with Some n => n | None => "Unknown" end.

(** The repositories the service lists for a project. *)
Definition listed_repositories (env : environment) (project : string)
  : list repository :=
  match repositories_of env project with
  | Success value => value
  | _ => []
  end.

(** Two records that agree on every key the service sent. *)
Definition same_payload (pr pr' : pull_request) : Prop :=
  pullRequestId pr' = pullRequestId pr
  /\ creationDate pr' = creationDate pr
  /\ closedDate pr' = closedDate pr
  /\ createdBy pr' = createdBy pr
  /\ reviewers pr' = reviewers pr
  /\ other_keys pr' = other_keys pr.

(** A record that carries the two annotations of the fetcher. *)
Definition annotated (repo_name project : string) (pr : pull_request) : Prop :=
  repositoryName pr = Some repo_name /\ projectName pr = Some project.

(** The locals of the per-project page loop after a page [prs] of which
    the filter kept [filtered_prs], and then after [skip += batch_size]. *)
Definition after_page (st : Contribution.repo_state)
    (prs filtered_prs : list pull_request) : Contribution.repo_state :=
  Contribution.mkRepoState
    (Contribution.all_prs st ++ filtered_prs)
    (Contribution.total_fetched st + List.length prs)
    (Contribution.skip st)
    (Contribution.repo_pr_count st + List.length filtered_prs) true.

Definition advance (st : Contribution.repo_state) : Contribution.repo_state :=
  Contribution.mkRepoState (Contribution.all_prs st) (Contribution.total_fetched st)
    (Contribution.skip st + Contribution.batch_size)
    (Contribution.repo_pr_count st) (Contribution.repo_has_data st).

(** The locals the organization-wide page loop shares with the per-project
    one. *)
Definition counts_only (st : Contribution.repo_state) : OrgCount.repo_state :=
  OrgCount.mkRepoState (Contribution.skip st) (Contribution.repo_pr_count st)
    (Contribution.repo_has_data st).

(** The [k]-th page of 100. *)
Definition page (items : list pull_request) (k : nat) : list pull_request :=
  firstn 100 (skipn (100 * k) items).

(** The request for the [k]-th page of a repository. *)
Definition page_request (project repository_id : string) (k : nat) : event :=
  Request (ListPullRequests project repository_id (100 * k) 100).

(** [ceil(n / d)]. *)
Definition ceil_div (n d : nat) : nat := (n + (d - 1)) / d.

(** Neither the filter nor the early-stop test ends the walk over [items]
    before the source is exhausted: the filter raises on no page, and the
    early-stop test is negative on every full page. *)
Definition walks_to_the_end {rt : Runtime} (self : Contribution.AzureDevOpsAPI)
    (repo_name start_date end_date : string) (use_creation_date : bool)
    (items : list pull_request) : Prop :=
  (forall k, k <= List.length items / 100 ->
     exists prs' filtered_prs,
       Contribution.filter_prs self repo_name start_date end_date use_creation_date
         (page items k) = Ok (prs', filtered_prs))
  /\ (forall k, k < List.length items / 100 ->
       Contribution.newest_is_older start_date use_creation_date (page items k)
       = Ok false).


(** Whether the date-window test takes a record: its configured timestamp
    reads as a date [d] with [start <= d < end]. *)
Definition takes {rt : Runtime} (use_creation_date : bool) (start_dt end_dt : date)
    (pr : pull_request) : bool :=
  match record_date use_creation_date pr with
  | Some d => date_leb start_dt d && date_ltb d end_dt
  | None => false
  end.

(** The records of [items] that a run over the window is to return: those
    the test takes, in the order of the listing, each with the two
    annotations of its repository and project. *)
Definition selected {rt : Runtime} (repo_name project : string)
    (use_creation_date : bool) (start_dt end_dt : date) (items : list pull_request)
  : list pull_request :=
  map (Contribution.annotate repo_name project)
    (filter (takes use_creation_date start_dt end_dt) items).

(** A record that carries a non-empty [creationDate]. *)
Definition has_creation_date (pr : pull_request) : bool :=
  match creationDate pr with
  | Some timestamp => negb (String.eqb timestamp "")
  | None => false
  end.

(** Dates in non-increasing order, as far as they are known: no date is
    later than a date that comes before it. *)
Fixpoint non_increasing (dates : list (option date)) : bool :=
  match dates with
  | [] => true
  | a :: after =>
      forallb (fun b => match a, b with
                        | Some da, Some db => date_leb db da
                        | _, _ => true
                        end) after
      && non_increasing after
  end.

(** A listing sorted newest first by creation date. *)
Definition newest_first {rt : Runtime} (items : list pull_request) : bool :=
  non_increasing (map (record_date true) items).

(** The requests of a trace, in order. *)
Definition requests (tr : list event) : list request :=
  flat_map (fun ev => match ev with Request rq => [rq] | Stderr _ => [] end) tr.

(** The requests for the first [m] pages of a repository from offset
    [skip]. *)
Definition pages_from (project repository_id : string) (skip m : nat) : list request :=
  map (fun i => ListPullRequests project repository_id (skip + 100 * i) 100) (seq 0 m).

(** The locals the organization-wide loop over repositories shares with the
    per-project one: the number of records instead of the records. *)
Definition project_counts_only (ps : Contribution.project_state)
  : OrgCount.project_state :=
  OrgCount.mkProjectState (List.length (Contribution.ps_all_prs ps))
    (Contribution.repos_with_prs ps) (Contribution.repos_skipped ps).

(** An entry of a ranking that does not come after another: its count is
    not smaller. *)
Definition outranks (x y : string * nat) : Prop := snd y <= snd x.

(** The entries of a counter or ranking that carry the count [n]. *)
Definition with_count (n : nat) (items : list (string * nat)) : list (string * nat) :=
  filter (fun item => (snd item =? n)%nat) items.

(** [Counter(keys)]: the counter after counting [keys] one by one. *)
Definition counter_of (keys : list string) : Collections.Counter :=
  fold_left (fun c key => Collections.incr key c) keys [].

(** The distinct keys of [keys], in the order of their first occurrence. *)
Definition first_seen (keys : list string) : list string :=
  rev (nodup string_dec (rev keys)).

(** How many records of [prs] carry [name] under [key]. *)
Definition occurrences (key : pull_request -> string) (prs : list pull_request)
    (name : string) : nat :=
  count_occ string_dec (map key prs) name.

(** What [Counter(keys).most_common(n)] shows: the [n] most frequent keys,
    or all of them when there are fewer; each with the number of its
    occurrences; most frequent first, keys of equal frequency in the order
    of their first occurrence; and no key left out occurs more often than a
    key shown. *)
Definition top_ranking (n : nat) (keys : list string) (ranking : list (string * nat))
  : Prop :=
  List.length ranking = Nat.min n (List.length (first_seen keys))
  /\ StronglySorted outranks ranking
  /\ NoDup (map fst ranking)
  /\ (forall name count, In (name, count) ranking ->
        count = count_occ string_dec keys name /\ 0 < count)
  /\ (forall name, In name keys -> ~ In name (map fst ranking) ->
        forall entry, In entry ranking -> count_occ string_dec keys name <= snd entry)
  /\ (forall count, exists rest,
        map fst (with_count count ranking) ++ rest
        = filter (fun key => (count_occ string_dec keys key =? count)%nat)
            (first_seen keys)).

(** The first day of the month after month [m] of year [y]. *)
Definition first_of_next_month (y m : Z) : date :=
  if (m =? 12)%Z then mkDate (y + 1) 1 1 else mkDate y (m + 1) 1.



(** The two verbosity flags. *)
Definition is_verbosity_flag (arg : string) : bool :=
  String.eqb arg "-vv" || String.eqb arg "-v".

(** The arguments that are not verbosity flags, in order. *)
Definition positional (argv : list string) : list string :=
  filter (fun arg => negb (is_verbosity_flag arg)) argv.

(** The level the last verbosity flag of [argv] asks for, [VERBOSITY] when
    there is none. *)
Definition last_flag (argv : list string) (VERBOSITY : nat) : nat :=
  fold_left (fun v arg => if String.eqb arg "-vv" then 2
                          else if String.eqb arg "-v" then 1 else v)
    argv VERBOSITY.




End Spec.

(* ================================================================= *)
(** ** Scenarios *)

Module Scenario.

Definition api : Contribution.AzureDevOpsAPI := Contribution.mkAPI "contoso" "Payments".

Definition ann : identity := mkIdentity (Some "Ann").
Definition bob : identity := mkIdentity (Some "Bob").

(** A completed pull request as the service lists it. *)
Definition completed (id : Z) (created closed : string) : pull_request :=
  mkPR id (Some created) (Some closed) (Some ann) (Some [bob])
    [("status", "completed")] None None.

(** The three records of the March scenario. *)
Definition pr_0301 := completed 1 "2025-02-20T09:00:00Z" "2025-03-01T00:00:00Z".
Definition pr_0331 := completed 2 "2025-02-21T09:00:00Z" "2025-03-31T23:59:59.9999999Z".
Definition pr_0401 := completed 3 "2025-02-22T09:00:00Z" "2025-04-01T00:00:00Z".

(** [n] records closed in mid-March, newest first. *)
Definition march_items (n : nat) : list pull_request :=
  map (fun i => completed (Z.of_nat i) "2025-03-10T09:00:00Z" "2025-03-15T12:00:00.1234567Z")
    (rev (seq 1 n)).

(** [n] records created in February and closed in March, newest first. *)
Definition february_items (n : nat) : list pull_request :=
  map (fun i => completed (Z.of_nat i) "2025-02-10T09:00:00.1234567Z" "2025-03-05T10:00:00Z")
    (rev (seq 1 n)).

(** A record reviewed by two people called Ann and by a build account. *)
Definition pr_two_anns : pull_request :=
  mkPR 7 (Some "2025-03-02T08:00:00Z") (Some "2025-03-03T08:00:00Z") (Some bob)
    (Some [ann; mkIdentity (Some "[Payments]\Build Service"); ann])
    [("status", "completed")] (Some "billing") (Some "Payments").

Definition billing : repository := mkRepo "r-1" "billing".

(** An organization with the one project [Payments], whose one repository
    [billing] holds [items]. *)
Definition env_of (items : list pull_request) : environment :=
  {| now := mkDatetime (mkDate 2025 3 20) 14 30 0 0 None;
     configured_organization := "contoso";
     az_get_access_token := fun _ => AzToken "token";
     projects_of := Success [mkProject "Payments"];
     repositories_of := fun project =>
       if String.eqb project "Payments" then Success [billing] else HttpError 404;
     pull_requests_of := fun project repository_id skip top =>
       if String.eqb project "Payments" && String.eqb repository_id "r-1"
       then Success (firstn top (skipn skip items))
       else HttpError 404 |}.

(** The same organization when [billing] answers its first page and then
    is not found any more. *)
Definition env_vanishing (items : list pull_request) : environment :=
  {| now := now (env_of items);
     configured_organization := "contoso";
     az_get_access_token := fun _ => AzToken "token";
     projects_of := Success [mkProject "Payments"];
     repositories_of := repositories_of (env_of items);
     pull_requests_of := fun project repository_id skip top =>
       if (skip =? 0)%nat then pull_requests_of (env_of items) project repository_id skip top
       else HttpError 404 |}.

(** An organization of two projects: listing the repositories of [Legacy]
    gives a body without ['value'], and [Payments] holds the three records
    of the March scenario. *)
Definition env_two_projects : environment :=
  {| now := mkDatetime (mkDate 2025 3 20) 14 30 0 0 None;
     configured_organization := "contoso";
     az_get_access_token := fun _ => AzToken "token";
     projects_of := Success [mkProject "Legacy"; mkProject "Payments"];
     repositories_of := fun project =>
       if String.eqb project "Payments" then Success [billing]
       else if String.eqb project "Legacy" then NoValueKey
       else HttpError 404;
     pull_requests_of :=
       pull_requests_of (env_of [pr_0301; pr_0331; pr_0401]) |}.

Definition fresh : Contribution.repo_state := Contribution.mkRepoState [] 0 0 0 false.
Definition org_fresh : OrgCount.repo_state := OrgCount.mkRepoState 0 0 false.
Definition org_api : OrgCount.AzureDevOpsOrgAPI := OrgCount.mkAPI "contoso".


(** 100 records created in March followed by 150 created in February,
    newest first. *)
Definition mixed_items : list pull_request :=
  march_items 100 ++ february_items 150.

End Scenario.

(* ################################################################# *)
(** * Properties *)

(* ================================================================= *)
(** ** Strings *)

Module PyStrFacts.
Import PyStr.

Lemma append_empty_r (s : string) : s +:+ "" = s.
Proof. induction s as [|a s IH]; simpl; [reflexivity | now rewrite IH]. Qed.


Lemma length_append (a b : string) :
  String.length (a +:+ b) = String.length a + String.length b.
Proof. induction a as [|x a IH]; simpl; [reflexivity | now rewrite IH]. Qed.




Lemma rsplit1_absent (c : ascii) (s : string) :
  contains_char c s = false -> rsplit1 c s = [s].
Proof.
  induction s as [|x s IH]; simpl; [reflexivity |].
  intros H. apply orb_false_iff in H as [Hx Hs].
  rewrite (IH Hs), Hx. reflexivity.
Qed.


(** Whenever the separator occurs, [rsplit] gives two parts. *)
Lemma rsplit1_present (c : ascii) (s : string) :
  contains_char c s = true ->
  exists before after,
    rsplit1 c s = [before; after] /\ s = before +:+ String c after
    /\ contains_char c after = false.
Proof.
  induction s as [|x s IH]; simpl; [discriminate |].
  intros H. destruct (contains_char c s) eqn:Hs.
  - destruct (IH eq_refl) as (b & a & -> & -> & Ha).
    exists (String x b), a. repeat split; assumption.
  - rewrite orb_false_r in H. rewrite (rsplit1_absent _ _ Hs), H.
    apply Ascii.eqb_eq in H as ->.
    exists "", s. repeat split; assumption.
Qed.




End PyStrFacts.

(* ================================================================= *)
(** ** Timestamp repair *)

Section CleanDate.
Import PyStr PyStrFacts.





End CleanDate.

(* ================================================================= *)
(** ** The reference parser on a repaired timestamp *)

Module ReferenceFacts.
Import PyStr PyStrFacts Reference.


Lemma read_digits_append (n : nat) (s t r : string) :
  forall acc v,
    read_digits n acc s = Some (v, r) ->
    read_digits n acc (s +:+ t) = Some (v, r +:+ t).
Proof.
  revert s. induction n as [|n IH]; intros s acc v; cbn [read_digits].
  - now intros [= -> ->].
  - destruct s as [|a s]; [discriminate |]. cbn [String.append].
    destruct (digit a); [apply IH | discriminate].
Qed.














End ReferenceFacts.

Section CleanDateClaim.
Import PyStr PyStrFacts.




Example clean_date_short_fraction :
  clean_date "2025-03-01T10:20:30.12Z" = "2025-03-01T10:20:30.12+00:00".
Proof. reflexivity. Qed.

Example clean_date_no_zone :
  clean_date "2025-03-01T10:20:30.1234567" = "2025-03-01T10:20:30.1234567".
Proof. reflexivity. Qed.

End CleanDateClaim.

(* ================================================================= *)
(** ** Dates *)

Lemma date_ltb_irrefl (d : date) : date_ltb d d = false.
Proof.
  unfold date_ltb. rewrite !Z.ltb_irrefl, !Z.eqb_refl. reflexivity.
Qed.

Lemma date_leb_refl (d : date) : date_leb d d = true.
Proof. unfold date_leb. now rewrite date_ltb_irrefl. Qed.

(* ================================================================= *)
(** ** The date-window test *)

Section DateWindow.
Context {rt : Runtime}.
Import Contribution.

Lemma date_of_iso_Ok (s : string) (d : date) :
  date_of_iso s = Ok d <-> option_map dt_date (fromisoformat s) = Some d.
Proof.
  unfold date_of_iso. destruct (fromisoformat s); simpl; split; congruence.
Qed.

(** The body of the per-project loop, once the window is known to parse, in
    terms of the record's date. *)
Lemma filter_pr_by_date self repo_name start_date end_date use_creation_date pr
    (start_dt end_dt : date) :
  date_of_iso start_date = Ok start_dt ->
  date_of_iso end_date = Ok end_dt ->
  filter_pr self repo_name start_date end_date use_creation_date pr =
    match date_field_of use_creation_date pr with
    | Raise e => Raise e
    | Ok _ =>
        match Spec.record_date use_creation_date pr with
        | Some d =>
            if date_leb start_dt d && date_ltb d end_dt
            then Ok (Some (annotate repo_name (project_of self) pr))
            else Ok None
        | None => Ok None
        end
    end.
Proof.
  intros Hs He. unfold filter_pr, Spec.record_date, Spec.configured_timestamp,
    date_field_of.
  destruct use_creation_date.
  - destruct (creationDate pr) as [ts|]; simpl; [| reflexivity].
    destruct (String.eqb ts ""); [reflexivity |].
    destruct (fromisoformat (clean_date ts)); simpl; [| reflexivity].
    rewrite Hs, He. reflexivity.
  - simpl. destruct (closedDate pr) as [ts|]; [| reflexivity].
    destruct (String.eqb ts ""); [reflexivity |].
    destruct (fromisoformat (clean_date ts)); simpl; [| reflexivity].
    rewrite Hs, He. reflexivity.
Qed.

(** The same for the body of the organization-wide loop. *)
Lemma in_range_by_date start_date end_date use_creation_date pr
    (start_dt end_dt : date) :
  date_of_iso start_date = Ok start_dt ->
  date_of_iso end_date = Ok end_dt ->
  OrgCount.in_range start_date end_date use_creation_date pr =
    match date_field_of use_creation_date pr with
    | Raise e => Raise e
    | Ok _ =>
        match Spec.record_date use_creation_date pr with
        | Some d => Ok (date_leb start_dt d && date_ltb d end_dt)
        | None => Ok false
        end
    end.
Proof.
  intros Hs He. unfold OrgCount.in_range, Spec.record_date,
    Spec.configured_timestamp, date_field_of.
  destruct use_creation_date.
  - destruct (creationDate pr) as [ts|]; simpl; [| reflexivity].
    destruct (String.eqb ts ""); [reflexivity |].
    destruct (fromisoformat (clean_date ts)); simpl; [| reflexivity].
    rewrite Hs, He. reflexivity.
  - simpl. destruct (closedDate pr) as [ts|]; [| reflexivity].
    destruct (String.eqb ts ""); [reflexivity |].
    destruct (fromisoformat (clean_date ts)); simpl; [| reflexivity].
    rewrite Hs, He. reflexivity.
Qed.

(** A record with a date has its configured field, so reading the field
    does not raise. *)
Lemma record_date_field use_creation_date pr d :
  Spec.record_date use_creation_date pr = Some d ->
  exists ts, date_field_of use_creation_date pr = Ok (Some ts).
Proof.
  unfold Spec.record_date, Spec.configured_timestamp, date_field_of.
  destruct use_creation_date.
  - destruct (creationDate pr) as [ts|]; [eauto | discriminate].
  - destruct (closedDate pr) as [ts|]; [eauto | discriminate].
Qed.

(** C1. For a window whose two ends parse, a record is kept by the
    per-project filter, and counted by the organization-wide one, exactly
    when the calendar date [d] of its configured timestamp satisfies
    [start <= d < end]; a record dated at [end] is left out, and a record
    dated at [start] is taken whenever [start < end]. *)
Theorem window_membership_half_open self repo_name start_date end_date
    use_creation_date pr (start_dt end_dt : date) :
  date_of_iso start_date = Ok start_dt ->
  date_of_iso end_date = Ok end_dt ->
  (filter_pr self repo_name start_date end_date use_creation_date pr
     = Ok (Some (annotate repo_name (project_of self) pr))
   <-> exists d, Spec.record_date use_creation_date pr = Some d
                 /\ Spec.in_window start_dt end_dt d)
  /\ (OrgCount.in_range start_date end_date use_creation_date pr = Ok true
      <-> exists d, Spec.record_date use_creation_date pr = Some d
                    /\ Spec.in_window start_dt end_dt d)
  /\ (Spec.record_date use_creation_date pr = Some end_dt ->
      filter_pr self repo_name start_date end_date use_creation_date pr = Ok None
      /\ OrgCount.in_range start_date end_date use_creation_date pr = Ok false)
  /\ (Spec.record_date use_creation_date pr = Some start_dt ->
      date_lt start_dt end_dt ->
      filter_pr self repo_name start_date end_date use_creation_date pr
        = Ok (Some (annotate repo_name (project_of self) pr))
      /\ OrgCount.in_range start_date end_date use_creation_date pr = Ok true).
Proof.
  intros Hs He.
  rewrite (filter_pr_by_date _ _ _ _ _ _ _ _ Hs He).
  rewrite (in_range_by_date _ _ _ _ _ _ Hs He).
  unfold Spec.in_window, date_le, date_lt.
  split; [| split; [| split]].
  - split.
    + destruct (date_field_of use_creation_date pr); [| discriminate].
      destruct (Spec.record_date use_creation_date pr) as [d|]; [| discriminate].
      destruct (date_leb start_dt d && date_ltb d end_dt) eqn:Hin; [| discriminate].
      intros _. exists d. apply andb_true_iff in Hin. now split.
    + intros (d & Hd & Hle & Hlt).
      destruct (record_date_field _ _ _ Hd) as [ts ->].
      rewrite Hd, Hle, Hlt. reflexivity.
  - split.
    + destruct (date_field_of use_creation_date pr); [| discriminate].
      destruct (Spec.record_date use_creation_date pr) as [d|]; [| discriminate].
      intros [= Hin]. exists d. apply andb_true_iff in Hin. now split.
    + intros (d & Hd & Hle & Hlt).
      destruct (record_date_field _ _ _ Hd) as [ts ->].
      rewrite Hd, Hle, Hlt. reflexivity.
  - intros Hd. destruct (record_date_field _ _ _ Hd) as [ts ->].
    rewrite Hd, date_ltb_irrefl, andb_false_r. now split.
  - intros Hd Hlt. destruct (record_date_field _ _ _ Hd) as [ts ->].
    rewrite Hd, date_leb_refl, Hlt. now split.
Qed.

End DateWindow.

Lemma window_membership_half_open_witness :
  @Contribution.filter_pr Reference.runtime Scenario.api "billing"
    "2025-03-01" "2025-04-01" false Scenario.pr_0301
  = Ok (Some (Contribution.annotate "billing" "Payments" Scenario.pr_0301))
  /\ @Contribution.filter_pr Reference.runtime Scenario.api "billing"
       "2025-03-01" "2025-04-01" false Scenario.pr_0401
     = Ok None.
Proof.
  split.
  - apply (@window_membership_half_open Reference.runtime Scenario.api "billing"
             "2025-03-01" "2025-04-01" false Scenario.pr_0301
             (mkDate 2025 3 1) (mkDate 2025 4 1) eq_refl eq_refl);
      reflexivity.
  - apply (@window_membership_half_open Reference.runtime Scenario.api "billing"
             "2025-03-01" "2025-04-01" false Scenario.pr_0401
             (mkDate 2025 3 1) (mkDate 2025 4 1) eq_refl eq_refl);
      reflexivity.
Defined.

(** The March scenario of the specification: of three records closed on
    2025-03-01, 2025-03-31 and 2025-04-01, the window
    [[2025-03-01, 2025-04-01)] keeps the first two. *)
Example march_window :
  @Contribution.filter_prs Reference.runtime Scenario.api "billing"
    "2025-03-01" "2025-04-01" false
    [Scenario.pr_0301; Scenario.pr_0331; Scenario.pr_0401]
  = Ok ([Contribution.annotate "billing" "Payments" Scenario.pr_0301;
         Contribution.annotate "billing" "Payments" Scenario.pr_0331;
         Scenario.pr_0401],
        [Contribution.annotate "billing" "Payments" Scenario.pr_0301;
         Contribution.annotate "billing" "Payments" Scenario.pr_0331])
  /\ @OrgCount.count_in_range Reference.runtime "2025-03-01" "2025-04-01" false
       [Scenario.pr_0301; Scenario.pr_0331; Scenario.pr_0401] 0
     = Ok 2.
Proof. split; reflexivity. Qed.

(* ================================================================= *)
(** ** The trace monad *)

Lemma bind_Ok {A B} (a : A) (tr : list event) (k : A -> M B) :
  bind (Some (Ok a), tr) k = (fst (k a), tr ++ snd (k a)).
Proof. unfold bind. now destruct (k a). Qed.

Lemma bind_ret {A B} (a : A) (k : A -> M B) : bind (ret a) k = k a.
Proof. unfold ret. rewrite bind_Ok. now destruct (k a). Qed.

Lemma bind_emit {B} (ev : event) (k : unit -> M B) :
  bind (emit ev) k = (fst (k tt), ev :: snd (k tt)).
Proof. unfold emit. now rewrite bind_Ok. Qed.

Lemma bind_lift_Ok {A B} (a : A) (k : A -> M B) : bind (lift (Ok a)) k = k a.
Proof. apply bind_ret. Qed.

Lemma bind_lift_Raise {A B} (e : exn) (k : A -> M B) :
  bind (lift (Raise e)) k = (Some (Raise e), []).
Proof. reflexivity. Qed.

Lemma bind_Raise {A B} (e : exn) (tr : list event) (k : A -> M B) :
  bind (Some (Raise e), tr) k = (Some (Raise e), tr).
Proof. reflexivity. Qed.

Lemma bind_None {A B} (tr : list event) (k : A -> M B) :
  bind (None, tr) k = (None, tr).
Proof. reflexivity. Qed.

(** A sequence that returns went through both of its parts. *)
Lemma bind_inv_Ok {A B} (m : M A) (k : A -> M B) (b : B) (tr : list event) :
  bind m k = (Some (Ok b), tr) ->
  exists a tr1 tr2,
    m = (Some (Ok a), tr1) /\ k a = (Some (Ok b), tr2) /\ tr = tr1 ++ tr2.
Proof.
  destruct m as [[[a|e]|] tr1]; cbn [bind]; try discriminate.
  destruct (k a) as [r tr2] eqn:Hk. intros [= -> <-]. now exists a, tr1, tr2.
Qed.

Lemma bind_assoc {A B C} (m : M A) (f : A -> M B) (g : B -> M C) :
  bind (bind m f) g = bind m (fun a => bind (f a) g).
Proof.
  destruct m as [[[a|e]|] tr]; cbn [bind]; try reflexivity.
  destruct (f a) as [[[b|e]|] tr1]; cbn [bind]; try reflexivity.
  destruct (g b) as [r tr2]. now rewrite app_assoc.
Qed.

(** A computation as its outcome and its trace. *)
Lemma M_eta {A} (m : M A) : m = (fst m, snd m).
Proof. now destruct m. Qed.

(* ================================================================= *)
(** ** One page through the filter *)

Section Pages.
Context {rt : Runtime}.
Import Contribution.

Lemma filter_pr_cases self repo_name start_date end_date use_creation_date pr kept :
  filter_pr self repo_name start_date end_date use_creation_date pr = Ok kept ->
  kept = None \/ kept = Some (annotate repo_name (project_of self) pr).
Proof.
  unfold filter_pr.
  destruct (date_field_of use_creation_date pr) as [[ts|]|e]; simpl;
    [| intros [= <-]; now left | discriminate].
  destruct (String.eqb ts ""); [intros [= <-]; now left |].
  destruct (fromisoformat (clean_date ts)); [| intros [= <-]; now left].
  destruct (date_of_iso start_date); simpl; [| discriminate].
  destruct (date_of_iso end_date); simpl; [| discriminate].
  destruct (_ && _); intros [= <-]; [now right | now left].
Qed.

(** The page after the loop is the page before it, record by record, up to
    the two assignments; the records in [filtered_prs] are records of the
    page after the loop. *)
Lemma filter_prs_touched self repo_name start_date end_date use_creation_date
    prs prs' filtered_prs :
  filter_prs self repo_name start_date end_date use_creation_date prs
    = Ok (prs', filtered_prs) ->
  Forall2 (Spec.touched repo_name (project_of self)) prs prs'
  /\ incl filtered_prs prs'.
Proof.
  revert prs' filtered_prs.
  induction prs as [|pr rest IH]; simpl; intros prs' filtered_prs.
  - intros [= <- <-]. split; [constructor | apply incl_nil_l].
  - destruct (filter_pr self repo_name start_date end_date use_creation_date pr)
      as [kept|e] eqn:Hpr; simpl; [| discriminate].
    destruct (filter_prs self repo_name start_date end_date use_creation_date rest)
      as [[rest' filtered]|e] eqn:Hrest; simpl; [| discriminate].
    destruct (IH _ _ eq_refl) as [Hall Hincl].
    destruct (filter_pr_cases _ _ _ _ _ _ _ Hpr) as [-> | ->]; intros [= <- <-].
    + split; [constructor; [now left | assumption] |].
      now apply incl_tl.
    + split; [constructor; [now right | assumption] |].
      apply incl_cons; [now left | now apply incl_tl].
Qed.

Lemma filter_prs_length self repo_name start_date end_date use_creation_date
    prs prs' filtered_prs :
  filter_prs self repo_name start_date end_date use_creation_date prs
    = Ok (prs', filtered_prs) ->
  List.length prs' = List.length prs.
Proof.
  intros H. apply filter_prs_touched in H as [H _].
  symmetry. eapply Forall2_length; eassumption.
Qed.

(** The early-stop test reads [creationDate] of the first record, which the
    assignments of the filter loop do not change. *)
Lemma newest_is_older_touched repo_name project start_date use_creation_date prs prs' :
  Forall2 (Spec.touched repo_name project) prs prs' ->
  newest_is_older start_date use_creation_date prs'
  = newest_is_older start_date use_creation_date prs.
Proof.
  intros [|pr pr' rest rest' [-> | ->] _]; reflexivity.
Qed.

(** The organization-wide body counts a record exactly when the
    per-project body keeps it, and raises when it raises. *)
Lemma in_range_filter_pr self repo_name start_date end_date use_creation_date pr :
  OrgCount.in_range start_date end_date use_creation_date pr =
    match filter_pr self repo_name start_date end_date use_creation_date pr with
    | Ok (Some _) => Ok true
    | Ok None => Ok false
    | Raise e => Raise e
    end.
Proof.
  unfold OrgCount.in_range, filter_pr.
  destruct (date_field_of use_creation_date pr) as [[ts|]|e]; simpl;
    try reflexivity.
  destruct (String.eqb ts ""); [reflexivity |].
  destruct (fromisoformat (clean_date ts)); [| reflexivity].
  destruct (date_of_iso start_date); simpl; [| reflexivity].
  destruct (date_of_iso end_date); simpl; [| reflexivity].
  destruct (_ && _); reflexivity.
Qed.

(** So the organization-wide loop counts what the per-project loop keeps. *)
Lemma count_in_range_filter_prs self repo_name start_date end_date use_creation_date
    prs n :
  OrgCount.count_in_range start_date end_date use_creation_date prs n =
    match filter_prs self repo_name start_date end_date use_creation_date prs with
    | Ok (_, filtered_prs) => Ok (n + List.length filtered_prs)
    | Raise e => Raise e
    end.
Proof.
  revert n. induction prs as [|pr rest IH]; intros n.
  - simpl. now rewrite Nat.add_0_r.
  - cbn [OrgCount.count_in_range filter_prs].
    rewrite (in_range_filter_pr self repo_name).
    destruct (filter_pr self repo_name start_date end_date use_creation_date pr)
      as [[pr'|]|e]; cbn [rbind]; try reflexivity; rewrite IH;
      destruct (filter_prs self repo_name start_date end_date use_creation_date rest)
        as [[rest' filtered]|e]; cbn [rbind List.length]; try reflexivity.
    f_equal. lia.
Qed.

End Pages.

(* ================================================================= *)
(** ** One turn of the page loop, per-project script *)

Section FetchLoop.
Context {rt : Runtime} (env : environment).
Import Contribution.

Lemma get_pull_requests_Success self repository_id skip top prs :
  pull_requests_of env (project_of self) repository_id skip top = Success prs ->
  get_pull_requests env self repository_id skip top
  = (Some (Ok prs), [Request (ListPullRequests (project_of self) repository_id skip top)]).
Proof. intros H. unfold get_pull_requests. rewrite H, bind_emit. reflexivity. Qed.

Lemma get_pull_requests_HttpError self repository_id skip top status_code :
  pull_requests_of env (project_of self) repository_id skip top = HttpError status_code ->
  get_pull_requests env self repository_id skip top
  = (Some (Ok []), [Request (ListPullRequests (project_of self) repository_id skip top)]).
Proof.
  intros H. unfold get_pull_requests. rewrite H, bind_emit.
  destruct (status_code =? 404)%Z; [reflexivity |].
  destruct (status_code =? 403)%Z; reflexivity.
Qed.

(** The fetcher always issues its request first; it returns a list, or
    raises the [KeyError] of a body without ['value']. *)
Lemma get_pull_requests_total self repository_id skip top :
  exists r tr,
    get_pull_requests env self repository_id skip top
    = (Some r, Request (ListPullRequests (project_of self) repository_id skip top) :: tr)
    /\ (r = Raise (KeyError "value") \/ exists prs, r = Ok prs).
Proof.
  unfold get_pull_requests. rewrite bind_emit.
  destruct (pull_requests_of env (project_of self) repository_id skip top)
    as [prs| |code|].
  - exists (Ok prs), []. split; [reflexivity | right; now exists prs].
  - exists (Raise (KeyError "value")), []. split; [reflexivity | now left].
  - exists (Ok []), []. split; [| right; now exists []].
    destruct (code =? 404)%Z; [reflexivity |].
    destruct (code =? 403)%Z; reflexivity.
  - exists (Ok []), [Stderr (NetworkErrorPullRequests repository_id)].
    split; [reflexivity | right; now exists []].
Qed.

(** An empty answer ends the loop and leaves the accumulated state alone. *)
Lemma fetch_repository_empty fuel self repo start_date end_date use_creation_date st tr :
  get_pull_requests env self (repo_id repo) (skip st) batch_size = (Some (Ok []), tr) ->
  fetch_repository env (S fuel) self repo start_date end_date use_creation_date st
  = (Some (Ok (mkRepoState (all_prs st) (total_fetched st) (skip st)
                 (repo_pr_count st) (repo_has_data st))), tr).
Proof.
  intros H. cbn [fetch_repository]. rewrite H, bind_Ok. cbn [fst snd ret].
  now rewrite app_nil_r.
Qed.

(** A page on which the filter raises ends the loop with that exception. *)
Lemma fetch_repository_raise fuel self repo start_date end_date use_creation_date st
    prs e :
  pull_requests_of env (project_of self) (repo_id repo) (skip st) batch_size
    = Success prs ->
  prs <> [] ->
  filter_prs self (repo_name repo) start_date end_date use_creation_date prs = Raise e ->
  fetch_repository env (S fuel) self repo start_date end_date use_creation_date st
  = (Some (Raise e),
     [Request (ListPullRequests (project_of self) (repo_id repo) (skip st) batch_size)]).
Proof.
  intros Hget Hne Hf. cbn [fetch_repository].
  rewrite (get_pull_requests_Success _ _ _ _ _ Hget), bind_Ok.
  destruct prs as [|pr rest]; [congruence |].
  rewrite Hf. reflexivity.
Qed.

(** A page shorter than [batch_size] ends the loop. *)
Lemma fetch_repository_short fuel self repo start_date end_date use_creation_date st
    prs prs' filtered_prs :
  pull_requests_of env (project_of self) (repo_id repo) (skip st) batch_size
    = Success prs ->
  prs <> [] ->
  filter_prs self (repo_name repo) start_date end_date use_creation_date prs
    = Ok (prs', filtered_prs) ->
  List.length prs < batch_size ->
  fetch_repository env (S fuel) self repo start_date end_date use_creation_date st
  = (Some (Ok (Spec.after_page st prs filtered_prs)),
     [Request (ListPullRequests (project_of self) (repo_id repo) (skip st) batch_size)]).
Proof.
  intros Hget Hne Hf Hlen. cbn [fetch_repository].
  rewrite (get_pull_requests_Success _ _ _ _ _ Hget), bind_Ok.
  destruct prs as [|pr rest]; [congruence |].
  rewrite Hf, bind_lift_Ok.
  rewrite (filter_prs_length _ _ _ _ _ _ _ _ Hf).
  apply Nat.ltb_lt in Hlen. rewrite Hlen.
  unfold Spec.after_page. cbn [fst snd ret app].
  destruct (repo_has_data st); reflexivity.
Qed.

(** When the filter went through a page, the early-stop test does not raise
    on it. *)
Lemma newest_is_older_defined self repo_name start_date end_date use_creation_date
    prs prs' filtered_prs :
  filter_prs self repo_name start_date end_date use_creation_date prs
    = Ok (prs', filtered_prs) ->
  exists stop, newest_is_older start_date use_creation_date prs = Ok stop.
Proof.
  destruct prs as [|pr rest]; [now exists false |].
  cbn [filter_prs newest_is_older]. unfold filter_pr, date_field_of.
  destruct use_creation_date; [| now exists false].
  destruct (creationDate pr) as [ts|]; [| discriminate].
  intros _. destruct (fromisoformat (clean_date ts)); [| now exists false].
  destruct (fromisoformat start_date); eauto.
Qed.

(** A full page: the loop ends when the early-stop test says so, and asks
    for the next page otherwise. *)
Lemma fetch_repository_full fuel self repo start_date end_date use_creation_date st
    prs prs' filtered_prs stop :
  pull_requests_of env (project_of self) (repo_id repo) (skip st) batch_size
    = Success prs ->
  filter_prs self (repo_name repo) start_date end_date use_creation_date prs
    = Ok (prs', filtered_prs) ->
  batch_size <= List.length prs ->
  newest_is_older start_date use_creation_date prs = Ok stop ->
  fetch_repository env (S fuel) self repo start_date end_date use_creation_date st
  = let rq := Request (ListPullRequests (project_of self) (repo_id repo) (skip st)
                         batch_size) in
    if stop then (Some (Ok (Spec.after_page st prs filtered_prs)), [rq])
    else
      let rest := fetch_repository env fuel self repo start_date end_date
                    use_creation_date (Spec.advance (Spec.after_page st prs filtered_prs)) in
      (fst rest, rq :: snd rest).
Proof.
  intros Hget Hf Hlen Hstop. cbn [fetch_repository].
  rewrite (get_pull_requests_Success _ _ _ _ _ Hget), bind_Ok.
  destruct prs as [|pr rest]; [cbn in Hlen; unfold batch_size in Hlen; lia |].
  rewrite Hf, bind_lift_Ok.
  rewrite (filter_prs_length _ _ _ _ _ _ _ _ Hf).
  apply Nat.ltb_ge in Hlen. rewrite Hlen.
  destruct (filter_prs_touched _ _ _ _ _ _ _ _ Hf) as [Htouched _].
  rewrite (newest_is_older_touched _ _ _ _ _ _ Htouched), Hstop, bind_lift_Ok.
  assert (Hst : (if negb (repo_has_data st) then true else repo_has_data st) = true)
    by now destruct (repo_has_data st).
  rewrite Hst. unfold Spec.after_page, Spec.advance.
  cbn [fst snd ret app all_prs total_fetched skip repo_pr_count repo_has_data].
  destruct stop; reflexivity.
Qed.

End FetchLoop.

(* ================================================================= *)
(** ** The organization-wide page loop is the per-project one *)

Section Simulation.
Context {rt : Runtime} (env : environment).

Lemma org_get_pull_requests_eq (self : Contribution.AzureDevOpsAPI)
    (self' : OrgCount.AzureDevOpsOrgAPI) repository_id skip top :
  OrgCount.get_pull_requests env self' (Contribution.project_of self) repository_id skip top
  = Contribution.get_pull_requests env self repository_id skip top.
Proof. reflexivity. Qed.

(** Same requests, same exceptions, same counts: the organization-wide loop
    only forgets the records. *)
Lemma count_repository_fetch_repository fuel (self : Contribution.AzureDevOpsAPI)
    (self' : OrgCount.AzureDevOpsOrgAPI) repo start_date end_date use_creation_date st :
  OrgCount.count_repository env fuel self' (Contribution.project_of self) repo
    start_date end_date use_creation_date (Spec.counts_only st)
  = fmap Spec.counts_only
      (Contribution.fetch_repository env fuel self repo start_date end_date
         use_creation_date st).
Proof.
  revert st. induction fuel as [|fuel IH]; intros st; [reflexivity |].
  cbn [OrgCount.count_repository Contribution.fetch_repository].
  rewrite org_get_pull_requests_eq.
  destruct (get_pull_requests_total env self (repo_id repo)
              (Contribution.skip st) Contribution.batch_size)
    as (r & tr & Hget & [-> | [prs ->]]);
    change OrgCount.batch_size with Contribution.batch_size;
    cbn [Spec.counts_only OrgCount.skip OrgCount.repo_pr_count OrgCount.repo_has_data];
    rewrite Hget; [reflexivity |].
  rewrite !bind_Ok.
  destruct prs as [|pr rest]; [reflexivity |].
  rewrite (count_in_range_filter_prs self (repo_name repo)).
  destruct (Contribution.filter_prs self (repo_name repo) start_date end_date
              use_creation_date (pr :: rest)) as [[prs' filtered]|e] eqn:Hf;
    [| reflexivity].
  rewrite !bind_lift_Ok.
  rewrite (filter_prs_length _ _ _ _ _ _ _ _ Hf).
  destruct (List.length (pr :: rest) <? Contribution.batch_size)%nat; [reflexivity |].
  destruct (filter_prs_touched _ _ _ _ _ _ _ _ Hf) as [Htouched _].
  rewrite (newest_is_older_touched _ _ _ _ _ _ Htouched).
  destruct (Contribution.newest_is_older start_date use_creation_date (pr :: rest))
    as [[|]|e]; [reflexivity | | reflexivity].
  rewrite !bind_lift_Ok.
  cbn [fst snd Contribution.all_prs Contribution.total_fetched Contribution.skip
         Contribution.repo_pr_count Contribution.repo_has_data
         OrgCount.skip OrgCount.repo_pr_count OrgCount.repo_has_data].
  match goal with
  | |- context [Contribution.fetch_repository env fuel self repo start_date end_date
                  use_creation_date ?s] => specialize (IH s)
  end.
  unfold Spec.counts_only at 1 in IH.
  cbn [Contribution.skip Contribution.repo_pr_count Contribution.repo_has_data] in IH.
  rewrite Nat.add_0_l, IH.
  destruct (Contribution.fetch_repository env fuel self repo start_date end_date
              use_creation_date _) as [[[st'|e]|] tr']; reflexivity.
Qed.

End Simulation.

(* ================================================================= *)
(** ** Pagination over a repository of [N] records *)

Section Pagination.
Context {rt : Runtime} (env : environment).
Import Contribution.

Lemma length_page items k :
  List.length (Spec.page items k) = Nat.min 100 (List.length items - 100 * k).
Proof. unfold Spec.page. now rewrite length_firstn, length_skipn. Qed.

Lemma full_page items k :
  k < List.length items / 100 -> List.length (Spec.page items k) = 100.
Proof.
  intros Hk. rewrite length_page.
  pose proof (Nat.Div0.mul_div_le (List.length items) 100). lia.
Qed.

Lemma last_page items :
  List.length (Spec.page items (List.length items / 100)) = List.length items mod 100.
Proof.
  rewrite length_page.
  pose proof (Nat.div_mod_eq (List.length items) 100).
  pose proof (Nat.mod_upper_bound (List.length items) 100 ltac:(lia)). lia.
Qed.

Lemma served_page project repository_id items k :
  Spec.served_in_pages env project repository_id items ->
  pull_requests_of env project repository_id (100 * k) batch_size
  = Success (Spec.page items k).
Proof. intros H. apply H. Qed.

(** From page [k] on, with [n] full pages left, the loop asks for the
    [n + 1] pages [k .. k + n] and returns. *)
Lemma fetch_repository_paged self repo start_date end_date use_creation_date items :
  Spec.served_in_pages env (project_of self) (repo_id repo) items ->
  Spec.walks_to_the_end self (repo_name repo) start_date end_date use_creation_date
    items ->
  forall n k fuel st,
    skip st = 100 * k ->
    k + n = List.length items / 100 ->
    n < fuel ->
    exists st',
      fetch_repository env fuel self repo start_date end_date use_creation_date st
      = (Some (Ok st'),
         map (Spec.page_request (project_of self) (repo_id repo)) (seq k (n + 1))).
Proof.
  intros Hserved [Hfilter Hstop].
  induction n as [|n IH]; intros k [|fuel] st Hskip Hk Hfuel; try lia.
  - (* the last page: short or empty *)
    rewrite Nat.add_0_r in Hk. subst k.
    destruct (Hfilter (List.length items / 100) (le_n _)) as (prs' & filtered & Hf).
    pose proof (served_page _ _ _ (List.length items / 100) Hserved) as Hget.
    rewrite <- Hskip in Hget.
    pose proof (last_page items) as Hlen.
    pose proof (Nat.mod_upper_bound (List.length items) 100 ltac:(lia)) as Hlt.
    unfold Spec.page_request. cbn [seq map Nat.add]. rewrite <- Hskip.
    destruct (Spec.page items (List.length items / 100)) as [|pr rest] eqn:Hpage.
    + eexists. apply fetch_repository_empty.
      apply (get_pull_requests_Success env _ _ _ _ _ Hget).
    + eexists. eapply fetch_repository_short; try eassumption.
      * discriminate.
      * unfold batch_size. lia.
  - (* a full page, then the rest *)
    assert (Hlt : k < List.length items / 100) by lia.
    destruct (Hfilter k (Nat.lt_le_incl _ _ Hlt)) as (prs' & filtered & Hf).
    pose proof (served_page _ _ _ k Hserved) as Hget. rewrite <- Hskip in Hget.
    pose proof (full_page items k Hlt) as Hlen.
    rewrite (fetch_repository_full env fuel self repo start_date end_date
               use_creation_date st _ _ _ false Hget Hf);
      [| unfold batch_size; lia | now apply Hstop].
    cbv zeta.
    destruct (IH (S k) fuel (Spec.advance (Spec.after_page st (Spec.page items k) filtered)))
      as [st' Hrest].
    + cbn [Spec.advance Spec.after_page skip]. unfold batch_size. lia.
    + lia.
    + lia.
    + exists st'. rewrite Hrest. cbn [fst snd].
      replace (S n + 1) with (S (n + 1)) by lia.
      cbn [seq map]. unfold Spec.page_request at 2.
      rewrite <- Hskip. reflexivity.
Qed.

Lemma page_requests_all project repository_id (ks : list nat) :
  List.length (page_requests (map (Spec.page_request project repository_id) ks))
  = List.length ks.
Proof. induction ks as [|k ks IH]; simpl; [reflexivity | now rewrite IH]. Qed.

Lemma ceil_div_not_multiple (n : nat) :
  n mod 100 <> 0 -> Spec.ceil_div n 100 = n / 100 + 1.
Proof.
  intros Hr. unfold Spec.ceil_div.
  pose proof (Nat.div_mod_eq n 100) as Hn.
  pose proof (Nat.mod_upper_bound n 100 ltac:(lia)) as Hlt.
  symmetry. apply (Nat.div_unique _ 100 _ (n mod 100 - 1)); lia.
Qed.

(** C2. A repository of [N] completed pull requests is served 100 at a
    time; the filter does not raise and the early-stop test is negative on
    every full page. Then, given [N / 100 + 1] units of fuel, the page loop
    of either script returns after asking for exactly the pages
    [0 .. N / 100]: [N / 100 + 1] requests when [N] is a multiple of 100, the
    last one answered by an empty page, and [ceil(N / 100)] requests
    otherwise, the last one answered by a short page. *)
Theorem page_requests_until_exhausted self (self' : OrgCount.AzureDevOpsOrgAPI) repo
    start_date end_date use_creation_date items fuel st (st_org : OrgCount.repo_state) :
  Spec.served_in_pages env (project_of self) (repo_id repo) items ->
  Spec.walks_to_the_end self (repo_name repo) start_date end_date use_creation_date
    items ->
  skip st = 0 ->
  OrgCount.skip st_org = 0 ->
  List.length items / 100 < fuel ->
  let N := List.length items in
  let run := fetch_repository env fuel self repo start_date end_date
               use_creation_date st in
  let run_org := OrgCount.count_repository env fuel self' (project_of self) repo
                   start_date end_date use_creation_date st_org in
  (exists st', fst run = Some (Ok st'))
  /\ (exists st', fst run_org = Some (Ok st'))
  /\ snd run = map (Spec.page_request (project_of self) (repo_id repo))
                 (seq 0 (N / 100 + 1))
  /\ snd run_org = snd run
  /\ (N mod 100 = 0 ->
      List.length (page_requests (snd run)) = N / 100 + 1
      /\ Spec.page items (N / 100) = [])
  /\ (N mod 100 <> 0 ->
      List.length (page_requests (snd run)) = Spec.ceil_div N 100
      /\ 0 < List.length (Spec.page items (N / 100)) < 100).
Proof.
  intros Hserved Hwalk Hskip Hskip' Hfuel N run run_org.
  destruct (fetch_repository_paged self repo start_date end_date use_creation_date
              items Hserved Hwalk (N / 100) 0 fuel st Hskip eq_refl Hfuel)
    as [st' Hrun].
  fold run in Hrun.
  pose (st0 := mkRepoState [] 0 (OrgCount.skip st_org) (OrgCount.repo_pr_count st_org)
                 (OrgCount.repo_has_data st_org)).
  destruct (fetch_repository_paged self repo start_date end_date use_creation_date
              items Hserved Hwalk (N / 100) 0 fuel st0 Hskip' eq_refl Hfuel)
    as [st0' Hrun0].
  assert (Horg : run_org = (Some (Ok (Spec.counts_only st0')), snd run)).
  { unfold run_org. replace st_org with (Spec.counts_only st0) by now destruct st_org.
    rewrite (count_repository_fetch_repository env fuel self self'), Hrun0, Hrun.
    reflexivity. }
  rewrite Horg, Hrun. cbn [fst snd].
  split; [eauto | split; [eauto | split; [reflexivity | split; [reflexivity |]]]].
  rewrite page_requests_all, length_seq.
  pose proof (last_page items) as Hlast. fold N in Hlast.
  split; intros Hmod.
  - split; [reflexivity |]. apply length_zero_iff_nil. lia.
  - split; [now rewrite ceil_div_not_multiple |].
    pose proof (Nat.mod_upper_bound N 100 ltac:(lia)). lia.
Qed.

End Pagination.

Lemma page_requests_until_exhausted_witness :
  List.length (page_requests (snd
    (@Contribution.fetch_repository Reference.runtime
       (Scenario.env_of (Scenario.march_items 200)) 3 Scenario.api Scenario.billing
       "2025-03-01" "2025-04-01" false Scenario.fresh))) = 3
  /\ List.length (page_requests (snd
       (@Contribution.fetch_repository Reference.runtime
          (Scenario.env_of (Scenario.march_items 250)) 3 Scenario.api Scenario.billing
          "2025-03-01" "2025-04-01" false Scenario.fresh))) = 3.
Proof.
  split.
  - destruct (@page_requests_until_exhausted Reference.runtime
                (Scenario.env_of (Scenario.march_items 200)) Scenario.api
                Scenario.org_api Scenario.billing "2025-03-01" "2025-04-01" false
                (Scenario.march_items 200) 3 Scenario.fresh Scenario.org_fresh)
      as (_ & _ & _ & _ & Hmultiple & _).
    + intros skip top. reflexivity.
    + split; intros k Hk; vm_compute in Hk.
      * destruct k as [|[|[|k]]]; [| | | lia]; eexists; eexists; vm_compute; reflexivity.
      * destruct k as [|[|k]]; [| | lia]; vm_compute; reflexivity.
    + reflexivity.
    + reflexivity.
    + vm_compute. lia.
    + destruct (Hmultiple eq_refl) as [Hcount _]. exact Hcount.
  - destruct (@page_requests_until_exhausted Reference.runtime
                (Scenario.env_of (Scenario.march_items 250)) Scenario.api
                Scenario.org_api Scenario.billing "2025-03-01" "2025-04-01" false
                (Scenario.march_items 250) 3 Scenario.fresh Scenario.org_fresh)
      as (_ & _ & _ & _ & _ & Hother).
    + intros skip top. reflexivity.
    + split; intros k Hk; vm_compute in Hk.
      * destruct k as [|[|[|k]]]; [| | | lia]; eexists; eexists; vm_compute; reflexivity.
      * destruct k as [|[|k]]; [| | lia]; vm_compute; reflexivity.
    + reflexivity.
    + reflexivity.
    + vm_compute. lia.
    + destruct Hother as [Hcount _]; [vm_compute; discriminate | exact Hcount].
Defined.

(* ================================================================= *)
(** ** The early-stop test *)

Section EarlyStop.
Context {rt : Runtime} (env : environment).
Import Contribution.

(** By completion date, with a window that parses, the filter never
    raises. *)
Lemma filter_prs_by_completion_date self repo_name start_date end_date prs
    (start_dt end_dt : date) :
  date_of_iso start_date = Ok start_dt ->
  date_of_iso end_date = Ok end_dt ->
  exists prs' filtered_prs,
    filter_prs self repo_name start_date end_date false prs = Ok (prs', filtered_prs).
Proof.
  intros Hs He. induction prs as [|pr rest (rest' & filtered & IH)].
  - now exists [], [].
  - cbn [filter_prs]. rewrite (filter_pr_by_date _ _ _ _ _ _ _ _ Hs He), IH.
    cbn [date_field_of].
    destruct (Spec.record_date false pr) as [d|]; [| cbn; eauto].
    destruct (_ && _); cbn; eauto.
Qed.

(** So by completion date every walk goes to the end. *)
Lemma walks_to_the_end_by_completion_date self repo_name start_date end_date items
    (start_dt end_dt : date) :
  date_of_iso start_date = Ok start_dt ->
  date_of_iso end_date = Ok end_dt ->
  Spec.walks_to_the_end self repo_name start_date end_date false items.
Proof.
  intros Hs He. split; intros k _.
  - eapply filter_prs_by_completion_date; eassumption.
  - unfold newest_is_older. now destruct (Spec.page items k).
Qed.

(** Every turn of the loop starts with the request for the page at [skip]. *)
Lemma fetch_repository_first_request fuel self repo start_date end_date
    use_creation_date st :
  exists tr,
    snd (fetch_repository env (S fuel) self repo start_date end_date
           use_creation_date st)
    = Request (ListPullRequests (project_of self) (repo_id repo) (skip st) batch_size)
      :: tr.
Proof.
  cbn [fetch_repository].
  destruct (get_pull_requests_total env self (repo_id repo) (skip st) batch_size)
    as (r & tr & -> & [-> | [prs ->]]).
  - cbn [bind snd]. eauto.
  - rewrite bind_Ok. cbn [snd app]. eauto.
Qed.

Lemma snd_fmap {A B} (f : A -> B) (m : M A) : snd (fmap f m) = snd m.
Proof. now destruct m as [[[a|e]|] tr]. Qed.

Lemma fst_fmap_None {A B} (f : A -> B) (m : M A) : fst (fmap f m) = None <-> fst m = None.
Proof. destruct m as [[[a|e]|] tr]; cbn; split; congruence. Qed.

(** C3. The page at the current offset is [prs].
    - By completion date, with a window that parses: the early-stop test is
      negative whatever the page holds, and after a full page either loop
      asks for the next page.
    - By creation date: when the first record of the page was created on a
      date strictly before the start of the window, either loop ends with
      this page, having asked for no further one. *)
Theorem early_stop_only_by_creation_date self (self' : OrgCount.AzureDevOpsOrgAPI) repo
    start_date end_date st prs fuel :
  pull_requests_of env (project_of self) (repo_id repo) (skip st) batch_size
    = Success prs ->
  let rq k := Request (ListPullRequests (project_of self) (repo_id repo) k batch_size) in
  let run use_creation_date fuel :=
    fetch_repository env fuel self repo start_date end_date use_creation_date st in
  let run_org use_creation_date fuel :=
    OrgCount.count_repository env fuel self' (project_of self) repo start_date
      end_date use_creation_date (Spec.counts_only st) in
  (forall start_dt end_dt,
     date_of_iso start_date = Ok start_dt ->
     date_of_iso end_date = Ok end_dt ->
     batch_size <= List.length prs ->
     newest_is_older start_date false prs = Ok false
     /\ exists tr,
          snd (run false (S (S fuel))) = rq (skip st) :: rq (skip st + batch_size) :: tr
          /\ snd (run_org false (S (S fuel))) = snd (run false (S (S fuel))))
  /\ (forall newest rest created dt start_dt,
        prs = newest :: rest ->
        creationDate newest = Some created ->
        fromisoformat (clean_date created) = Some dt ->
        fromisoformat start_date = Some start_dt ->
        date_lt (dt_date dt) (dt_date start_dt) ->
        snd (run true (S fuel)) = [rq (skip st)]
        /\ fst (run true (S fuel)) <> None
        /\ snd (run_org true (S fuel)) = [rq (skip st)]
        /\ fst (run_org true (S fuel)) <> None).
Proof.
  intros Hget rq run run_org. split.
  - intros start_dt end_dt Hs He Hfull.
    assert (Hno : newest_is_older start_date false prs = Ok false)
      by (unfold newest_is_older; now destruct prs).
    split; [exact Hno |].
    destruct (filter_prs_by_completion_date self (repo_name repo) _ _ prs _ _ Hs He)
      as (prs' & filtered & Hf).
    unfold run_org, run.
    rewrite (count_repository_fetch_repository env _ self self'), snd_fmap.
    rewrite (fetch_repository_full env (S fuel) self repo start_date end_date false
               st prs prs' filtered false Hget Hf Hfull Hno).
    cbv zeta. cbn [snd].
    destruct (fetch_repository_first_request fuel self repo start_date end_date false
                (Spec.advance (Spec.after_page st prs filtered))) as [tr ->].
    exists tr. split; reflexivity.
  - intros newest rest created dt start_dt -> Hcreated Hdt Hstart Hlt.
    assert (Hrun : snd (run true (S fuel)) = [rq (skip st)]
                   /\ fst (run true (S fuel)) <> None).
    { unfold run.
      destruct (filter_prs self (repo_name repo) start_date end_date true
                  (newest :: rest)) as [[prs' filtered]|e] eqn:Hf.
      - destruct (Nat.lt_ge_cases (List.length (newest :: rest)) batch_size)
          as [Hshort | Hfull].
        + rewrite (fetch_repository_short env fuel self repo start_date end_date
                     true st _ _ _ Hget ltac:(discriminate) Hf Hshort).
          split; [reflexivity | discriminate].
        + rewrite (fetch_repository_full env fuel self repo start_date end_date
                     true st _ _ _ true Hget Hf Hfull).
          * split; [reflexivity | discriminate].
          * cbn [newest_is_older]. rewrite Hcreated, Hdt, Hstart.
            now rewrite Hlt.
      - rewrite (fetch_repository_raise env fuel self repo start_date end_date
                   true st _ e Hget ltac:(discriminate) Hf).
        split; [reflexivity | discriminate]. }
    destruct Hrun as [Htr Hfst].
    unfold run_org.
    rewrite (count_repository_fetch_repository env _ self self'), snd_fmap.
    repeat split; try assumption.
    intros Hnone. apply fst_fmap_None in Hnone. exact (Hfst Hnone).
Qed.

End EarlyStop.

Lemma early_stop_only_by_creation_date_witness :
  snd (@Contribution.fetch_repository Reference.runtime
         (Scenario.env_of (Scenario.february_items 150)) 5 Scenario.api
         Scenario.billing "2025-03-01" "2025-04-01" true Scenario.fresh)
  = [Request (ListPullRequests "Payments" "r-1" 0 100)]
  /\ exists tr,
       snd (@Contribution.fetch_repository Reference.runtime
              (Scenario.env_of (Scenario.february_items 150)) 5 Scenario.api
              Scenario.billing "2025-03-01" "2025-04-01" false Scenario.fresh)
       = Request (ListPullRequests "Payments" "r-1" 0 100)
         :: Request (ListPullRequests "Payments" "r-1" 100 100) :: tr.
Proof.
  split.
  - destruct (@early_stop_only_by_creation_date Reference.runtime
                (Scenario.env_of (Scenario.february_items 150)) Scenario.api
                Scenario.org_api Scenario.billing "2025-03-01" "2025-04-01"
                Scenario.fresh (firstn 100 (Scenario.february_items 150)) 4 eq_refl)
      as [_ Hcreation].
    destruct (Hcreation
                (Scenario.completed 150 "2025-02-10T09:00:00.1234567Z" "2025-03-05T10:00:00Z")
                (firstn 99 (Scenario.february_items 149))
                "2025-02-10T09:00:00.1234567Z"
                (mkDatetime (mkDate 2025 2 10) 9 0 0 123456 (Some 0%Z))
                (mkDatetime (mkDate 2025 3 1) 0 0 0 0 None)
                eq_refl eq_refl eq_refl eq_refl eq_refl)
      as [Htrace _].
    exact Htrace.
  - destruct (@early_stop_only_by_creation_date Reference.runtime
                (Scenario.env_of (Scenario.february_items 150)) Scenario.api
                Scenario.org_api Scenario.billing "2025-03-01" "2025-04-01"
                Scenario.fresh (firstn 100 (Scenario.february_items 150)) 3 eq_refl)
      as [Hcompletion _].
    destruct (Hcompletion (mkDate 2025 3 1) (mkDate 2025 4 1) eq_refl eq_refl)
      as [_ (tr & Htrace & _)].
    + vm_compute. lia.
    + exists tr. exact Htrace.
Defined.

(* ================================================================= *)
(** ** A page request that fails *)

Section FailedPage.
Context {rt : Runtime} (env : environment).
Import Contribution.

(** C5, as the code has it. When the request for the page at the current
    offset is answered "not found" or "access denied":
    - the fetcher returns the empty list and does not raise;
    - the page loop of either script ends there, with that one request,
      without raising, and with its accumulated records and counts
      unchanged: the failed page adds nothing, and what earlier pages added
      is kept;
    - when the failing request is the first one for the repository, the
      repository adds nothing to the records of the run (to the count, in
      the organization-wide script) and is counted as skipped. *)
Theorem failed_page_ends_repository self (self' : OrgCount.AzureDevOpsOrgAPI) repo
    start_date end_date use_creation_date st fuel status_code ps
    (ps_org : OrgCount.project_state) :
  pull_requests_of env (project_of self) (repo_id repo) (skip st) batch_size
    = HttpError status_code ->
  status_code = 404%Z \/ status_code = 403%Z ->
  let rq := Request (ListPullRequests (project_of self) (repo_id repo) (skip st)
                       batch_size) in
  get_pull_requests env self (repo_id repo) (skip st) batch_size = (Some (Ok []), [rq])
  /\ fetch_repository env (S fuel) self repo start_date end_date use_creation_date st
     = (Some (Ok st), [rq])
  /\ OrgCount.count_repository env (S fuel) self' (project_of self) repo start_date
       end_date use_creation_date (Spec.counts_only st)
     = (Some (Ok (Spec.counts_only st)), [rq])
  /\ (skip st = 0 ->
      process_repository env (S fuel) self start_date end_date use_creation_date ps repo
      = (Some (Ok (mkProjectState (ps_all_prs ps) (ps_total_fetched ps)
                     (repos_with_prs ps) (repos_skipped ps + 1))), [rq])
      /\ OrgCount.process_repository env (S fuel) self' (project_of self) start_date
           end_date use_creation_date ps_org repo
         = (Some (Ok (OrgCount.mkProjectState (OrgCount.total_pr_count ps_org + 0)
                        (OrgCount.repos_with_prs ps_org)
                        (OrgCount.repos_skipped ps_org + 1))), [rq])).
Proof.
  intros Hget _ rq.
  pose proof (get_pull_requests_HttpError env _ _ _ _ _ Hget) as Hempty.
  assert (Hloop : forall st0, skip st0 = skip st ->
            fetch_repository env (S fuel) self repo start_date end_date
              use_creation_date st0 = (Some (Ok st0), [rq])).
  { intros st0 Hskip. rewrite <- Hskip in Hempty.
    rewrite (fetch_repository_empty env fuel self repo start_date end_date
               use_creation_date st0 _ Hempty).
    unfold rq. rewrite <- Hskip. destruct st0; reflexivity. }
  split; [exact Hempty | split; [exact (Hloop st eq_refl) | split]].
  - rewrite (count_repository_fetch_repository env _ self self'), (Hloop st eq_refl).
    reflexivity.
  - intros Hskip. split.
    + unfold process_repository. rewrite Hloop by (symmetry; exact Hskip).
      rewrite bind_Ok. reflexivity.
    + unfold OrgCount.process_repository.
      change (OrgCount.mkRepoState 0 0 false)
        with (Spec.counts_only (mkRepoState [] 0 0 0 false)).
      rewrite (count_repository_fetch_repository env _ self self').
      rewrite Hloop by (symmetry; exact Hskip).
      cbn [fmap]. rewrite bind_Ok. reflexivity.
Qed.

End FailedPage.

Lemma failed_page_ends_repository_witness :
  @Contribution.fetch_repository Reference.runtime
    (Scenario.env_vanishing (Scenario.march_items 100)) 5 Scenario.api Scenario.billing
    "2025-03-01" "2025-04-01" false
    (Contribution.mkRepoState [Scenario.pr_0301] 100 100 1 true)
  = (Some (Ok (Contribution.mkRepoState [Scenario.pr_0301] 100 100 1 true)),
     [Request (ListPullRequests "Payments" "r-1" 100 100)]).
Proof.
  apply (@failed_page_ends_repository Reference.runtime
           (Scenario.env_vanishing (Scenario.march_items 100)) Scenario.api
           Scenario.org_api Scenario.billing "2025-03-01" "2025-04-01" false
           (Contribution.mkRepoState [Scenario.pr_0301] 100 100 1 true) 4 404%Z
           (Contribution.mkProjectState [] 0 0 0) (OrgCount.mkProjectState 0 0 0)
           eq_refl (or_introl eq_refl)).
Defined.

(** C5 as stated fails when the page that is not found is not the first:
    the second request for [billing] is answered 404, and [billing] still
    contributes the hundred records of its first page. *)
Lemma failed_page_keeps_earlier_pages :
  pull_requests_of (Scenario.env_vanishing (Scenario.march_items 100))
    "Payments" "r-1" 100 100 = HttpError 404
  /\ exists prs,
       @Contribution.get_all_pull_requests Reference.runtime
         (Scenario.env_vanishing (Scenario.march_items 100)) 5 Scenario.api
         "2025-03-01" "2025-04-01" false
       = (Some (Ok prs),
          [Request (ListRepositories "Payments");
           Request (ListPullRequests "Payments" "r-1" 0 100);
           Request (ListPullRequests "Payments" "r-1" 100 100)])
       /\ List.length prs = 100
       /\ Forall (fun pr => repositoryName pr = Some "billing") prs.
Proof.
  split; [reflexivity |].
  eexists. split; [vm_compute; reflexivity |].
  split; [reflexivity |].
  repeat constructor.
Qed.

(* ================================================================= *)
(** ** Annotation of the records *)

Section Annotation.
Context {rt : Runtime} (env : environment).
Import Contribution.

Lemma annotate_same_payload repo_name project pr :
  Spec.same_payload pr (annotate repo_name project pr).
Proof. repeat split. Qed.

Lemma annotate_annotated repo_name project pr :
  Spec.annotated repo_name project (annotate repo_name project pr).
Proof. split; reflexivity. Qed.

(** The filter loop, record by record: a record the test takes is
    annotated and appended, any other record is left as it was. *)
Lemma filter_prs_pointwise self repo_name start_date end_date use_creation_date
    prs prs' filtered_prs :
  filter_prs self repo_name start_date end_date use_creation_date prs
    = Ok (prs', filtered_prs) ->
  Forall2
    (fun pr pr' =>
       (filter_pr self repo_name start_date end_date use_creation_date pr = Ok None
        /\ pr' = pr)
       \/ (filter_pr self repo_name start_date end_date use_creation_date pr
             = Ok (Some pr')
           /\ pr' = annotate repo_name (project_of self) pr))
    prs prs'
  /\ filtered_prs
     = flat_map
         (fun pr =>
            match filter_pr self repo_name start_date end_date use_creation_date pr with
            | Ok (Some pr') => [pr']
            | _ => []
            end) prs.
Proof.
  revert prs' filtered_prs.
  induction prs as [|pr rest IH]; cbn [filter_prs flat_map]; intros prs' filtered_prs.
  - intros [= <- <-]. split; [constructor | reflexivity].
  - destruct (filter_pr self repo_name start_date end_date use_creation_date pr)
      as [kept|e] eqn:Hpr; cbn [rbind]; [| discriminate].
    destruct (filter_prs self repo_name start_date end_date use_creation_date rest)
      as [[rest' filtered]|e] eqn:Hrest; cbn [rbind]; [| discriminate].
    destruct (IH _ _ eq_refl) as [Hall Hfiltered].
    destruct (filter_pr_cases _ _ _ _ _ _ _ Hpr) as [-> | ->]; intros [= <- <-].
    + split; [constructor; [now left | assumption] | exact Hfiltered].
    + split; [constructor; [now right | assumption] |].
      cbn [app]. now rewrite Hfiltered.
Qed.

Lemma filter_prs_annotated self repo_name start_date end_date use_creation_date
    prs prs' filtered_prs :
  filter_prs self repo_name start_date end_date use_creation_date prs
    = Ok (prs', filtered_prs) ->
  Forall (Spec.annotated repo_name (project_of self)) filtered_prs.
Proof.
  intros H. apply filter_prs_pointwise in H as [_ ->].
  apply Forall_flat_map, Forall_forall. intros pr _.
  destruct (filter_pr self repo_name start_date end_date use_creation_date pr)
    as [[pr'|]|e] eqn:Hpr; try constructor; [| constructor].
  destruct (filter_pr_cases _ _ _ _ _ _ _ Hpr) as [[=] | [= ->]].
  apply annotate_annotated.
Qed.

(** What a run of the page loop adds to [all_prs] carries the two
    annotations. *)
Lemma fetch_repository_adds_annotated fuel self repo start_date end_date
    use_creation_date : forall st st' tr,
  fetch_repository env fuel self repo start_date end_date use_creation_date st
    = (Some (Ok st'), tr) ->
  exists added,
    all_prs st' = all_prs st ++ added
    /\ Forall (Spec.annotated (repo_name repo) (project_of self)) added.
Proof.
  induction fuel as [|fuel IH]; intros st st' tr; [discriminate |].
  cbn [fetch_repository].
  destruct (get_pull_requests_total env self (repo_id repo) (skip st) batch_size)
    as (r & tr0 & -> & [-> | [prs ->]]); [discriminate |].
  rewrite bind_Ok. destruct prs as [|pr rest].
  - cbn [fst snd ret]. intros [= <- _]. exists []. cbn [all_prs].
    now rewrite app_nil_r.
  - destruct (filter_prs self (repo_name repo) start_date end_date use_creation_date
                (pr :: rest)) as [[prs' filtered]|e] eqn:Hf; [| discriminate].
    pose proof (filter_prs_annotated _ _ _ _ _ _ _ _ Hf) as Hann.
    rewrite bind_lift_Ok.
    destruct (List.length prs' <? batch_size)%nat.
    { cbn [fst snd ret]. intros [= <- _]. now exists filtered. }
    destruct (newest_is_older start_date use_creation_date prs') as [[|]|e];
      [| | discriminate].
    { rewrite bind_lift_Ok. cbn [fst snd ret]. intros [= <- _]. now exists filtered. }
    rewrite bind_lift_Ok. cbn [fst snd]. intros [= Hrest _].
    match type of Hrest with
    | fst ?m = _ => rewrite (M_eta m) in Hrest; cbn [fst] in Hrest;
                    destruct (IH _ _ (snd m) ltac:(rewrite <- Hrest; apply M_eta))
                      as (added & Heq & Hadded)
    end.
    cbn [all_prs] in Heq. exists (filtered ++ added).
    split; [now rewrite Heq, app_assoc | now apply Forall_app].
Qed.

Lemma process_repository_adds_annotated fuel self start_date end_date
    use_creation_date ps repo ps' tr :
  process_repository env fuel self start_date end_date use_creation_date ps repo
    = (Some (Ok ps'), tr) ->
  exists added,
    ps_all_prs ps' = ps_all_prs ps ++ added
    /\ Forall (Spec.annotated (repo_name repo) (project_of self)) added.
Proof.
  unfold process_repository. intros H.
  apply bind_inv_Ok in H as (st & tr1 & tr2 & Hloop & Hret & _).
  apply fetch_repository_adds_annotated in Hloop as (added & Heq & Hadded).
  cbn [all_prs] in Heq. exists added. split; [| assumption].
  destruct (0 <? repo_pr_count st)%nat;
    [| destruct (negb (repo_has_data st))];
    injection Hret as <- _; exact Heq.
Qed.

(** What a run over the repositories of a project adds is annotated with
    the project and with the name of one of the repositories. *)
Lemma process_repositories_adds_annotated fuel self start_date end_date
    use_creation_date repositories : forall ps ps' tr,
  process_repositories env fuel self start_date end_date use_creation_date ps
    repositories = (Some (Ok ps'), tr) ->
  exists added,
    ps_all_prs ps' = ps_all_prs ps ++ added
    /\ Forall (fun pr => exists repo, In repo repositories
                          /\ Spec.annotated (repo_name repo) (project_of self) pr)
         added.
Proof.
  induction repositories as [|repo rest IH]; intros ps ps' tr;
    cbn [process_repositories].
  - intros [= <- _]. exists []. now rewrite app_nil_r.
  - intros H. apply bind_inv_Ok in H as (ps1 & tr1 & tr2 & Hrepo & Hrest & _).
    apply process_repository_adds_annotated in Hrepo as (added1 & Heq1 & Hadded1).
    apply IH in Hrest as (added2 & Heq2 & Hadded2).
    exists (added1 ++ added2). split; [now rewrite Heq2, Heq1, app_assoc |].
    apply Forall_app. split.
    + eapply Forall_impl; [| exact Hadded1]. intros pr Hpr. exists repo.
      split; [now left | assumption].
    + eapply Forall_impl; [| exact Hadded2]. intros pr (r & Hin & Hpr). exists r.
      split; [now right | assumption].
Qed.

(** C9, as the code has it. Within one page, the filter loop leaves a
    record that the date-window test does not take exactly as it came, and
    replaces a record that the test takes by that record with
    [repositoryName] and [projectName] set and every other key unchanged;
    [filtered_prs] holds the records taken, in order. So the annotation
    comes after the test, on the records that passed it only. Every record
    that [get_all_pull_requests] returns carries the project of the client
    and the name of one of its repositories. *)
Theorem annotation_follows_the_window_test self start_date end_date use_creation_date :
  (forall repo_name prs prs' filtered_prs,
     filter_prs self repo_name start_date end_date use_creation_date prs
       = Ok (prs', filtered_prs) ->
     Forall2
       (fun pr pr' =>
          (filter_pr self repo_name start_date end_date use_creation_date pr = Ok None
           /\ pr' = pr)
          \/ (filter_pr self repo_name start_date end_date use_creation_date pr
                = Ok (Some pr')
              /\ Spec.same_payload pr pr'
              /\ Spec.annotated repo_name (project_of self) pr'))
       prs prs'
     /\ filtered_prs
        = flat_map
            (fun pr =>
               match filter_pr self repo_name start_date end_date
                       use_creation_date pr with
               | Ok (Some pr') => [pr']
               | _ => []
               end) prs)
  /\ (forall fuel prs tr,
        get_all_pull_requests env fuel self start_date end_date use_creation_date
          = (Some (Ok prs), tr) ->
        Forall (fun pr => exists repo,
                  In repo (Spec.listed_repositories env (project_of self))
                  /\ Spec.annotated (repo_name repo) (project_of self) pr) prs).
Proof.
  split.
  - intros repo_name prs prs' filtered_prs H.
    apply filter_prs_pointwise in H as [Hall Hfiltered]. split; [| assumption].
    eapply Forall2_impl; [| exact Hall]. cbn beta.
    intros pr pr' [[Hnone ->] | [Hsome ->]]; [now left | right].
    split; [assumption |]. split; [apply annotate_same_payload | apply annotate_annotated].
  - intros fuel prs tr H. unfold get_all_pull_requests in H.
    apply bind_inv_Ok in H as (repos & tr1 & tr2 & Hrepos & H & _).
    apply bind_inv_Ok in H as (ps & tr3 & tr4 & Hloop & Hret & _).
    injection Hret as <- _.
    apply process_repositories_adds_annotated in Hloop as (added & -> & Hadded).
    cbn [ps_all_prs app].
    eapply Forall_impl; [| exact Hadded]. intros pr (repo & Hin & Hpr).
    exists repo. split; [| assumption].
    unfold get_repositories in Hrepos. rewrite bind_emit in Hrepos.
    unfold Spec.listed_repositories.
    destruct (repositories_of env (project_of self)) as [value| |code|];
      [| discriminate | |];
      injection Hrepos as <- _; [assumption | destruct Hin | destruct Hin].
Qed.

End Annotation.

Lemma annotation_follows_the_window_test_witness :
  Forall (fun pr => exists repo,
            In repo [Scenario.billing]
            /\ Spec.annotated (repo_name repo) "Payments" pr)
    [Contribution.annotate "billing" "Payments" Scenario.pr_0301;
     Contribution.annotate "billing" "Payments" Scenario.pr_0331].
Proof.
  apply (proj2 (@annotation_follows_the_window_test Reference.runtime
                  (Scenario.env_of [Scenario.pr_0301; Scenario.pr_0331; Scenario.pr_0401])
                  Scenario.api "2025-03-01" "2025-04-01" false)
           3 _
           [Request (ListRepositories "Payments");
            Request (ListPullRequests "Payments" "r-1" 0 100)]).
  reflexivity.
Defined.

(** C9 as stated fails: a record outside the window goes through the
    date-window test and comes out of the loop without either annotation,
    and a record inside the window enters the test without them and has
    them only in what the test returns. *)
Lemma record_outside_window_is_not_annotated :
  @Contribution.filter_prs Reference.runtime Scenario.api "billing"
    "2025-03-01" "2025-04-01" false [Scenario.pr_0301; Scenario.pr_0401]
  = Ok ([Contribution.annotate "billing" "Payments" Scenario.pr_0301; Scenario.pr_0401],
        [Contribution.annotate "billing" "Payments" Scenario.pr_0301])
  /\ repositoryName Scenario.pr_0401 = None
  /\ projectName Scenario.pr_0401 = None
  /\ @Contribution.filter_pr Reference.runtime Scenario.api "billing"
       "2025-03-01" "2025-04-01" false Scenario.pr_0301
     = Ok (Some (Contribution.annotate "billing" "Payments" Scenario.pr_0301))
  /\ repositoryName Scenario.pr_0301 = None
  /\ projectName Scenario.pr_0301 = None.
Proof. repeat split. Qed.

(* ================================================================= *)
(** ** Counters and rankings *)

Module CollectionsFacts.
Import Collections.

Lemma count_of_incr (key k : string) (c : Counter) :
  count_of (incr key c) k = count_of c k + Spec.one_if key k.
Proof.
  unfold Spec.one_if. induction c as [|[k' n] c IH]; cbn.
  - rewrite String.eqb_sym. now destruct (String.eqb k key).
  - destruct (String.eqb k' key) eqn:Hkey; cbn.
    + apply String.eqb_eq in Hkey as ->.
      destruct (String.eqb key k); lia.
    + destruct (String.eqb k' k) eqn:Hk; [| exact IH].
      apply String.eqb_eq in Hk as ->.
      rewrite String.eqb_sym, Hkey. lia.
Qed.

(** The keys of a counter after an increment are the old keys and the
    incremented one. *)
Lemma incr_keys (P : string -> Prop) (key : string) (c : Counter) :
  P key -> Forall (fun item => P (fst item)) c ->
  Forall (fun item => P (fst item)) (incr key c).
Proof.
  intros Hkey. induction c as [|[k n] c IH]; cbn; intros Hc.
  - now repeat constructor.
  - inversion Hc as [|? ? Hk Hrest]; subst.
    destruct (String.eqb k key); constructor; auto.
Qed.

Lemma insert_desc_In (x y : string * nat) (l : list (string * nat)) :
  In y (insert_desc x l) -> y = x \/ In y l.
Proof.
  induction l as [|z l IH]; simpl.
  - intros [<- | []]. now left.
  - destruct (snd x <? snd z)%nat; simpl.
    + intros [<- | H]; [right; now left |].
      destruct (IH H) as [-> | Hin]; [now left | right; now right].
    + intros [<- | H]; [now left | now right].
Qed.

Lemma sorted_desc_In (y : string * nat) (l : list (string * nat)) :
  In y (sorted_desc l) -> In y l.
Proof.
  induction l as [|x l IH]; simpl; [trivial |].
  intros H. apply insert_desc_In in H as [-> | H]; [now left | right; now apply IH].
Qed.

(** A ranking only shows items of the counter. *)
Lemma most_common_In (n : option nat) (y : string * nat) (c : Counter) :
  In y (most_common n c) -> In y c.
Proof.
  destruct n as [n|]; simpl; intros H; apply sorted_desc_In; [| exact H].
  rewrite <- (firstn_skipn n (sorted_desc c)). apply in_or_app. now left.
Qed.

Lemma insert_desc_In_rev (x y : string * nat) (l : list (string * nat)) :
  y = x \/ In y l -> In y (insert_desc x l).
Proof.
  induction l as [|z l IH]; simpl.
  - intros [-> | []]. now left.
  - destruct (snd x <? snd z)%nat; simpl.
    + intros [-> | [-> | H]]; [right; apply IH; now left | now left |].
      right. apply IH. now right.
    + intros [-> | H]; [now left | now right].
Qed.

(** Sorting loses no item. *)
Lemma sorted_desc_In_rev (y : string * nat) (l : list (string * nat)) :
  In y l -> In y (sorted_desc l).
Proof.
  induction l as [|x l IH]; simpl; [trivial |].
  intros [-> | H]; apply insert_desc_In_rev; [now left | right; now apply IH].
Qed.

Lemma dict_get_In (d : list (string * nat)) (key : string) (value : nat) :
  dict_get d key = Some value -> In (key, value) d.
Proof.
  induction d as [|[k v] d IH]; simpl; [discriminate |].
  destruct (String.eqb k key) eqn:Hk.
  - apply String.eqb_eq in Hk as ->. intros [= ->]. now left.
  - intros H. right. now apply IH.
Qed.

End CollectionsFacts.

(* ================================================================= *)
(** ** A project that fails *)

Section ProjectFailure.
Context {rt : Runtime} (env : environment).

(** One turn of the loop over the projects of the per-project script. *)
Lemma fetch_projects_cons fuel organization project rest start_date end_date
    use_creation_date all_prs :
  let run := Spec.project_run env fuel organization start_date end_date
               use_creation_date project in
  Spec.settles run ->
  Contribution.fetch_projects env fuel organization (project :: rest) start_date
    end_date use_creation_date all_prs
  = let next := Contribution.fetch_projects env fuel organization rest start_date
                  end_date use_creation_date (all_prs ++ Spec.contribution run) in
    (fst next, (snd run ++ Spec.warning project run) ++ snd next).
Proof.
  intros run Hsettles. cbn [Contribution.fetch_projects].
  rewrite <- bind_assoc. fold (Spec.project_run env fuel organization start_date
                                  end_date use_creation_date project). fold run.
  unfold Spec.settles, Spec.contribution, Spec.warning in *.
  destruct run as [[[prs|e]|] tr]; cbn [fst snd] in *; [| | contradiction].
  - rewrite bind_Ok. cbn [ret fst snd try_except_Exception].
    rewrite bind_Ok, !app_nil_r. reflexivity.
  - cbn [bind try_except_Exception]. rewrite Hsettles, bind_emit.
    cbn [ret fst snd]. rewrite bind_Ok, app_nil_r. reflexivity.
Qed.

(** The whole loop: the records of the projects that returned, in order,
    and on the trace every project's events followed by its warning. *)
Lemma fetch_projects_settled fuel organization start_date end_date use_creation_date
    projects : forall all_prs,
  let run := Spec.project_run env fuel organization start_date end_date
               use_creation_date in
  (forall project, In project projects -> Spec.settles (run project)) ->
  Contribution.fetch_projects env fuel organization projects start_date end_date
    use_creation_date all_prs
  = (Some (Ok (all_prs ++ flat_map (fun p => Spec.contribution (run p)) projects)),
     flat_map (fun p => snd (run p) ++ Spec.warning p (run p)) projects).
Proof.
  induction projects as [|project rest IH]; intros all_prs run Hsettles.
  - cbn. now rewrite app_nil_r.
  - rewrite fetch_projects_cons by (apply Hsettles; now left).
    cbv zeta. rewrite IH by (intros p Hp; apply Hsettles; now right).
    cbn [fst snd flat_map]. now rewrite app_assoc.
Qed.

Lemma dict_get_set_same key value d :
  Collections.dict_get (Collections.dict_set key value d) key = Some value.
Proof.
  induction d as [|[k v] d IH]; cbn.
  - now rewrite String.eqb_refl.
  - destruct (String.eqb k key) eqn:Hk; cbn; rewrite Hk; [reflexivity | exact IH].
Qed.

Lemma dict_get_set_other key key' value d :
  key <> key' ->
  Collections.dict_get (Collections.dict_set key value d) key'
  = Collections.dict_get d key'.
Proof.
  intros Hne. induction d as [|[k v] d IH]; cbn.
  - destruct (String.eqb key key') eqn:Hk; [| reflexivity].
    apply String.eqb_eq in Hk. contradiction.
  - destruct (String.eqb k key) eqn:Hk; cbn.
    + apply String.eqb_eq in Hk as ->.
      destruct (String.eqb key key') eqn:Hk'; [| reflexivity].
      apply String.eqb_eq in Hk'. contradiction.
    + destruct (String.eqb k key'); [reflexivity | exact IH].
Qed.

(** The dictionary after the loop over projects of distinct names holds,
    for each project, what that project counted. *)
Lemma dict_get_fold_set (count : project -> nat) (projects : list project) :
  forall d,
    NoDup (map project_name projects) ->
    forall p, In p projects ->
      Collections.dict_get
        (fold_left (fun d p => Collections.dict_set (project_name p) (count p) d)
           projects d) (project_name p)
      = Some (count p).
Proof.
  assert (Hkeep : forall ps d key,
            ~ In key (map project_name ps) ->
            Collections.dict_get
              (fold_left (fun d p => Collections.dict_set (project_name p) (count p) d)
                 ps d) key
            = Collections.dict_get d key).
  { induction ps as [|q ps IH]; intros d key Hnotin; [reflexivity |].
    cbn [fold_left]. rewrite IH by (intros H; apply Hnotin; now right).
    apply dict_get_set_other. intros Heq. apply Hnotin. now left. }
  induction projects as [|q ps IH]; intros d Hnodup p Hin; [destruct Hin |].
  cbn [map] in Hnodup. apply NoDup_cons_iff in Hnodup as [Hnotin Hnodup].
  cbn [fold_left]. destruct Hin as [-> | Hin].
  - rewrite Hkeep by assumption. apply dict_get_set_same.
  - now apply IH.
Qed.

(** One turn of the loop over the projects of the organization-wide
    script. *)
Lemma count_projects_cons fuel api start_date end_date project rest project_counts
    total_prs :
  let run := OrgCount.count_project_prs env fuel api (project_name project)
               start_date end_date OrgCount.USE_CREATION_DATE in
  Spec.settles run ->
  OrgCount.count_projects env fuel api start_date end_date (project :: rest)
    project_counts total_prs
  = let next :=
      OrgCount.count_projects env fuel api start_date end_date rest
        (Collections.dict_set (project_name project) (Spec.counted run) project_counts)
        (total_prs + Spec.counted run) in
    (fst next, (snd run ++ Spec.warning (project_name project) run) ++ snd next).
Proof.
  intros run Hsettles. cbn [OrgCount.count_projects]. fold run.
  unfold Spec.settles, Spec.counted, Spec.warning in *.
  destruct run as [[[n|e]|] tr]; cbn [fst snd] in *; [| | contradiction].
  - rewrite bind_Ok. cbn [ret fst snd try_except_Exception].
    rewrite bind_Ok. cbn [fst snd]. reflexivity.
  - cbn [bind try_except_Exception]. rewrite Hsettles, bind_emit.
    cbn [ret fst snd]. rewrite bind_Ok. cbn [fst snd].
    rewrite Nat.add_0_r. reflexivity.
Qed.

Lemma count_projects_settled fuel api start_date end_date projects :
  forall project_counts total_prs,
  let run p := OrgCount.count_project_prs env fuel api (project_name p)
                 start_date end_date OrgCount.USE_CREATION_DATE in
  (forall p, In p projects -> Spec.settles (run p)) ->
  OrgCount.count_projects env fuel api start_date end_date projects project_counts
    total_prs
  = (Some (Ok (fold_left
                 (fun d p => Collections.dict_set (project_name p)
                               (Spec.counted (run p)) d) projects project_counts,
               total_prs + list_sum (map (fun p => Spec.counted (run p)) projects))),
     flat_map (fun p => snd (run p) ++ Spec.warning (project_name p) (run p)) projects).
Proof.
  induction projects as [|project rest IH]; intros project_counts total_prs run Hsettles.
  - cbn. now rewrite Nat.add_0_r.
  - rewrite count_projects_cons by (apply Hsettles; now left).
    cbv zeta. rewrite IH by (intros p Hp; apply Hsettles; now right).
    cbn [fst snd flat_map fold_left map].
    change (list_sum (?x :: ?l)) with (x + list_sum l).
    now rewrite Nat.add_assoc.
Qed.

(** [main] of the per-project script over several projects: the report
    is made from the records of the projects that returned. *)
Lemma main_of_several_projects fuel argv args start_date end_date period_desc :
  snd (Contribution.parse_arguments argv 0) = ret args ->
  Contribution.get_date_range env (Contribution.arg_year args)
    (Contribution.arg_month args) (Contribution.use_current_month args)
    (Contribution.use_whole_year args)
  = ret (start_date, end_date, period_desc) ->
  List.length (Contribution.arg_projects args) <> 1 ->
  let run := Spec.project_run env fuel (configured_organization env) start_date
               end_date Contribution.USE_CREATION_DATE in
  (forall p, In p (Contribution.arg_projects args) -> Spec.settles (run p)) ->
  fst (Contribution.main env fuel argv)
  = Some (Ok (Spec.report_of
                (flat_map (fun p => Spec.contribution (run p))
                   (Contribution.arg_projects args))
                (Contribution.arg_projects args) start_date end_date period_desc)).
Proof.
  intros Hparse Hrange Hseveral run Hsettles. unfold Contribution.main.
  rewrite Hparse, bind_ret, Hrange, bind_ret.
  assert (Hfetch :
    match Contribution.arg_projects args with
    | [project] =>
        bind (Contribution.new_AzureDevOpsAPI env (configured_organization env) project)
          (fun api => Contribution.get_all_pull_requests env fuel api start_date
                        end_date Contribution.USE_CREATION_DATE)
    | _ => Contribution.fetch_prs_from_multiple_projects env fuel
             (configured_organization env) (Contribution.arg_projects args)
             start_date end_date Contribution.USE_CREATION_DATE
    end
    = Contribution.fetch_prs_from_multiple_projects env fuel
        (configured_organization env) (Contribution.arg_projects args)
        start_date end_date Contribution.USE_CREATION_DATE).
  { destruct (Contribution.arg_projects args) as [|p [|q l]]; try reflexivity.
    now cbn in Hseveral. }
  rewrite Hfetch. unfold Contribution.fetch_prs_from_multiple_projects.
  rewrite fetch_projects_settled by exact Hsettles.
  fold run. cbn [app]. rewrite bind_Ok. unfold Spec.report_of.
  destruct (flat_map (fun p => Spec.contribution (run p))
              (Contribution.arg_projects args)); reflexivity.
Qed.

(** [main] of the organization-wide script: the total is the sum of what
    the projects counted, and a project of positive count is in the
    breakdown with its count. *)
Lemma org_main_report fuel VERBOSITY start_date end_date projects :
  OrgCount._setup_authentication env = ret tt ->
  projects_of env = Success projects ->
  projects <> [] ->
  let run p := OrgCount.count_project_prs env fuel
                 (OrgCount.mkAPI (configured_organization env)) (project_name p)
                 start_date end_date OrgCount.USE_CREATION_DATE in
  (forall p, In p projects -> Spec.settles (run p)) ->
  exists report,
    fst (OrgCount.main env fuel VERBOSITY start_date end_date) = Some (Ok report)
    /\ OrgCount.report_total_prs report
       = list_sum (map (fun p => Spec.counted (run p)) projects)
    /\ OrgCount.projects_analyzed report = List.length projects
    /\ (NoDup (map project_name projects) ->
        forall p, In p projects -> 0 < Spec.counted (run p) ->
          In (project_name p, Spec.counted (run p)) (OrgCount.breakdown report)).
Proof.
  intros Hauth Hprojects Hne run Hsettles. unfold OrgCount.main.
  unfold OrgCount.new_AzureDevOpsOrgAPI. rewrite Hauth, !bind_ret.
  unfold OrgCount.get_all_projects. rewrite Hprojects, bind_emit. cbn [ret fst snd].
  rewrite bind_Ok. destruct projects as [|p0 rest]; [congruence |].
  rewrite count_projects_settled by exact Hsettles. fold run.
  rewrite bind_Ok. cbn [fst snd ret try_except_Exception].
  eexists. split; [reflexivity |].
  cbn [OrgCount.report_total_prs OrgCount.projects_analyzed OrgCount.breakdown].
  split; [reflexivity | split; [reflexivity |]].
  intros Hnodup p Hin Hpos. apply filter_In. split.
  - apply CollectionsFacts.sorted_desc_In_rev, CollectionsFacts.dict_get_In.
    apply (dict_get_fold_set (fun p => Spec.counted (run p))); assumption.
  - cbn [snd]. apply orb_true_iff. left. now apply Nat.ltb_lt.
Qed.

(** C6. Every project of the run comes to an end without leaving the
    process. Then the loop over the projects returns, in either script:
    - per-project script: the records are those of the projects that
      returned, in order; a project that raised adds none, its warning is on
      standard error, and the events of every project are on the trace;
      [main], run on several projects, reports from exactly these records;
    - organization-wide script: the total is the sum of the counts of the
      projects that returned; a project that raised counts zero and its
      warning is on standard error; when the project names are distinct,
      the dictionary holds for every project what it counted; [main]
      reports that total and lists every project of positive count. *)
Theorem failed_project_contributes_zero fuel organization (api : OrgCount.AzureDevOpsOrgAPI)
    start_date end_date use_creation_date (projects : list string)
    (org_projects : list project) :
  let run := Spec.project_run env fuel organization start_date end_date
               use_creation_date in
  let run_org p := OrgCount.count_project_prs env fuel api (project_name p)
                     start_date end_date OrgCount.USE_CREATION_DATE in
  let fetched := Contribution.fetch_prs_from_multiple_projects env fuel organization
                   projects start_date end_date use_creation_date in
  let counted := OrgCount.count_projects env fuel api start_date end_date
                   org_projects [] 0 in
  (forall p, In p projects -> Spec.settles (run p)) ->
  (forall p, In p org_projects -> Spec.settles (run_org p)) ->
  (fst fetched = Some (Ok (flat_map (fun p => Spec.contribution (run p)) projects))
   /\ snd fetched = flat_map (fun p => snd (run p) ++ Spec.warning p (run p)) projects
   /\ (forall p e, In p projects -> fst (run p) = Some (Raise e) ->
         Spec.contribution (run p) = []
         /\ In (Stderr (WarningProjectFailed p e)) (snd fetched))
   /\ (forall argv args period_desc,
         snd (Contribution.parse_arguments argv 0) = ret args ->
         Contribution.get_date_range env (Contribution.arg_year args)
           (Contribution.arg_month args) (Contribution.use_current_month args)
           (Contribution.use_whole_year args)
         = ret (start_date, end_date, period_desc) ->
         Contribution.arg_projects args = projects ->
         List.length projects <> 1 ->
         organization = configured_organization env ->
         use_creation_date = Contribution.USE_CREATION_DATE ->
         fst (Contribution.main env fuel argv)
         = Some (Ok (Spec.report_of
                       (flat_map (fun p => Spec.contribution (run p)) projects)
                       projects start_date end_date period_desc))))
  /\ (exists project_counts,
        fst counted
        = Some (Ok (project_counts,
                    list_sum (map (fun p => Spec.counted (run_org p)) org_projects)))
        /\ snd counted
           = flat_map (fun p => snd (run_org p)
                                ++ Spec.warning (project_name p) (run_org p))
               org_projects
        /\ (forall p e, In p org_projects -> fst (run_org p) = Some (Raise e) ->
             Spec.counted (run_org p) = 0
             /\ In (Stderr (WarningProjectFailed (project_name p) e)) (snd counted))
        /\ (NoDup (map project_name org_projects) ->
            forall p, In p org_projects ->
              Collections.dict_get project_counts (project_name p)
              = Some (Spec.counted (run_org p))))
  /\ (forall VERBOSITY,
        OrgCount._setup_authentication env = ret tt ->
        projects_of env = Success org_projects ->
        org_projects <> [] ->
        api = OrgCount.mkAPI (configured_organization env) ->
        exists report,
          fst (OrgCount.main env fuel VERBOSITY start_date end_date) = Some (Ok report)
          /\ OrgCount.report_total_prs report
             = list_sum (map (fun p => Spec.counted (run_org p)) org_projects)
          /\ (NoDup (map project_name org_projects) ->
              forall p, In p org_projects -> 0 < Spec.counted (run_org p) ->
                In (project_name p, Spec.counted (run_org p))
                  (OrgCount.breakdown report))).
Proof.
  intros run run_org fetched counted Hsettles Hsettles_org.
  split; [| split].
  - unfold fetched, Contribution.fetch_prs_from_multiple_projects.
    rewrite fetch_projects_settled by exact Hsettles.
    cbn [fst snd app]. fold run.
    split; [reflexivity | split; [reflexivity | split]].
    + intros p e Hin Hraise. split.
      * unfold Spec.contribution. now rewrite Hraise.
      * apply in_flat_map. exists p. split; [assumption |].
        apply in_or_app. right. unfold Spec.warning. rewrite Hraise. now left.
    + intros argv args period_desc Hparse Hrange Hprojects Hseveral Horg Hcreation.
      subst projects organization use_creation_date.
      now apply main_of_several_projects.
  - unfold counted. rewrite count_projects_settled by exact Hsettles_org.
    cbn [fst snd]. eexists. split; [reflexivity |]. split; [reflexivity |]. split.
    + intros p e Hin Hraise. split.
      * unfold Spec.counted. fold (run_org p). now rewrite Hraise.
      * apply in_flat_map. exists p. split; [assumption |].
        apply in_or_app. right. unfold Spec.warning. fold (run_org p).
        rewrite Hraise. now left.
    + intros Hnodup p Hin.
      apply (dict_get_fold_set (fun p => Spec.counted (run_org p))); assumption.
  - intros VERBOSITY Hauth Hprojects Hne Hapi. subst api.
    destruct (org_main_report fuel VERBOSITY start_date end_date org_projects
                Hauth Hprojects Hne Hsettles_org)
      as (report & Hmain & Htotal & _ & Hbreakdown).
    exists report. repeat split; assumption.
Qed.

End ProjectFailure.

Lemma failed_project_contributes_zero_witness :
  fst (@Contribution.fetch_prs_from_multiple_projects Reference.runtime
         Scenario.env_two_projects 3 "contoso" ["Legacy"; "Payments"]
         "2025-03-01" "2025-04-01" false)
  = Some (Ok [Contribution.annotate "billing" "Payments" Scenario.pr_0301;
              Contribution.annotate "billing" "Payments" Scenario.pr_0331])
  /\ In (Stderr (WarningProjectFailed "Legacy" (KeyError "value")))
       (snd (@Contribution.fetch_prs_from_multiple_projects Reference.runtime
               Scenario.env_two_projects 3 "contoso" ["Legacy"; "Payments"]
               "2025-03-01" "2025-04-01" false))
  /\ fst (@Contribution.main Reference.runtime Scenario.env_two_projects 3
            ["Legacy, Payments"; "2025"; "3"])
     = Some (Ok (Contribution.Results
                   (Contribution.analyze_pr_data
                      [Contribution.annotate "billing" "Payments" Scenario.pr_0301;
                       Contribution.annotate "billing" "Payments" Scenario.pr_0331])
                   ["Legacy"; "Payments"] "for 2025-03"))
  /\ (exists project_counts,
        fst (@OrgCount.count_projects Reference.runtime Scenario.env_two_projects 3
               Scenario.org_api "2025-03-01" "2025-04-01"
               [mkProject "Legacy"; mkProject "Payments"] [] 0)
        = Some (Ok (project_counts, 2))
        /\ Collections.dict_get project_counts "Legacy" = Some 0
        /\ Collections.dict_get project_counts "Payments" = Some 2)
  /\ exists report,
       fst (@OrgCount.main Reference.runtime Scenario.env_two_projects 3 0
              "2025-03-01" "2025-04-01") = Some (Ok report)
       /\ OrgCount.report_total_prs report = 2
       /\ In ("Payments", 2) (OrgCount.breakdown report).
Proof.
  assert (Hnodup : NoDup (map project_name [mkProject "Legacy"; mkProject "Payments"])).
  { constructor; [intros [H | []]; discriminate |].
    constructor; [intros [] | constructor]. }
  destruct (@failed_project_contributes_zero Reference.runtime
              Scenario.env_two_projects 3 "contoso" Scenario.org_api
              "2025-03-01" "2025-04-01" false ["Legacy"; "Payments"]
              [mkProject "Legacy"; mkProject "Payments"])
    as [(Hfetched & _ & Hfailed & Hmain)
        [(project_counts & Hcounted & _ & _ & Hdict) Horg_main]].
  - intros p [<- | [<- | []]]; vm_compute; first [exact I | reflexivity].
  - intros p [<- | [<- | []]]; vm_compute; first [exact I | reflexivity].
  - split; [exact Hfetched |].
    split; [apply (Hfailed "Legacy" (KeyError "value")); [now left | reflexivity] |].
    split.
    { apply (Hmain ["Legacy, Payments"; "2025"; "3"]
               (Contribution.mkArgs ["Legacy"; "Payments"] (Some "2025") (Some "3")
                  false false)
               "for 2025-03");
        first [reflexivity | discriminate]. }
    split.
    + exists project_counts. split; [exact Hcounted |]. split.
      * apply (Hdict Hnodup (mkProject "Legacy")). now left.
      * apply (Hdict Hnodup (mkProject "Payments")). right. now left.
    + destruct (Horg_main 0 eq_refl eq_refl ltac:(discriminate) eq_refl)
        as (report & Hreport & Htotal & Hbreakdown).
      exists report. split; [exact Hreport |]. split; [exact Htotal |].
      apply (Hbreakdown Hnodup (mkProject "Payments")); [right; now left |].
      vm_compute. lia.
Defined.


(* ================================================================= *)
(** ** The aggregator *)

Section Aggregation.
Import Contribution Collections CollectionsFacts.

Lemma is_human_true (name : string) :
  is_human name = true <->
  PyStr.startswith "[" name = false /\ PyStr.contains "Cloud Services" name = false.
Proof.
  unfold is_human. rewrite andb_true_iff, !negb_true_iff. reflexivity.
Qed.

(** The reviewer counter only ever gets names that pass the test. *)
Lemma count_reviewers_human (l : list identity) :
  forall c,
    Forall (fun item => is_human (fst item) = true) c ->
    Forall (fun item => is_human (fst item) = true) (count_reviewers l c).
Proof.
  induction l as [|reviewer rest IH]; intros c Hc; cbn [count_reviewers];
    [exact Hc |].
  destruct (is_human (display_name reviewer)) eqn:Hname; apply IH; [| exact Hc].
  now apply (incr_keys (fun k => is_human k = true)).
Qed.

Lemma tally_reviewers_human (prs : list pull_request) :
  forall t,
    Forall (fun item => is_human (fst item) = true) (reviewers_count t) ->
    Forall (fun item => is_human (fst item) = true)
      (reviewers_count (fold_left count_pr prs t)).
Proof.
  induction prs as [|pr rest IH]; intros t Ht; cbn [fold_left]; [exact Ht |].
  apply IH. cbn [count_pr reviewers_count]. now apply count_reviewers_human.
Qed.

(** C7. Whatever the records, a name that begins with ['['] or contains
    [Cloud Services] is not in the reviewer ranking. *)
Theorem service_accounts_never_ranked (prs : list pull_request) (name : string)
    (n : nat) :
  In (name, n) (stats_reviewers (analyze_pr_data prs)) ->
  PyStr.startswith "[" name = false
  /\ PyStr.contains "Cloud Services" name = false.
Proof.
  cbn [analyze_pr_data stats_reviewers]. intros Hin.
  apply most_common_In in Hin. apply is_human_true.
  pose proof (tally_reviewers_human prs (mkTally [] [] [] []) (Forall_nil _)) as Hall.
  rewrite Forall_forall in Hall. exact (Hall _ Hin).
Qed.

Lemma service_accounts_never_ranked_witness :
  In ("Ann", 2) (stats_reviewers (analyze_pr_data [Scenario.pr_two_anns]))
  /\ PyStr.startswith "[" "Ann" = false
  /\ PyStr.contains "Cloud Services" "Ann" = false.
Proof.
  assert (Hin : In ("Ann", 2) (stats_reviewers (analyze_pr_data [Scenario.pr_two_anns])))
    by (now left).
  split; [exact Hin |].
  exact (service_accounts_never_ranked [Scenario.pr_two_anns] "Ann" 2 Hin).
Defined.

Example ranking_without_build_service :
  stats_reviewers (analyze_pr_data [Scenario.pr_two_anns; Scenario.pr_0301])
  = [("Ann", 2); ("Bob", 1)].
Proof. reflexivity. Qed.

(** What the reviewer loop adds to the count of a name. *)
Lemma count_of_count_reviewers (l : list identity) (name : string) :
  forall c,
    count_of (count_reviewers l c) name
    = count_of c name
      + count_occ string_dec (filter is_human (map display_name l)) name.
Proof.
  induction l as [|reviewer rest IH]; intros c; cbn [count_reviewers map filter];
    [now rewrite Nat.add_0_r |].
  destruct (is_human (display_name reviewer)) eqn:Hname; rewrite IH; [| reflexivity].
  rewrite count_of_incr. unfold Spec.one_if. cbn [count_occ].
  destruct (string_dec (display_name reviewer) name) as [-> | Hne].
  - rewrite String.eqb_refl. lia.
  - apply String.eqb_neq in Hne. rewrite Hne. lia.
Qed.

(** C8, as the code has it. One turn of the aggregator adds exactly one to
    the count of the record's author, repository and project and leaves
    every other author, repository and project count alone; to the count
    of a reviewer name it adds the number of entries of the record's
    reviewer list that carry that name and pass the service-account test:
    nothing for a service account, and at most one when the display names
    of the list are pairwise distinct. *)
Theorem one_count_per_record_and_reviewer_entry (t : tally) (pr : pull_request)
    (name : string) :
  count_of (authors (count_pr t pr)) name
    = count_of (authors t) name + Spec.one_if (author_of pr) name
  /\ count_of (repositories (count_pr t pr)) name
     = count_of (repositories t) name + Spec.one_if (Spec.repository_of pr) name
  /\ count_of (projects (count_pr t pr)) name
     = count_of (projects t) name + Spec.one_if (Spec.project_name_of pr) name
  /\ count_of (reviewers_count (count_pr t pr)) name
     = count_of (reviewers_count t) name + Spec.reviews_by pr name
  /\ (is_human name = false -> Spec.reviews_by pr name = 0)
  /\ (NoDup (map display_name (reviewers_of pr)) -> Spec.reviews_by pr name <= 1).
Proof.
  cbn [count_pr authors repositories projects reviewers_count].
  rewrite !count_of_incr, count_of_count_reviewers.
  repeat split.
  - intros Hname. unfold Spec.reviews_by, Spec.counted_reviewers.
    apply count_occ_not_In. intros Hin. apply filter_In in Hin as [_ Hin].
    congruence.
  - intros Hnodup. unfold Spec.reviews_by, Spec.counted_reviewers.
    apply NoDup_count_occ. now apply NoDup_filter.
Qed.

Lemma one_count_per_record_and_reviewer_entry_witness :
  NoDup (map display_name (reviewers_of Scenario.pr_0301))
  /\ count_of (reviewers_count (count_pr (mkTally [] [("Bob", 4)] [] []) Scenario.pr_0301))
       "Bob" = 4 + Spec.reviews_by Scenario.pr_0301 "Bob"
  /\ Spec.reviews_by Scenario.pr_0301 "Bob" <= 1.
Proof.
  assert (Hnodup : NoDup (map display_name (reviewers_of Scenario.pr_0301)))
    by (constructor; [intros [] | constructor]).
  split; [exact Hnodup |].
  destruct (one_count_per_record_and_reviewer_entry
              (mkTally [] [("Bob", 4)] [] []) Scenario.pr_0301 "Bob")
    as (_ & _ & _ & Hreviews & _ & Hone).
  split; [exact Hreviews | exact (Hone Hnodup)].
Defined.

(** C8 as stated fails on a record whose reviewer list names Ann twice and
    a build account once: the one record adds two to Ann's count and
    nothing to the build account's. *)
Lemma one_record_counts_a_name_twice :
  reviewers_of Scenario.pr_two_anns
  = [Scenario.ann; mkIdentity (Some "[Payments]\Build Service"); Scenario.ann]
  /\ count_of (reviewers_count (tally_prs [Scenario.pr_two_anns])) "Ann" = 2
  /\ count_of (reviewers_count (tally_prs [Scenario.pr_two_anns]))
       "[Payments]\Build Service" = 0.
Proof. repeat split. Qed.

End Aggregation.

(* ================================================================= *)
(** ** The command line of the per-project script *)

Section CommandLineFacts.
Context {rt : Runtime} (env : environment).
Import Contribution.

(** C10. With exactly one argument left once the verbosity flags are
    removed, and that argument an integer outside [[2000, 2030]],
    [parse_arguments] does not exit: it returns the argument split at the
    commas as the project list, no year, no month, and the current-month
    mode; and the date range [main] computes from that is the one of the
    current month, from its first day to tomorrow. *)
Theorem out_of_range_year_is_a_project_name (argv : list string) (VERBOSITY : nat)
    (arg : string) (year_int : Z) :
  snd (strip_verbosity argv VERBOSITY) = [arg] ->
  py_int arg = Some year_int ->
  (year_int < 2000 \/ 2030 < year_int)%Z ->
  snd (parse_arguments argv VERBOSITY)
    = ret (mkArgs (project_list arg) None None true false)
  /\ (args <- snd (parse_arguments argv VERBOSITY) ;;
      get_date_range env (arg_year args) (arg_month args)
        (use_current_month args) (use_whole_year args))%io
     = ret (strftime_Y_m_d (replace_day_1 (dt_date (now env))),
            strftime_Y_m_d (next_day (dt_date (now env))),
            "for the current month (" +:+ strftime_Y_m (dt_date (now env))
            +:+ ") up to today").
Proof.
  intros Hargs Hint Hrange.
  assert (Hparse : snd (parse_arguments argv VERBOSITY)
                   = ret (mkArgs (project_list arg) None None true false)).
  { unfold parse_arguments.
    destruct (strip_verbosity argv VERBOSITY) as [v args]. cbn [snd] in Hargs |- *.
    subst args. rewrite Hint.
    assert (Hout : ((2000 <=? year_int) && (year_int <=? 2030))%Z = false).
    { apply andb_false_iff. destruct Hrange; [left | right]; lia. }
    now rewrite Hout. }
  split; [exact Hparse |].
  rewrite Hparse, bind_ret. reflexivity.
Qed.

End CommandLineFacts.

Lemma out_of_range_year_is_a_project_name_witness :
  snd (@Contribution.parse_arguments Reference.runtime ["-v"; "1999"] 0)
  = ret (Contribution.mkArgs ["1999"] None None true false)
  /\ (args <- snd (@Contribution.parse_arguments Reference.runtime ["-v"; "1999"] 0) ;;
      @Contribution.get_date_range Reference.runtime Scenario.env_two_projects
        (Contribution.arg_year args) (Contribution.arg_month args)
        (Contribution.use_current_month args) (Contribution.use_whole_year args))%io
     = ret ("2025-03-01", "2025-03-21", "for the current month (2025-03) up to today").
Proof.
  exact (@out_of_range_year_is_a_project_name Reference.runtime
           Scenario.env_two_projects ["-v"; "1999"] 0 "1999" 1999%Z
           eq_refl eq_refl (or_introl eq_refl)).
Defined.

Example year_in_range_is_a_year :
  snd (@Contribution.parse_arguments Reference.runtime ["2025"] 0)
  = ret (Contribution.mkArgs [Contribution.DEFAULT_PROJECT] (Some "2025") None false true).
Proof. reflexivity. Qed.

(* ================================================================= *)
(** ** The windows [get_date_range] returns, under the reference runtime *)

Module DateRangeFacts.
Import ReferenceFacts.

Lemma in_range_nat (lo len : nat) (n : Z) :
  (Z.of_nat lo <= n < Z.of_nat (lo + len))%Z -> In n (map Z.of_nat (seq lo len)).
Proof.
  intros H. apply in_map_iff. exists (Z.to_nat n). split; [lia |].
  apply in_seq. lia.
Qed.

Lemma reads_back_4 (n : Z) : (0 <= n < 10000)%Z -> Spec.reads_back 4 n = true.
Proof.
  intros H.
  assert (Hall : forallb (Spec.reads_back 4) (map Z.of_nat (seq 0 (Z.to_nat 10000))) = true)
    by (vm_compute; reflexivity).
  rewrite forallb_forall in Hall. apply Hall, in_range_nat. lia.
Qed.

Lemma reads_back_2 (n : Z) : (0 <= n < 100)%Z -> Spec.reads_back 2 n = true.
Proof.
  intros H.
  assert (Hall : forallb (Spec.reads_back 2) (map Z.of_nat (seq 0 (Z.to_nat 100))) = true)
    by (vm_compute; reflexivity).
  rewrite forallb_forall in Hall. apply Hall, in_range_nat. lia.
Qed.

Lemma int_reads_back_4 (n : Z) : (0 <= n < 10000)%Z -> Spec.int_reads_back 4 n = true.
Proof.
  intros H.
  assert (Hall : forallb (Spec.int_reads_back 4) (map Z.of_nat (seq 0 (Z.to_nat 10000))) = true)
    by (vm_compute; reflexivity).
  rewrite forallb_forall in Hall. apply Hall, in_range_nat. lia.
Qed.

Lemma int_reads_back_2 (n : Z) : (0 <= n < 100)%Z -> Spec.int_reads_back 2 n = true.
Proof.
  intros H.
  assert (Hall : forallb (Spec.int_reads_back 2) (map Z.of_nat (seq 0 (Z.to_nat 100))) = true)
    by (vm_compute; reflexivity).
  rewrite forallb_forall in Hall. apply Hall, in_range_nat. lia.
Qed.

Lemma read_digits_format_0d (width : nat) (n : Z) (rest : string) :
  Spec.reads_back width n = true ->
  Reference.read_digits width 0 (format_0d width n +:+ rest) = Some (n, rest).
Proof.
  unfold Spec.reads_back.
  destruct (Reference.read_digits width 0 (format_0d width n)) as [[v [|? ?]]|] eqn:Hread;
    try discriminate.
  intros Hv. apply Z.eqb_eq in Hv as ->.
  now rewrite (read_digits_append _ _ rest _ _ _ Hread).
Qed.

Lemma py_int_format_0d (width : nat) (n : Z) :
  Spec.int_reads_back width n = true ->
  Reference.py_int (format_0d width n) = Some n.
Proof.
  unfold Spec.int_reads_back.
  destruct (Reference.py_int (format_0d width n)); [| discriminate].
  intros Hv. apply Z.eqb_eq in Hv. now subst.
Qed.

Lemma days_in_month_bounds (y m : Z) : (28 <= days_in_month y m <= 31)%Z.
Proof.
  unfold days_in_month. destruct (m =? 2)%Z; [destruct (is_leap y); lia |].
  destruct (_ || _)%Z; lia.
Qed.

Lemma valid_date_bounds (y m d : Z) :
  Reference.valid_date y m d = true <->
  (1 <= y <= 9999 /\ 1 <= m <= 12 /\ 1 <= d <= days_in_month y m)%Z.
Proof.
  unfold Reference.valid_date. rewrite !andb_true_iff, !Z.leb_le. lia.
Qed.

(** A date that [date(y, m, d)] accepts, printed by [strftime] and read by
    the reference parser, is that date. *)
Lemma date_of_iso_strftime (d : date) :
  Reference.valid_date (year d) (month d) (day d) = true ->
  @Contribution.date_of_iso Reference.runtime (strftime_Y_m_d d) = Ok d.
Proof.
  intros Hvalid. pose proof Hvalid as Hb. apply valid_date_bounds in Hb.
  pose proof (days_in_month_bounds (year d) (month d)) as Hdim.
  unfold Contribution.date_of_iso. cbn [fromisoformat Reference.runtime].
  unfold Reference.fromisoformat, Reference.parse_date, Reference.obind,
    strftime_Y_m_d.
  rewrite (read_digits_format_0d 4) by (apply reads_back_4; lia).
  cbn [String.append Reference.expect]. rewrite Ascii.eqb_refl.
  rewrite (read_digits_format_0d 2) by (apply reads_back_2; lia).
  cbn [String.append Reference.expect]. rewrite Ascii.eqb_refl.
  rewrite <- (PyStrFacts.append_empty_r (format_0d 2 (day d))).
  rewrite (read_digits_format_0d 2) by (apply reads_back_2; lia).
  rewrite Hvalid. now destruct d.
Qed.

Lemma valid_next_day (d : date) :
  Spec.valid_today d ->
  Reference.valid_date (year (next_day d)) (month (next_day d)) (day (next_day d)) = true.
Proof.
  intros [Hvalid Hyear]. apply valid_date_bounds in Hvalid. apply valid_date_bounds.
  unfold next_day.
  destruct (day d <? days_in_month (year d) (month d))%Z eqn:Hday;
    [apply Z.ltb_lt in Hday; cbn [year month day]; lia |].
  destruct (month d <? 12)%Z eqn:Hmonth; cbn [year month day].
  - apply Z.ltb_lt in Hmonth.
    pose proof (days_in_month_bounds (year d) (month d + 1)). lia.
  - pose proof (days_in_month_bounds (year d + 1) 1). lia.
Qed.

Lemma valid_replace_day_1 (d : date) :
  Reference.valid_date (year d) (month d) (day d) = true ->
  Reference.valid_date (year (replace_day_1 d)) (month (replace_day_1 d))
    (day (replace_day_1 d)) = true.
Proof.
  intros Hvalid. apply valid_date_bounds in Hvalid. apply valid_date_bounds.
  cbn [replace_day_1 year month day].
  pose proof (days_in_month_bounds (year d) (month d)). lia.
Qed.

Lemma first_of_month_before_tomorrow (d : date) :
  Reference.valid_date (year d) (month d) (day d) = true ->
  date_lt (replace_day_1 d) (next_day d).
Proof.
  intros Hvalid. apply valid_date_bounds in Hvalid.
  unfold date_lt, date_ltb, next_day, replace_day_1.
  destruct (day d <? days_in_month (year d) (month d))%Z; cbn [year month day].
  - rewrite !Z.eqb_refl. replace (1 <? day d + 1)%Z with true by (symmetry; apply Z.ltb_lt; lia).
    now rewrite !orb_true_r.
  - destruct (month d <? 12)%Z; cbn [year month day].
    + rewrite Z.eqb_refl.
      replace (month d <? month d + 1)%Z with true by (symmetry; apply Z.ltb_lt; lia).
      now rewrite orb_true_r.
    + replace (year d <? year d + 1)%Z with true by (symmetry; apply Z.ltb_lt; lia).
      reflexivity.
Qed.

Lemma first_of_month_before_next (y m : Z) :
  date_lt (mkDate y m 1) (mkDate y (m + 1) 1)
  /\ date_lt (mkDate y m 1) (mkDate (y + 1) 1 1).
Proof.
  unfold date_lt, date_ltb. cbn [year month day]. split.
  - rewrite Z.eqb_refl.
    replace (m <? m + 1)%Z with true by (symmetry; apply Z.ltb_lt; lia).
    now rewrite orb_true_r.
  - replace (y <? y + 1)%Z with true by (symmetry; apply Z.ltb_lt; lia).
    reflexivity.
Qed.

End DateRangeFacts.

Section ResolvedWindow.
Import DateRangeFacts.

(** The key of the month after [m], for [1 <= m <= 12], is ["12"] only for
    December. *)
Lemma format_0d_december (m : Z) :
  (1 <= m <= 12)%Z -> String.eqb (format_0d 2 m) "12" = true -> m = 12%Z.
Proof.
  intros Hm Heq. apply String.eqb_eq in Heq.
  pose proof (py_int_format_0d 2 m (int_reads_back_2 m ltac:(lia))) as Hread.
  rewrite Heq in Hread. now injection Hread as <-.
Qed.

(** Under the reference runtime, every window that [get_date_range]
    returns parses, and its start is before its end. *)
Lemma resolved_window_parses env (year month : option string) use_current_month use_whole_year
    start_date end_date period_desc tr :
  Spec.valid_today (dt_date (now env)) ->
  @Contribution.get_date_range Reference.runtime env year month use_current_month
    use_whole_year = (Some (Ok (start_date, end_date, period_desc)), tr) ->
  exists start_dt end_dt,
    @Contribution.date_of_iso Reference.runtime start_date = Ok start_dt
    /\ @Contribution.date_of_iso Reference.runtime end_date = Ok end_dt
    /\ date_lt start_dt end_dt.
Proof.
  intros Htoday. unfold Contribution.get_date_range.
  destruct use_current_month; [| destruct use_whole_year].
  - (* current month *)
    intros [= <- <- _ _]. destruct Htoday as [Hvalid Hyear].
    exists (replace_day_1 (dt_date (now env))), (next_day (dt_date (now env))).
    split; [apply date_of_iso_strftime; now apply valid_replace_day_1 |].
    split; [apply date_of_iso_strftime; now apply valid_next_day |].
    now apply first_of_month_before_tomorrow.
  - (* whole year *)
    unfold Contribution.validate_year_input.
    destruct year as [year_str|]; [| discriminate].
    cbn [py_int Reference.runtime].
    destruct (Reference.py_int year_str) as [year_int|]; [| discriminate].
    destruct ((year_int <? 2000) || (year_int >? 2030))%Z eqn:Hrange; [discriminate |].
    apply orb_false_iff in Hrange as [Hlo Hhi].
    apply Z.ltb_ge in Hlo. rewrite Z.gtb_ltb in Hhi. apply Z.ltb_ge in Hhi.
    rewrite bind_ret. unfold Contribution.int_of. cbn [py_int Reference.runtime].
    rewrite (py_int_format_0d 4 year_int) by (apply int_reads_back_4; lia).
    rewrite bind_ret. intros [= <- <- _ _].
    exists (mkDate year_int 1 1), (mkDate (year_int + 1) 1 1).
    split; [apply (date_of_iso_strftime (mkDate year_int 1 1)), valid_date_bounds;
            cbn; lia |].
    split; [apply (date_of_iso_strftime (mkDate (year_int + 1) 1 1)), valid_date_bounds;
            cbn; lia |].
    apply first_of_month_before_next.
  - (* a month *)
    unfold Contribution.validate_date_inputs.
    destruct year as [year_str|]; [| discriminate].
    cbn [py_int Reference.runtime].
    destruct (Reference.py_int year_str) as [year_int|]; [| discriminate].
    destruct month as [month_str|]; [| discriminate].
    destruct (Reference.py_int month_str) as [month_int|]; [| discriminate].
    destruct ((year_int <? 2000) || (year_int >? 2030))%Z eqn:Hrange; [discriminate |].
    destruct ((month_int <? 1) || (month_int >? 12))%Z eqn:Hmonth; [discriminate |].
    apply orb_false_iff in Hrange as [Hlo Hhi], Hmonth as [Hmlo Hmhi].
    apply Z.ltb_ge in Hlo, Hmlo. rewrite Z.gtb_ltb in Hhi, Hmhi.
    apply Z.ltb_ge in Hhi, Hmhi.
    rewrite bind_ret. unfold Contribution.int_of. cbn [py_int Reference.runtime].
    pose proof (days_in_month_bounds year_int month_int) as Hdim.
    destruct (String.eqb (format_0d 2 month_int) "12") eqn:Hdecember.
    + rewrite (py_int_format_0d 4 year_int) by (apply int_reads_back_4; lia).
      rewrite !bind_ret. intros [= <- <- _ _].
      exists (mkDate year_int month_int 1), (mkDate (year_int + 1) 1 1).
      split; [apply (date_of_iso_strftime (mkDate year_int month_int 1)),
                valid_date_bounds; cbn [year month day]; lia |].
      split; [apply (date_of_iso_strftime (mkDate (year_int + 1) 1 1)),
                valid_date_bounds; cbn; lia |].
      apply first_of_month_before_next.
    + rewrite (py_int_format_0d 2 month_int) by (apply int_reads_back_2; lia).
      rewrite !bind_ret. intros [= <- <- _ _].
      assert (Hnot : month_int <> 12%Z) by (intros ->; discriminate Hdecember).
      pose proof (days_in_month_bounds year_int (month_int + 1)) as Hdim'.
      exists (mkDate year_int month_int 1), (mkDate year_int (month_int + 1) 1).
      split; [apply (date_of_iso_strftime (mkDate year_int month_int 1)),
                valid_date_bounds; cbn [year month day]; lia |].
      split; [apply (date_of_iso_strftime (mkDate year_int (month_int + 1) 1)),
                valid_date_bounds; cbn [year month day]; lia |].
      apply first_of_month_before_next.
Qed.

End ResolvedWindow.

(* ================================================================= *)
(** ** The order of dates *)

Lemma date_ltb_lt (a b : date) :
  date_ltb a b = true <->
  (year a < year b
   \/ (year a = year b
       /\ (month a < month b \/ (month a = month b /\ day a < day b))))%Z.
Proof.
  unfold date_ltb.
  rewrite !orb_true_iff, !andb_true_iff, !orb_true_iff, !andb_true_iff,
    !Z.ltb_lt, !Z.eqb_eq.
  reflexivity.
Qed.

Lemma date_leb_le (a b : date) : date_leb a b = true <-> date_ltb b a = false.
Proof. unfold date_leb. apply negb_true_iff. Qed.

Lemma date_ltb_ge (a b : date) :
  date_ltb a b = false <->
  ~ (year a < year b
     \/ (year a = year b
         /\ (month a < month b \/ (month a = month b /\ day a < day b))))%Z.
Proof. rewrite <- date_ltb_lt. now destruct (date_ltb a b). Qed.

Lemma date_le_lt_trans (a b c : date) : date_le a b -> date_lt b c -> date_lt a c.
Proof.
  unfold date_le, date_lt. rewrite date_leb_le, date_ltb_ge, !date_ltb_lt. lia.
Qed.

Lemma date_lt_le_trans (a b c : date) : date_lt a b -> date_le b c -> date_lt a c.
Proof.
  unfold date_le, date_lt. rewrite date_leb_le, date_ltb_ge, !date_ltb_lt. lia.
Qed.

Lemma date_lt_not_le (a b : date) : date_lt a b -> date_leb b a = false.
Proof. unfold date_lt, date_leb. now intros ->. Qed.

(* ================================================================= *)
(** ** What the page loop returns *)

Section Selection.
Context {rt : Runtime} (env : environment).
Import Contribution.

(** The body of the filter loop on a record whose configured field can be
    read. *)
Lemma filter_pr_takes self repo_name start_date end_date use_creation_date pr
    (start_dt end_dt : date) :
  date_of_iso start_date = Ok start_dt ->
  date_of_iso end_date = Ok end_dt ->
  (use_creation_date = true -> creationDate pr <> None) ->
  filter_pr self repo_name start_date end_date use_creation_date pr
  = Ok (if Spec.takes use_creation_date start_dt end_dt pr
        then Some (annotate repo_name (project_of self) pr) else None).
Proof.
  intros Hs He Hcreated. rewrite (filter_pr_by_date _ _ _ _ _ _ _ _ Hs He).
  unfold Spec.takes.
  assert (Hfield : exists f, date_field_of use_creation_date pr = Ok f).
  { unfold date_field_of. destruct use_creation_date; [| eauto].
    destruct (creationDate pr); [eauto | now elim (Hcreated eq_refl)]. }
  destruct Hfield as [f ->].
  destruct (Spec.record_date use_creation_date pr) as [d|]; [| reflexivity].
  now destruct (_ && _).
Qed.

(** The filter loop on a page: the records the test takes, annotated, in
    the order of the page. *)
Lemma filter_prs_selects self repo_name start_date end_date use_creation_date prs
    (start_dt end_dt : date) :
  date_of_iso start_date = Ok start_dt ->
  date_of_iso end_date = Ok end_dt ->
  (use_creation_date = true -> Forall (fun pr => creationDate pr <> None) prs) ->
  exists prs',
    filter_prs self repo_name start_date end_date use_creation_date prs
    = Ok (prs', Spec.selected repo_name (project_of self) use_creation_date
                  start_dt end_dt prs).
Proof.
  intros Hs He. unfold Spec.selected.
  induction prs as [|pr rest IH]; intros Hcreated; [now exists [] |].
  destruct IH as [rest' IH].
  { intros Hc. specialize (Hcreated Hc). now inversion Hcreated. }
  cbn [filter_prs filter].
  rewrite (filter_pr_takes _ _ _ _ _ _ _ _ Hs He), IH.
  - destruct (Spec.takes use_creation_date start_dt end_dt pr); cbn; eauto.
  - intros Hc. specialize (Hcreated Hc). now inversion Hcreated.
Qed.

Lemma selected_app repo_name project use_creation_date (start_dt end_dt : date)
    (l l' : list pull_request) :
  Spec.selected repo_name project use_creation_date start_dt end_dt (l ++ l')
  = Spec.selected repo_name project use_creation_date start_dt end_dt l
    ++ Spec.selected repo_name project use_creation_date start_dt end_dt l'.
Proof. unfold Spec.selected. now rewrite filter_app, map_app. Qed.

Lemma skipn_page items k :
  skipn (100 * k) items = Spec.page items k ++ skipn (100 * (k + 1)) items.
Proof.
  unfold Spec.page.
  replace (100 * (k + 1)) with (100 + 100 * k) by lia.
  rewrite <- skipn_skipn. symmetry. apply firstn_skipn.
Qed.

Lemma skipn_last_page (items : list pull_request) k :
  k = List.length items / 100 -> skipn (100 * (k + 1)) items = [].
Proof.
  intros ->. apply skipn_all2.
  pose proof (Nat.div_mod_eq (List.length items) 100).
  pose proof (Nat.mod_upper_bound (List.length items) 100 ltac:(lia)). lia.
Qed.

Lemma Forall_skipn_items (P : pull_request -> Prop) n items :
  Forall P items -> Forall P (skipn n items).
Proof.
  intros H. rewrite <- (firstn_skipn n items) in H. now apply Forall_app in H.
Qed.

Lemma Forall_page (P : pull_request -> Prop) items k :
  Forall P items -> Forall P (Spec.page items k).
Proof.
  intros H. apply (Forall_skipn_items P (100 * k)) in H.
  rewrite skipn_page in H. now apply Forall_app in H.
Qed.

(** From page [k] on, with [n] full pages left: the loop returns, having
    asked for pages [k .. k + m - 1] and added the records of the window
    from offset [100 * k] on, provided an early stop only happens where
    nothing of the window is left. *)
Lemma fetch_repository_selects self repo start_date end_date use_creation_date items
    (start_dt end_dt : date) :
  Spec.served_in_pages env (project_of self) (repo_id repo) items ->
  date_of_iso start_date = Ok start_dt ->
  date_of_iso end_date = Ok end_dt ->
  (use_creation_date = true -> Forall (fun pr => creationDate pr <> None) items) ->
  (forall k, k < List.length items / 100 ->
     newest_is_older start_date use_creation_date (Spec.page items k) = Ok true ->
     filter (Spec.takes use_creation_date start_dt end_dt)
       (skipn (100 * (k + 1)) items) = []) ->
  forall n k fuel st,
    skip st = 100 * k ->
    k + n = List.length items / 100 ->
    n < fuel ->
    exists st' m,
      fetch_repository env fuel self repo start_date end_date use_creation_date st
      = (Some (Ok st'),
         map (Spec.page_request (project_of self) (repo_id repo)) (seq k m))
      /\ 1 <= m <= n + 1
      /\ all_prs st'
         = all_prs st
           ++ Spec.selected (repo_name repo) (project_of self) use_creation_date
                start_dt end_dt (skipn (100 * k) items)
      /\ repo_pr_count st'
         = repo_pr_count st
           + List.length (filter (Spec.takes use_creation_date start_dt end_dt)
                            (skipn (100 * k) items)).
Proof.
  intros Hserved Hs He Hcreated Hsound.
  assert (Hfilter : forall k, exists prs',
            filter_prs self (repo_name repo) start_date end_date use_creation_date
              (Spec.page items k)
            = Ok (prs', Spec.selected (repo_name repo) (project_of self)
                          use_creation_date start_dt end_dt (Spec.page items k))).
  { intros k. apply filter_prs_selects; try assumption.
    intros Hc. apply Forall_page. now apply Hcreated. }
  induction n as [|n IH]; intros k [|fuel] st Hskip Hk Hfuel; try lia.
  - (* the last page: short or empty *)
    rewrite Nat.add_0_r in Hk.
    destruct (Hfilter k) as (prs' & Hf).
    pose proof (served_page env _ _ _ k Hserved) as Hget. rewrite <- Hskip in Hget.
    rewrite skipn_page, (skipn_last_page items k Hk), app_nil_r.
    pose proof (last_page items) as Hlen. rewrite <- Hk in Hlen.
    pose proof (Nat.mod_upper_bound (List.length items) 100 ltac:(lia)) as Hlt.
    destruct (Spec.page items k) as [|pr rest] eqn:Hpage.
    + eexists. exists 1. split; [| split; [lia | split]].
      * cbn [seq map]. unfold Spec.page_request. rewrite <- Hskip.
        apply fetch_repository_empty.
        apply (get_pull_requests_Success env _ _ _ _ _ Hget).
      * cbn [all_prs Spec.selected filter map]. now rewrite app_nil_r.
      * cbn [repo_pr_count filter List.length]. lia.
    + eexists. exists 1. split; [| split; [lia | split]].
      * cbn [seq map]. unfold Spec.page_request. rewrite <- Hskip.
        eapply fetch_repository_short; try eassumption.
        -- discriminate.
        -- unfold batch_size. lia.
      * reflexivity.
      * cbn [Spec.after_page repo_pr_count]. unfold Spec.selected.
        now rewrite length_map.
  - (* a full page, then the rest *)
    assert (Hlt : k < List.length items / 100) by lia.
    destruct (Hfilter k) as (prs' & Hf).
    pose proof (served_page env _ _ _ k Hserved) as Hget. rewrite <- Hskip in Hget.
    pose proof (full_page items k Hlt) as Hlen.
    destruct (newest_is_older_defined _ _ _ _ _ _ _ _ Hf) as [stop Hstop].
    rewrite (fetch_repository_full env fuel self repo start_date end_date
               use_creation_date st _ _ _ stop Hget Hf);
      [| unfold batch_size; lia | assumption].
    cbv zeta. destruct stop.
    + eexists. exists 1. split; [| split; [lia | split]].
      * cbn [seq map]. unfold Spec.page_request. now rewrite <- Hskip.
      * rewrite (skipn_page items k), selected_app.
        unfold Spec.selected at 3. rewrite (Hsound k Hlt Hstop).
        cbn [Spec.after_page all_prs map]. now rewrite app_nil_r.
      * rewrite (skipn_page items k), filter_app, length_app, (Hsound k Hlt Hstop).
        cbn [Spec.after_page repo_pr_count List.length]. unfold Spec.selected.
        rewrite length_map. lia.
    + destruct (IH (S k) fuel
                  (Spec.advance (Spec.after_page st (Spec.page items k)
                     (Spec.selected (repo_name repo) (project_of self)
                        use_creation_date start_dt end_dt (Spec.page items k)))))
        as (st' & m & Hrest & Hm & Hall & Hcount).
      * cbn [Spec.advance Spec.after_page skip]. unfold batch_size. lia.
      * lia.
      * lia.
      * exists st', (S m). rewrite Hrest. cbn [fst snd].
        split; [| split; [lia | split]].
        -- cbn [seq map]. unfold Spec.page_request at 2. now rewrite <- Hskip.
        -- rewrite Hall. cbn [Spec.advance Spec.after_page all_prs].
           rewrite (skipn_page items k), selected_app, <- app_assoc.
           replace (S k) with (k + 1) by lia. reflexivity.
        -- rewrite Hcount. cbn [Spec.advance Spec.after_page repo_pr_count].
           rewrite (skipn_page items k), filter_app, length_app.
           unfold Spec.selected. rewrite length_map.
           replace (S k) with (k + 1) by lia. lia.
Qed.

End Selection.

(* ================================================================= *)
(** ** The page loop over a whole repository *)

Section WholeRepository.
Context {rt : Runtime} (env : environment).
Import Contribution.

Lemma filter_none {A} (f : A -> bool) (l : list A) :
  (forall x, In x l -> f x = false) -> filter f l = [].
Proof.
  induction l as [|x l IH]; intros H; [reflexivity |].
  cbn [filter]. rewrite (H x (or_introl eq_refl)). apply IH.
  intros y Hy. apply H. now right.
Qed.

Lemma newest_first_split items before a after b da db :
  Spec.newest_first items = true ->
  items = before ++ a :: after ->
  In b after ->
  Spec.record_date true a = Some da ->
  Spec.record_date true b = Some db ->
  date_le db da.
Proof.
  unfold Spec.newest_first. intros Hsorted -> Hb Ha Hdb.
  induction before as [|x before IH]; cbn [app map Spec.non_increasing] in Hsorted;
    apply andb_true_iff in Hsorted as [Hall Hrest]; [| now apply IH].
  rewrite forallb_forall in Hall.
  specialize (Hall (Spec.record_date true b) (in_map _ _ _ Hb)).
  now rewrite Ha, Hdb in Hall.
Qed.

Lemma has_creation_date_field pr :
  Spec.has_creation_date pr = true ->
  exists timestamp, creationDate pr = Some timestamp /\ timestamp <> "".
Proof.
  unfold Spec.has_creation_date. destruct (creationDate pr) as [ts|]; [| discriminate].
  intros H. exists ts. split; [reflexivity |].
  apply String.eqb_neq. now apply negb_true_iff.
Qed.

(** When the early-stop test fires on a page of a listing sorted newest
    first, no later record is in the window. *)
Lemma newest_is_older_sound start_date (start_dt end_dt : date) items k :
  date_of_iso start_date = Ok start_dt ->
  forallb Spec.has_creation_date items = true ->
  Spec.newest_first items = true ->
  newest_is_older start_date true (Spec.page items k) = Ok true ->
  filter (Spec.takes true start_dt end_dt) (skipn (100 * (k + 1)) items) = [].
Proof.
  intros Hs Hcreated Hsorted Hstop. apply filter_none. intros b Hb.
  pose proof (firstn_skipn (100 * k) items) as Hsplit.
  rewrite skipn_page in Hsplit.
  destruct (Spec.page items k) as [|a rest] eqn:Hpage; [discriminate |].
  assert (Ha : Spec.has_creation_date a = true).
  { rewrite forallb_forall in Hcreated. apply Hcreated. rewrite <- Hsplit.
    apply in_or_app. right. now left. }
  apply has_creation_date_field in Ha as (ts & Hts & Hne).
  cbn [newest_is_older] in Hstop. rewrite Hts in Hstop.
  destruct (fromisoformat (clean_date ts)) as [newest_dt|] eqn:Hnewest;
    [| discriminate].
  unfold date_of_iso in Hs.
  destruct (fromisoformat start_date) as [dt|]; [| discriminate].
  injection Hs as <-. injection Hstop as Hlt.
  assert (Hda : Spec.record_date true a = Some (dt_date newest_dt)).
  { unfold Spec.record_date, Spec.configured_timestamp. rewrite Hts.
    apply String.eqb_neq in Hne. now rewrite Hne, Hnewest. }
  unfold Spec.takes.
  destruct (Spec.record_date true b) as [db|] eqn:Hdb; [| reflexivity].
  assert (Hle : date_le db (dt_date newest_dt)).
  { apply (newest_first_split items (firstn (100 * k) items) a
             (rest ++ skipn (100 * (k + 1)) items) b); try assumption.
    - exact (eq_sym Hsplit).
    - apply in_or_app. now right. }
  rewrite (date_lt_not_le db (dt_date dt)); [reflexivity |].
  now apply (date_le_lt_trans db (dt_date newest_dt)).
Qed.

Lemma has_creation_date_created (items : list pull_request) :
  forallb Spec.has_creation_date items = true ->
  Forall (fun pr => creationDate pr <> None) items.
Proof.
  intros H. apply Forall_forall. intros pr Hpr.
  rewrite forallb_forall in H.
  destruct (has_creation_date_field pr (H pr Hpr)) as (ts & Hts & _). congruence.
Qed.

(** What the organization-wide loop returns, from what the per-project loop
    returns. *)
Lemma count_repository_of_fetch fuel self (self' : OrgCount.AzureDevOpsOrgAPI) repo
    start_date end_date use_creation_date st (st_org : OrgCount.repo_state) st' :
  OrgCount.skip st_org = skip st ->
  OrgCount.repo_pr_count st_org = repo_pr_count st ->
  OrgCount.repo_has_data st_org = repo_has_data st ->
  fst (fetch_repository env fuel self repo start_date end_date use_creation_date st)
    = Some (Ok st') ->
  fst (OrgCount.count_repository env fuel self' (project_of self) repo start_date
         end_date use_creation_date st_org)
    = Some (Ok (Spec.counts_only st')).
Proof.
  intros Hskip Hcount Hdata Hrun.
  replace st_org with (Spec.counts_only st)
    by (destruct st_org; unfold Spec.counts_only; cbn in *; congruence).
  rewrite (count_repository_fetch_repository env fuel self self').
  destruct (fetch_repository env fuel self repo start_date end_date
              use_creation_date st) as [[[st0|e]|] tr]; cbn in *; congruence.
Qed.

End WholeRepository.

(* ================================================================= *)
(** ** The two scripts on one project *)

Lemma bind_fmap {A B C} (f : A -> B) (m : M A) (k : B -> M C) :
  bind (fmap f m) k = bind m (fun a => k (f a)).
Proof. now destruct m as [[[a|e]|] tr]. Qed.

Lemma fmap_bind {A B C} (f : B -> C) (m : M A) (k : A -> M B) :
  fmap f (bind m k) = bind m (fun a => fmap f (k a)).
Proof.
  destruct m as [[[a|e]|] tr]; cbn [bind]; try reflexivity.
  now destruct (k a) as [[[b|e]|] tr'].
Qed.

Lemma snd_bind {A B} (m : M A) (k : A -> M B) :
  snd (bind m k)
  = snd m ++ match fst m with
             | Some (Ok a) => snd (k a)
             | _ => []
             end.
Proof.
  destruct m as [[[a|e]|] tr]; cbn [bind fst snd]; try now rewrite app_nil_r.
  now destruct (k a).
Qed.

Lemma requests_app (tr tr' : list event) :
  Spec.requests (tr ++ tr') = Spec.requests tr ++ Spec.requests tr'.
Proof. apply flat_map_app. Qed.

Lemma requests_cons_Request (rq : request) (tr : list event) :
  Spec.requests (Request rq :: tr) = rq :: Spec.requests tr.
Proof. reflexivity. Qed.

Section OneProject.
Context {rt : Runtime} (env : environment).
Import Contribution.

(** [repo_pr_count] grows by the number of records the loop adds. *)
Lemma fetch_repository_counts_added fuel self repo start_date end_date
    use_creation_date : forall st st' tr,
  fetch_repository env fuel self repo start_date end_date use_creation_date st
    = (Some (Ok st'), tr) ->
  exists added,
    all_prs st' = all_prs st ++ added
    /\ repo_pr_count st' = repo_pr_count st + List.length added.
Proof.
  induction fuel as [|fuel IH]; intros st st' tr; [discriminate |].
  cbn [fetch_repository].
  destruct (get_pull_requests_total env self (repo_id repo) (skip st) batch_size)
    as (r & tr0 & -> & [-> | [prs ->]]); [discriminate |].
  rewrite bind_Ok. destruct prs as [|pr rest].
  - cbn [fst snd ret]. intros [= <- _]. exists [].
    cbn [all_prs repo_pr_count List.length]. now rewrite app_nil_r, Nat.add_0_r.
  - destruct (filter_prs self (repo_name repo) start_date end_date use_creation_date
                (pr :: rest)) as [[prs' filtered]|e] eqn:Hf; [| discriminate].
    rewrite bind_lift_Ok.
    destruct (List.length prs' <? batch_size)%nat.
    { cbn [fst snd ret]. intros [= <- _]. now exists filtered. }
    destruct (newest_is_older start_date use_creation_date prs') as [[|]|e];
      [| | discriminate].
    { rewrite bind_lift_Ok. cbn [fst snd ret]. intros [= <- _]. now exists filtered. }
    rewrite bind_lift_Ok. cbn [fst snd]. intros [= Hrest _].
    match type of Hrest with
    | fst ?m = _ => rewrite (M_eta m) in Hrest; cbn [fst] in Hrest;
                    destruct (IH _ _ (snd m) ltac:(rewrite <- Hrest; apply M_eta))
                      as (added & Heq & Hcount)
    end.
    cbn [all_prs repo_pr_count] in Heq, Hcount. exists (filtered ++ added).
    rewrite length_app. split; [now rewrite Heq, app_assoc | lia].
Qed.

(** One turn of the loop over the repositories: the organization-wide
    script does what the per-project script does, with the number of
    records in place of the records. *)
Lemma org_process_repository fuel self (self' : OrgCount.AzureDevOpsOrgAPI)
    start_date end_date use_creation_date ps repo :
  OrgCount.process_repository env fuel self' (project_of self) start_date end_date
    use_creation_date (Spec.project_counts_only ps) repo
  = fmap Spec.project_counts_only
      (process_repository env fuel self start_date end_date use_creation_date ps repo).
Proof.
  unfold OrgCount.process_repository, process_repository.
  change (OrgCount.mkRepoState 0 0 false)
    with (Spec.counts_only (mkRepoState (ps_all_prs ps) (ps_total_fetched ps) 0 0 false)).
  rewrite (count_repository_fetch_repository env fuel self self').
  destruct (fetch_repository env fuel self repo start_date end_date use_creation_date
              (mkRepoState (ps_all_prs ps) (ps_total_fetched ps) 0 0 false))
    as [[[st|e]|] tr] eqn:Hrun; try reflexivity.
  apply fetch_repository_counts_added in Hrun as (added & Hall & Hcount).
  cbn [all_prs repo_pr_count Nat.add] in Hall, Hcount.
  cbn [fmap bind]. unfold Spec.counts_only.
  cbn [OrgCount.repo_pr_count OrgCount.repo_has_data].
  assert (Hlen : List.length (all_prs st)
                 = List.length (ps_all_prs ps) + repo_pr_count st)
    by (rewrite Hall, length_app; lia).
  unfold Spec.project_counts_only.
  destruct (0 <? repo_pr_count st)%nat; [| destruct (negb (repo_has_data st))];
    cbn [ret fmap OrgCount.total_pr_count OrgCount.repos_with_prs
           OrgCount.repos_skipped ps_all_prs repos_with_prs repos_skipped];
    rewrite Hlen, app_nil_r; reflexivity.
Qed.

Lemma org_process_repositories fuel self (self' : OrgCount.AzureDevOpsOrgAPI)
    start_date end_date use_creation_date repositories : forall ps,
  OrgCount.process_repositories env fuel self' (project_of self) start_date end_date
    use_creation_date (Spec.project_counts_only ps) repositories
  = fmap Spec.project_counts_only
      (process_repositories env fuel self start_date end_date use_creation_date ps
         repositories).
Proof.
  induction repositories as [|repo rest IH]; intros ps; [reflexivity |].
  cbn [OrgCount.process_repositories process_repositories].
  rewrite (org_process_repository fuel self self'), bind_fmap, fmap_bind.
  destruct (process_repository env fuel self start_date end_date use_creation_date
              ps repo) as [[[ps'|e]|] tr]; cbn [bind]; try reflexivity.
  rewrite IH.
  now destruct (process_repositories env fuel self start_date end_date
                  use_creation_date ps' rest) as [[[ps''|e]|] tr'].
Qed.

End OneProject.

(* ================================================================= *)
(** ** The requests of a run *)

Lemma pages_from_S project repository_id skip m :
  Spec.pages_from project repository_id skip (S m)
  = ListPullRequests project repository_id skip 100
    :: Spec.pages_from project repository_id (skip + 100) m.
Proof.
  unfold Spec.pages_from. cbn [seq map]. f_equal.
  - f_equal. lia.
  - rewrite <- seq_shift, map_map. apply map_ext. intros i. f_equal. lia.
Qed.

Section Requests.
Context {rt : Runtime} (env : environment).
Import Contribution.

Lemma get_pull_requests_requests self repository_id skip top :
  Spec.requests (snd (get_pull_requests env self repository_id skip top))
  = [ListPullRequests (project_of self) repository_id skip top].
Proof.
  unfold get_pull_requests. rewrite bind_emit.
  destruct (pull_requests_of env (project_of self) repository_id skip top)
    as [prs| |code|]; try reflexivity.
  destruct (code =? 404)%Z; [reflexivity |].
  destruct (code =? 403)%Z; reflexivity.
Qed.

(** The page loop asks for consecutive pages of 100 from the offset it
    starts at, at most one per unit of fuel, and for nothing else. *)
Lemma fetch_repository_requests self repo start_date end_date use_creation_date :
  forall fuel st,
  exists m,
    m <= fuel
    /\ (0 < fuel -> 1 <= m)
    /\ Spec.requests
         (snd (fetch_repository env fuel self repo start_date end_date
                 use_creation_date st))
       = Spec.pages_from (project_of self) (repo_id repo) (skip st) m.
Proof.
  induction fuel as [|fuel IH]; intros st.
  { exists 0. split; [lia | split; [lia | reflexivity]]. }
  cbn [fetch_repository]. rewrite snd_bind, requests_app, get_pull_requests_requests.
  assert (Hone : exists m, m <= S fuel /\ (0 < S fuel -> 1 <= m)
                   /\ [ListPullRequests (project_of self) (repo_id repo) (skip st)
                         batch_size] ++ Spec.requests []
                      = Spec.pages_from (project_of self) (repo_id repo) (skip st) m).
  { exists 1. split; [lia | split; [lia | now rewrite pages_from_S]]. }
  destruct (fst (get_pull_requests env self (repo_id repo) (skip st) batch_size))
    as [[prs|e]|]; try exact Hone.
  destruct prs as [|pr rest]; [exact Hone |].
  destruct (filter_prs self (repo_name repo) start_date end_date use_creation_date
              (pr :: rest)) as [[prs' filtered]|e]; [| exact Hone].
  rewrite bind_lift_Ok.
  destruct (List.length prs' <? batch_size)%nat; [exact Hone |].
  destruct (newest_is_older start_date use_creation_date prs') as [[|]|e];
    [exact Hone | | exact Hone].
  rewrite bind_lift_Ok.
  match goal with
  | |- context [fetch_repository env fuel self repo start_date end_date
                  use_creation_date ?s] => destruct (IH s) as (m & Hm & _ & Hreq)
  end.
  exists (S m). split; [lia | split; [lia |]].
  rewrite Hreq, pages_from_S. reflexivity.
Qed.

Lemma process_repository_requests fuel self start_date end_date use_creation_date
    ps repo :
  exists m,
    m <= fuel
    /\ (0 < fuel -> 1 <= m)
    /\ Spec.requests
         (snd (process_repository env fuel self start_date end_date
                 use_creation_date ps repo))
       = Spec.pages_from (project_of self) (repo_id repo) 0 m.
Proof.
  unfold process_repository.
  destruct (fetch_repository_requests self repo start_date end_date
              use_creation_date fuel
              (mkRepoState (ps_all_prs ps) (ps_total_fetched ps) 0 0 false))
    as (m & Hm & Hone & Hreq).
  exists m. split; [exact Hm | split; [exact Hone |]].
  rewrite snd_bind, requests_app, Hreq.
  destruct (fst (fetch_repository env fuel self repo start_date end_date
                   use_creation_date _)) as [[st|e]|]; try apply app_nil_r.
  destruct (0 <? repo_pr_count st)%nat; [| destruct (negb (repo_has_data st))];
    apply app_nil_r.
Qed.

(** The loop over the repositories asks, repository after repository in
    the order of the list, for pages from offset 0. *)
Lemma process_repositories_requests fuel self start_date end_date use_creation_date
    repositories : forall ps,
  exists ms,
    List.length ms <= List.length repositories
    /\ Forall (fun m => m <= fuel /\ (0 < fuel -> 1 <= m)) ms
    /\ Spec.requests
         (snd (process_repositories env fuel self start_date end_date
                 use_creation_date ps repositories))
       = flat_map (fun rm => Spec.pages_from (project_of self) (repo_id (fst rm)) 0
                               (snd rm))
           (combine repositories ms)
    /\ ((exists ps', fst (process_repositories env fuel self start_date end_date
                            use_creation_date ps repositories) = Some (Ok ps')) ->
        List.length ms = List.length repositories).
Proof.
  induction repositories as [|repo rest IH]; intros ps.
  { exists []. split; [cbn; lia | split; [constructor | split; [reflexivity | reflexivity]]]. }
  cbn [process_repositories].
  destruct (process_repository_requests fuel self start_date end_date
              use_creation_date ps repo) as (m & Hm & Hone & Hreq).
  rewrite snd_bind, requests_app, Hreq.
  destruct (process_repository env fuel self start_date end_date use_creation_date
              ps repo) as [[[ps'|e]|] tr] eqn:Hrepo; cbn [fst snd bind].
  - destruct (IH ps') as (ms & Hlen & Hall & Hrest & Hdone).
    exists (m :: ms). cbn [List.length combine flat_map fst snd].
    split; [lia | split; [now constructor | split]].
    + now rewrite Hrest.
    + intros [ps'' Hok]. f_equal. apply Hdone. exists ps''.
      destruct (process_repositories env fuel self start_date end_date
                  use_creation_date ps' rest) as [r tr']. exact Hok.
  - exists [m]. cbn [List.length combine flat_map fst snd].
    split; [lia | split; [now repeat constructor | split]].
    + destruct rest; reflexivity.
    + intros [ps'' Hok]. discriminate.
  - exists [m]. cbn [List.length combine flat_map fst snd].
    split; [lia | split; [now repeat constructor | split]].
    + destruct rest; reflexivity.
    + intros [ps'' Hok]. discriminate.
Qed.

(** By completion date, over repositories each served in pages and with
    fuel for the largest of them, the loop over the repositories returns
    the window of each, in the order of the list. *)
Lemma process_repositories_selects fuel self start_date end_date
    (start_dt end_dt : date) (items_of : repository -> list pull_request)
    repositories : forall ps,
  date_of_iso start_date = Ok start_dt ->
  date_of_iso end_date = Ok end_dt ->
  (forall repo, In repo repositories ->
     Spec.served_in_pages env (project_of self) (repo_id repo) (items_of repo)
     /\ List.length (items_of repo) / 100 < fuel) ->
  exists ps',
    fst (process_repositories env fuel self start_date end_date false ps repositories)
      = Some (Ok ps')
    /\ ps_all_prs ps'
       = ps_all_prs ps
         ++ flat_map (fun repo => Spec.selected (repo_name repo) (project_of self)
                                    false start_dt end_dt (items_of repo))
              repositories.
Proof.
  intros ps Hs He. revert ps.
  induction repositories as [|repo rest IH]; intros ps Hrepos.
  { exists ps. cbn. now rewrite app_nil_r. }
  destruct (Hrepos repo (or_introl eq_refl)) as [Hserved Hfuel].
  destruct (fetch_repository_selects env self repo start_date end_date false
              (items_of repo) start_dt end_dt Hserved Hs He ltac:(discriminate))
    with (n := List.length (items_of repo) / 100) (k := 0) (fuel := fuel)
         (st := mkRepoState (ps_all_prs ps) (ps_total_fetched ps) 0 0 false)
    as (st' & m & Hrun & _ & Hall & _); try assumption; try reflexivity.
  { intros k _ Hstop. unfold newest_is_older in Hstop.
    now destruct (Spec.page (items_of repo) k). }
  cbn [all_prs skipn Nat.mul] in Hall.
  cbn [process_repositories]. unfold process_repository. rewrite Hrun, bind_Ok.
  assert (Hnext : exists ps1,
            (if (0 <? repo_pr_count st')%nat
             then ret (mkProjectState (all_prs st') (total_fetched st')
                         (repos_with_prs ps + 1) (repos_skipped ps))
             else if negb (repo_has_data st')
             then ret (mkProjectState (all_prs st') (total_fetched st')
                         (repos_with_prs ps) (repos_skipped ps + 1))
             else ret (mkProjectState (all_prs st') (total_fetched st')
                         (repos_with_prs ps) (repos_skipped ps)))
            = ret ps1 /\ ps_all_prs ps1 = all_prs st').
  { destruct (0 <? repo_pr_count st')%nat; [| destruct (negb (repo_has_data st'))];
      eexists; split; reflexivity. }
  destruct Hnext as (ps1 & -> & Hps1).
  cbn [ret fst snd]. rewrite bind_Ok. cbn [fst].
  destruct (IH ps1) as (ps' & Hrest & Hall').
  { intros r Hr. apply Hrepos. now right. }
  exists ps'. split; [exact Hrest |].
  rewrite Hall', Hps1, Hall. cbn [flat_map]. now rewrite app_assoc.
Qed.

End Requests.

(* ================================================================= *)
(** ** The records a walk over a repository returns *)

Section WindowOfARepository.
Context {rt : Runtime} (env : environment).
Import Contribution.

(** X1. By completion date, for a window whose two ends parse and a
    repository served 100 records at a time, the page loop given
    [N / 100 + 1] units of fuel returns, and what it added to [all_prs] is
    exactly the records of the repository whose completion date is in the
    window, in the order of the listing, each annotated with the repository
    and the project; [repo_pr_count] grew by their number, and the
    organization-wide loop counted the same number. *)
Theorem page_loop_returns_the_window self (self' : OrgCount.AzureDevOpsOrgAPI) repo
    start_date end_date items fuel st (st_org : OrgCount.repo_state)
    (start_dt end_dt : date) :
  Spec.served_in_pages env (project_of self) (repo_id repo) items ->
  date_of_iso start_date = Ok start_dt ->
  date_of_iso end_date = Ok end_dt ->
  skip st = 0 ->
  OrgCount.skip st_org = 0 ->
  List.length items / 100 < fuel ->
  (exists st',
     fst (fetch_repository env fuel self repo start_date end_date false st)
       = Some (Ok st')
     /\ all_prs st'
        = all_prs st
          ++ Spec.selected (repo_name repo) (project_of self) false start_dt end_dt
               items
     /\ repo_pr_count st'
        = repo_pr_count st
          + List.length (filter (Spec.takes false start_dt end_dt) items))
  /\ (exists st',
        fst (OrgCount.count_repository env fuel self' (project_of self) repo
               start_date end_date false st_org) = Some (Ok st')
        /\ OrgCount.repo_pr_count st'
           = OrgCount.repo_pr_count st_org
             + List.length (filter (Spec.takes false start_dt end_dt) items)).
Proof.
  intros Hserved Hs He Hskip Hskip' Hfuel.
  assert (Hloop : forall st0, skip st0 = 0 ->
            exists st',
              fst (fetch_repository env fuel self repo start_date end_date false st0)
                = Some (Ok st')
              /\ all_prs st'
                 = all_prs st0
                   ++ Spec.selected (repo_name repo) (project_of self) false
                        start_dt end_dt items
              /\ repo_pr_count st'
                 = repo_pr_count st0
                   + List.length (filter (Spec.takes false start_dt end_dt) items)).
  { intros st0 Hskip0.
    destruct (fetch_repository_selects env self repo start_date end_date false items
                start_dt end_dt Hserved Hs He ltac:(discriminate))
      with (n := List.length items / 100) (k := 0) (fuel := fuel) (st := st0)
      as (st' & m & Hrun & _ & Hall & Hcount); try assumption; try reflexivity.
    - intros k _ Hstop. unfold newest_is_older in Hstop.
      now destruct (Spec.page items k).
    - exists st'. rewrite Hrun. now repeat split. }
  split; [now apply Hloop |].
  destruct (Hloop (mkRepoState [] 0 (OrgCount.skip st_org)
                     (OrgCount.repo_pr_count st_org) (OrgCount.repo_has_data st_org))
              Hskip') as (st' & Hrun & _ & Hcount).
  exists (Spec.counts_only st'). split; [| exact Hcount].
  eapply count_repository_of_fetch; [| | | exact Hrun]; reflexivity.
Qed.

(** X2. By creation date, when every record of the repository carries a
    creation date and the listing is sorted newest first, the early stop
    loses nothing: the page loop returns exactly the records created in the
    window, annotated and in the order of the listing, although it may end
    before the listing is exhausted; the organization-wide loop counts
    them. *)
Theorem early_stop_keeps_the_window self (self' : OrgCount.AzureDevOpsOrgAPI) repo
    start_date end_date items fuel st (st_org : OrgCount.repo_state)
    (start_dt end_dt : date) :
  Spec.served_in_pages env (project_of self) (repo_id repo) items ->
  date_of_iso start_date = Ok start_dt ->
  date_of_iso end_date = Ok end_dt ->
  forallb Spec.has_creation_date items = true ->
  Spec.newest_first items = true ->
  skip st = 0 ->
  OrgCount.skip st_org = 0 ->
  List.length items / 100 < fuel ->
  (exists st' m,
     fetch_repository env fuel self repo start_date end_date true st
       = (Some (Ok st'),
          map (Spec.page_request (project_of self) (repo_id repo)) (seq 0 m))
     /\ 1 <= m <= List.length items / 100 + 1
     /\ all_prs st'
        = all_prs st
          ++ Spec.selected (repo_name repo) (project_of self) true start_dt end_dt
               items
     /\ repo_pr_count st'
        = repo_pr_count st
          + List.length (filter (Spec.takes true start_dt end_dt) items))
  /\ (exists st',
        fst (OrgCount.count_repository env fuel self' (project_of self) repo
               start_date end_date true st_org) = Some (Ok st')
        /\ OrgCount.repo_pr_count st'
           = OrgCount.repo_pr_count st_org
             + List.length (filter (Spec.takes true start_dt end_dt) items)).
Proof.
  intros Hserved Hs He Hcreated Hsorted Hskip Hskip' Hfuel.
  assert (Hloop : forall st0, skip st0 = 0 ->
            exists st' m,
              fetch_repository env fuel self repo start_date end_date true st0
                = (Some (Ok st'),
                   map (Spec.page_request (project_of self) (repo_id repo)) (seq 0 m))
              /\ 1 <= m <= List.length items / 100 + 1
              /\ all_prs st'
                 = all_prs st0
                   ++ Spec.selected (repo_name repo) (project_of self) true
                        start_dt end_dt items
              /\ repo_pr_count st'
                 = repo_pr_count st0
                   + List.length (filter (Spec.takes true start_dt end_dt) items)).
  { intros st0 Hskip0.
    apply (fetch_repository_selects env self repo start_date end_date true items
             start_dt end_dt Hserved Hs He
             (fun _ => has_creation_date_created items Hcreated)
             (fun k _ => newest_is_older_sound start_date start_dt end_dt items k
                           Hs Hcreated Hsorted)
             (List.length items / 100) 0 fuel st0 Hskip0 eq_refl Hfuel). }
  split; [now apply Hloop |].
  destruct (Hloop (mkRepoState [] 0 (OrgCount.skip st_org)
                     (OrgCount.repo_pr_count st_org) (OrgCount.repo_has_data st_org))
              Hskip') as (st' & m & Hrun & _ & _ & Hcount).
  exists (Spec.counts_only st'). split; [| exact Hcount].
  eapply count_repository_of_fetch; [| | | now rewrite Hrun]; reflexivity.
Qed.

End WindowOfARepository.

Lemma page_loop_returns_the_window_witness :
  exists st',
    fst (@Contribution.fetch_repository Reference.runtime
           (Scenario.env_of Scenario.mixed_items) 3 Scenario.api Scenario.billing
           "2025-03-10" "2025-03-20" false Scenario.fresh) = Some (Ok st')
    /\ Contribution.all_prs st'
       = map (Contribution.annotate "billing" "Payments") (Scenario.march_items 100).
Proof.
  destruct (@page_loop_returns_the_window Reference.runtime
              (Scenario.env_of Scenario.mixed_items) Scenario.api Scenario.org_api
              Scenario.billing "2025-03-10" "2025-03-20" Scenario.mixed_items 3
              Scenario.fresh Scenario.org_fresh (mkDate 2025 3 10) (mkDate 2025 3 20))
    as [(st' & Hrun & Hall & _) _].
  - intros skip top. reflexivity.
  - reflexivity.
  - reflexivity.
  - reflexivity.
  - reflexivity.
  - vm_compute. lia.
  - exists st'. split; [exact Hrun |].
    etransitivity; [exact Hall |]. vm_compute. reflexivity.
Defined.

Lemma early_stop_keeps_the_window_witness :
  exists st',
    @Contribution.fetch_repository Reference.runtime
      (Scenario.env_of Scenario.mixed_items) 3 Scenario.api Scenario.billing
      "2025-03-01" "2025-04-01" true Scenario.fresh
    = (Some (Ok st'),
       [Spec.page_request "Payments" "r-1" 0; Spec.page_request "Payments" "r-1" 1])
    /\ Contribution.all_prs st'
       = map (Contribution.annotate "billing" "Payments") (Scenario.march_items 100).
Proof.
  destruct (@early_stop_keeps_the_window Reference.runtime
              (Scenario.env_of Scenario.mixed_items) Scenario.api Scenario.org_api
              Scenario.billing "2025-03-01" "2025-04-01" Scenario.mixed_items 3
              Scenario.fresh Scenario.org_fresh (mkDate 2025 3 1) (mkDate 2025 4 1))
    as [(st' & m & Hrun & Hm & Hall & _) _].
  - intros skip top. reflexivity.
  - reflexivity.
  - reflexivity.
  - vm_compute. reflexivity.
  - vm_compute. reflexivity.
  - reflexivity.
  - reflexivity.
  - vm_compute. lia.
  - exists st'. split.
    + etransitivity; [exact Hrun |]. f_equal.
      assert (Htrace : snd (@Contribution.fetch_repository Reference.runtime
                (Scenario.env_of Scenario.mixed_items) 3 Scenario.api Scenario.billing
                "2025-03-01" "2025-04-01" true Scenario.fresh)
              = [Spec.page_request "Payments" "r-1" 0;
                 Spec.page_request "Payments" "r-1" 1])
        by (vm_compute; reflexivity).
      rewrite Hrun in Htrace. exact Htrace.
    + etransitivity; [exact Hall |]. vm_compute. reflexivity.
Defined.

(* ================================================================= *)
(** ** One project through either script *)

Section ProjectRun.
Context {rt : Runtime} (env : environment).
Import Contribution.

(** X3. Whatever the service answers, whatever the fuel and the date mode:
    on one project, [count_project_prs] of the organization-wide script
    returns the number of records that [get_all_pull_requests] of the
    per-project script returns, raises the exception it raises, runs out of
    fuel when it does, and sends the same requests in the same order. *)
Theorem count_is_the_number_of_records fuel self (self' : OrgCount.AzureDevOpsOrgAPI)
    start_date end_date use_creation_date :
  let ado := get_all_pull_requests env fuel self start_date end_date
               use_creation_date in
  let org := OrgCount.count_project_prs env fuel self' (project_of self) start_date
               end_date use_creation_date in
  fst org = fst (fmap (@List.length pull_request) ado)
  /\ Spec.requests (snd org) = Spec.requests (snd ado).
Proof.
  cbv zeta. unfold OrgCount.count_project_prs, get_all_pull_requests,
    OrgCount.get_repositories, get_repositories.
  rewrite !bind_emit.
  change (OrgCount.mkProjectState 0 0 0)
    with (Spec.project_counts_only (mkProjectState [] 0 0 0)).
  destruct (repositories_of env (project_of self)) as [repos| |code|];
    cbn [ret raise emit bind fst snd app]; try (now split).
  rewrite (org_process_repositories env fuel self self').
  destruct (process_repositories env fuel self start_date end_date
              use_creation_date (mkProjectState [] 0 0 0) repos)
    as [[[ps|e]|] tr]; cbn; now split.
Qed.

(** X4. Whatever the service answers, a run of [get_all_pull_requests]
    sends one request for the repositories of its project and then, for the
    repositories that request listed, one after the other in the order of
    the list, requests for consecutive pages of 100 of the repository from
    offset 0: at most one page per unit of fuel, at least the first page,
    and nothing for any other project or repository. When the run returns,
    every listed repository was asked. *)
Theorem requests_follow_the_listing fuel self start_date end_date use_creation_date :
  let run := get_all_pull_requests env fuel self start_date end_date
               use_creation_date in
  let listed := Spec.listed_repositories env (project_of self) in
  exists ms,
    List.length ms <= List.length listed
    /\ Forall (fun m => m <= fuel /\ (0 < fuel -> 1 <= m)) ms
    /\ Spec.requests (snd run)
       = ListRepositories (project_of self)
         :: flat_map (fun rm => Spec.pages_from (project_of self) (repo_id (fst rm)) 0
                                  (snd rm))
              (combine listed ms)
    /\ ((exists prs, fst run = Some (Ok prs)) -> List.length ms = List.length listed).
Proof.
  cbv zeta. unfold get_all_pull_requests, get_repositories, Spec.listed_repositories.
  rewrite bind_emit.
  destruct (repositories_of env (project_of self)) as [repos| |code|];
    cbn [ret raise emit bind fst snd app].
  - destruct (process_repositories_requests env fuel self start_date end_date
                use_creation_date repos (mkProjectState [] 0 0 0))
      as (ms & Hlen & Hall & Hreq & Hdone).
    exists ms. split; [exact Hlen | split; [exact Hall |]].
    destruct (process_repositories env fuel self start_date end_date
                use_creation_date (mkProjectState [] 0 0 0) repos)
      as [[[ps|e]|] tr]; cbn [fst snd bind ret app] in *.
    + rewrite app_nil_r, requests_cons_Request, Hreq. split; [reflexivity |].
      intros _. apply Hdone. now exists ps.
    + rewrite requests_cons_Request, Hreq. split; [reflexivity |]. intros [prs [=]].
    + rewrite requests_cons_Request, Hreq. split; [reflexivity |]. intros [prs [=]].
  - exists []. split; [cbn; lia | split; [constructor | split; [reflexivity |]]].
    intros [prs [=]].
  - exists []. split; [cbn; lia | split; [constructor | split; [reflexivity |]]].
    reflexivity.
  - exists []. split; [cbn; lia | split; [constructor | split; [reflexivity |]]].
    reflexivity.
Qed.

(** X5. By completion date, for a window whose two ends parse: when the
    service lists the repositories of the project and serves each of them
    100 records at a time, and the fuel covers the largest of them,
    [get_all_pull_requests] returns the records completed in the window,
    repository after repository in the order of the listing and in the
    order of each listing, each annotated with its repository and the
    project; [count_project_prs] returns their number. *)
Theorem project_fetch_returns_the_window fuel self (self' : OrgCount.AzureDevOpsOrgAPI)
    start_date end_date (start_dt end_dt : date) repos
    (items_of : repository -> list pull_request) :
  repositories_of env (project_of self) = Success repos ->
  (forall repo, In repo repos ->
     Spec.served_in_pages env (project_of self) (repo_id repo) (items_of repo)
     /\ List.length (items_of repo) / 100 < fuel) ->
  date_of_iso start_date = Ok start_dt ->
  date_of_iso end_date = Ok end_dt ->
  let window :=
    flat_map (fun repo => Spec.selected (repo_name repo) (project_of self) false
                            start_dt end_dt (items_of repo)) repos in
  fst (get_all_pull_requests env fuel self start_date end_date false)
    = Some (Ok window)
  /\ fst (OrgCount.count_project_prs env fuel self' (project_of self) start_date
            end_date false)
     = Some (Ok (List.length window)).
Proof.
  intros Hrepos Hserved Hs He window.
  assert (Hado : fst (get_all_pull_requests env fuel self start_date end_date false)
                 = Some (Ok window)).
  { unfold get_all_pull_requests, get_repositories.
    rewrite bind_emit, Hrepos. cbn [ret fst snd].
    destruct (process_repositories_selects env fuel self start_date end_date
                start_dt end_dt items_of repos (mkProjectState [] 0 0 0) Hs He Hserved)
      as (ps' & Hrun & Hall).
    cbn [ps_all_prs app] in Hall. rewrite bind_Ok.
    destruct (process_repositories env fuel self start_date end_date false
                (mkProjectState [] 0 0 0) repos) as [r tr].
    cbn [fst snd] in Hrun |- *. subst r. rewrite bind_Ok. cbn [fst ret].
    now rewrite Hall. }
  split; [exact Hado |].
  unfold OrgCount.count_project_prs, OrgCount.get_repositories.
  rewrite bind_emit, Hrepos. cbn [ret fst snd]. rewrite bind_Ok.
  change (OrgCount.mkProjectState 0 0 0)
    with (Spec.project_counts_only (mkProjectState [] 0 0 0)).
  rewrite (org_process_repositories env fuel self self').
  destruct (process_repositories_selects env fuel self start_date end_date
              start_dt end_dt items_of repos (mkProjectState [] 0 0 0) Hs He Hserved)
    as (ps' & Hrun & Hall).
  cbn [ps_all_prs app] in Hall.
  destruct (process_repositories env fuel self start_date end_date false
              (mkProjectState [] 0 0 0) repos) as [r tr].
  cbn [fst snd] in Hrun. subst r. cbn [fmap fst snd]. rewrite bind_Ok.
  cbn [fst ret Spec.project_counts_only OrgCount.total_pr_count].
  now rewrite Hall.
Qed.

End ProjectRun.

Lemma project_fetch_returns_the_window_witness :
  fst (@Contribution.get_all_pull_requests Reference.runtime
         (Scenario.env_of [Scenario.pr_0301; Scenario.pr_0331; Scenario.pr_0401])
         1 Scenario.api "2025-03-01" "2025-04-01" false)
  = Some (Ok [Contribution.annotate "billing" "Payments" Scenario.pr_0301;
              Contribution.annotate "billing" "Payments" Scenario.pr_0331])
  /\ fst (@OrgCount.count_project_prs Reference.runtime
            (Scenario.env_of [Scenario.pr_0301; Scenario.pr_0331; Scenario.pr_0401])
            1 Scenario.org_api "Payments" "2025-03-01" "2025-04-01" false)
     = Some (Ok 2).
Proof.
  apply (@project_fetch_returns_the_window Reference.runtime
           (Scenario.env_of [Scenario.pr_0301; Scenario.pr_0331; Scenario.pr_0401])
           1 Scenario.api Scenario.org_api "2025-03-01" "2025-04-01"
           (mkDate 2025 3 1) (mkDate 2025 4 1) [Scenario.billing]
           (fun _ => [Scenario.pr_0301; Scenario.pr_0331; Scenario.pr_0401])).
  - reflexivity.
  - intros repo [<- | []]. split; [intros skip top; reflexivity | vm_compute; lia].
  - reflexivity.
  - reflexivity.
Defined.

(* ================================================================= *)
(** ** Rankings *)

Module RankingFacts.
Import Collections.

Lemma insert_desc_Permutation (x : string * nat) (l : list (string * nat)) :
  Permutation (insert_desc x l) (x :: l).
Proof.
  induction l as [|y l IH]; cbn [insert_desc]; [reflexivity |].
  destruct (snd x <? snd y)%nat; [| reflexivity].
  rewrite IH. apply perm_swap.
Qed.

Lemma sorted_desc_Permutation (l : list (string * nat)) :
  Permutation (sorted_desc l) l.
Proof.
  induction l as [|x l IH]; [reflexivity |].
  cbn [sorted_desc fold_right]. rewrite insert_desc_Permutation.
  now apply perm_skip.
Qed.

Lemma insert_desc_sorted (x : string * nat) (l : list (string * nat)) :
  StronglySorted Spec.outranks l -> StronglySorted Spec.outranks (insert_desc x l).
Proof.
  induction l as [|y l IH]; cbn [insert_desc]; intros Hl.
  - repeat constructor.
  - inversion Hl as [|? ? Hrest Hy]; subst.
    destruct (snd x <? snd y)%nat eqn:Hlt.
    + apply Nat.ltb_lt in Hlt. constructor; [now apply IH |].
      rewrite (insert_desc_Permutation x l). constructor; [| exact Hy].
      unfold Spec.outranks. lia.
    + apply Nat.ltb_ge in Hlt. constructor; [exact Hl |].
      constructor; [exact Hlt |].
      eapply Forall_impl; [| exact Hy]. unfold Spec.outranks. intros z Hz. lia.
Qed.

Lemma sorted_desc_sorted (l : list (string * nat)) :
  StronglySorted Spec.outranks (sorted_desc l).
Proof.
  induction l as [|x l IH]; [constructor |].
  cbn [sorted_desc fold_right]. now apply insert_desc_sorted.
Qed.

Lemma insert_desc_with_count (n : nat) (x : string * nat) (l : list (string * nat)) :
  Spec.with_count n (insert_desc x l) = Spec.with_count n (x :: l).
Proof.
  unfold Spec.with_count.
  induction l as [|y l IH]; cbn [insert_desc]; [reflexivity |].
  destruct (snd x <? snd y)%nat eqn:Hlt; [| reflexivity].
  apply Nat.ltb_lt in Hlt. cbn [filter] in *. rewrite IH.
  destruct (snd x =? n)%nat eqn:Hx, (snd y =? n)%nat eqn:Hy; try reflexivity.
  apply Nat.eqb_eq in Hx, Hy. lia.
Qed.

Lemma sorted_desc_with_count (n : nat) (l : list (string * nat)) :
  Spec.with_count n (sorted_desc l) = Spec.with_count n l.
Proof.
  induction l as [|x l IH]; [reflexivity |].
  cbn [sorted_desc fold_right]. rewrite insert_desc_with_count.
  unfold Spec.with_count in *. cbn [filter]. fold (sorted_desc l). now rewrite IH.
Qed.

Lemma StronglySorted_app_outranks (l1 l2 : list (string * nat)) :
  StronglySorted Spec.outranks (l1 ++ l2) ->
  forall x y, In x l1 -> In y l2 -> Spec.outranks x y.
Proof.
  induction l1 as [|z l1 IH]; intros Hs x y Hx Hy; [destruct Hx |].
  inversion Hs as [|? ? Hrest Hz]; subst. destruct Hx as [-> | Hx].
  - rewrite Forall_forall in Hz. apply Hz, in_or_app. now right.
  - now apply IH.
Qed.

Lemma StronglySorted_firstn (n : nat) (l : list (string * nat)) :
  StronglySorted Spec.outranks l -> StronglySorted Spec.outranks (firstn n l).
Proof.
  intros Hs. revert n. induction Hs as [|x l Hs IH Hx]; intros [|n]; cbn [firstn];
    try constructor.
  - apply IH.
  - rewrite Forall_forall in *. intros y Hy. apply Hx.
    rewrite <- (firstn_skipn n l). apply in_or_app. now left.
Qed.

End RankingFacts.

(* ================================================================= *)
(** ** Counting *)

Module CountingFacts.
Import Collections.

Lemma incr_keys_eq (key : string) (c : Counter) :
  map fst (incr key c)
  = if in_dec string_dec key (map fst c) then map fst c else map fst c ++ [key].
Proof.
  induction c as [|[k n] c IH]; cbn [incr map fst app]; [reflexivity |].
  destruct (String.eqb k key) eqn:Hk.
  - apply String.eqb_eq in Hk as ->. cbn [map fst].
    destruct (in_dec string_dec key (key :: map fst c)) as [_ | Hn]; [reflexivity |].
    elim Hn. now left.
  - apply String.eqb_neq in Hk. cbn [map fst]. rewrite IH.
    destruct (in_dec string_dec key (map fst c)) as [Hin | Hnot],
             (in_dec string_dec key (k :: map fst c)) as [Hin' | Hnot'];
      try reflexivity.
    + elim Hnot'. now right.
    + destruct Hin' as [-> | Hin']; [now elim Hk | now elim Hnot].
Qed.

Lemma incr_NoDup (key : string) (c : Counter) :
  NoDup (map fst c) -> NoDup (map fst (incr key c)).
Proof.
  intros Hc. rewrite incr_keys_eq.
  destruct (in_dec string_dec key (map fst c)) as [Hin | Hnot]; [exact Hc |].
  apply NoDup_app; [exact Hc | repeat constructor; intros [] |].
  intros k Hk [<- | []]. contradiction.
Qed.

Lemma incr_positive (key : string) (c : Counter) :
  Forall (fun item => 0 < snd item) c -> Forall (fun item => 0 < snd item) (incr key c).
Proof.
  induction c as [|[k n] c IH]; cbn [incr]; intros Hc.
  - repeat constructor.
  - inversion Hc as [|? ? Hn Hrest]; subst. cbn [snd] in Hn.
    destruct (String.eqb k key); constructor; cbn [snd];
      [lia | exact Hrest | exact Hn | now apply IH].
Qed.

Lemma incr_sum (key : string) (c : Counter) :
  list_sum (map snd (incr key c)) = list_sum (map snd c) + 1.
Proof.
  induction c as [|[k n] c IH]; cbn [incr map snd]; [reflexivity |].
  destruct (String.eqb k key); cbn [map snd];
    repeat change (list_sum (?x :: ?l)) with (x + list_sum l); lia.
Qed.

Lemma count_of_In (c : Counter) (key : string) (n : nat) :
  NoDup (map fst c) -> In (key, n) c -> count_of c key = n.
Proof.
  induction c as [|[k v] c IH]; cbn [map fst count_of]; intros Hc Hin; [destruct Hin |].
  apply NoDup_cons_iff in Hc as [Hk Hc].
  destruct Hin as [[= -> ->] | Hin]; [now rewrite String.eqb_refl |].
  destruct (String.eqb k key) eqn:Heq; [| now apply IH].
  apply String.eqb_eq in Heq as ->. elim Hk.
  apply in_map_iff. now exists (key, n).
Qed.

Lemma count_of_positive_In (c : Counter) (key : string) :
  0 < count_of c key -> In (key, count_of c key) c.
Proof.
  induction c as [|[k v] c IH]; cbn [count_of]; intros Hpos; [lia |].
  destruct (String.eqb k key) eqn:Heq.
  - apply String.eqb_eq in Heq as ->. now left.
  - right. now apply IH.
Qed.

(** The counter after counting [keys] into [c]. *)
Lemma count_of_fold (keys : list string) : forall (c : Counter) (key : string),
  count_of (fold_left (fun c key => incr key c) keys c) key
  = count_of c key + count_occ string_dec keys key.
Proof.
  induction keys as [|k keys IH]; intros c key; cbn [fold_left count_occ]; [lia |].
  rewrite IH, CollectionsFacts.count_of_incr. unfold Spec.one_if.
  destruct (string_dec k key) as [-> | Hne].
  - rewrite String.eqb_refl. lia.
  - apply String.eqb_neq in Hne. rewrite Hne. lia.
Qed.

Lemma fold_incr_invariants (keys : list string) : forall c : Counter,
  NoDup (map fst c) ->
  Forall (fun item => 0 < snd item) c ->
  let c' := fold_left (fun c key => incr key c) keys c in
  NoDup (map fst c')
  /\ Forall (fun item => 0 < snd item) c'
  /\ list_sum (map snd c') = list_sum (map snd c) + List.length keys.
Proof.
  induction keys as [|k keys IH]; intros c Hnodup Hpos; cbn [fold_left List.length].
  - repeat split; [assumption | assumption | lia].
  - destruct (IH (incr k c) (incr_NoDup k c Hnodup) (incr_positive k c Hpos))
      as (H1 & H2 & H3).
    repeat split; [assumption | assumption |]. rewrite H3, incr_sum. lia.
Qed.

(** The keys of [Counter(keys)] are the distinct keys, in the order of
    their first occurrence. *)
Lemma counter_of_keys (keys : list string) :
  map fst (Spec.counter_of keys) = Spec.first_seen keys.
Proof.
  unfold Spec.counter_of, Spec.first_seen.
  induction keys as [|k keys IH] using rev_ind; [reflexivity |].
  rewrite fold_left_app. cbn [fold_left]. rewrite incr_keys_eq, IH, rev_unit.
  cbn [nodup].
  destruct (in_dec string_dec k (rev (nodup string_dec (rev keys)))) as [Hin | Hnot],
           (in_dec string_dec k (rev keys)) as [Hin' | Hnot']; cbn [rev];
    try reflexivity.
  - elim Hnot'. apply in_rev in Hin. now apply nodup_In in Hin.
  - elim Hnot. apply -> in_rev. now apply nodup_In.
Qed.

(** [Counter(keys)], entry by entry. *)
Lemma counter_of_entries (keys : list string) :
  let c := Spec.counter_of keys in
  NoDup (map fst c)
  /\ (forall key, count_of c key = count_occ string_dec keys key)
  /\ (forall key n, In (key, n) c <-> n = count_occ string_dec keys key /\ 0 < n)
  /\ list_sum (map snd c) = List.length keys.
Proof.
  cbv zeta. unfold Spec.counter_of.
  destruct (fold_incr_invariants keys [] (NoDup_nil _) (Forall_nil _))
    as (Hnodup & Hpos & Hsum). cbv zeta in *.
  assert (Hcount : forall key,
            count_of (fold_left (fun c key => incr key c) keys []) key
            = count_occ string_dec keys key)
    by (intros key; now rewrite count_of_fold).
  repeat split; try assumption.
  - rewrite <- Hcount. symmetry. now apply count_of_In.
  - rewrite Forall_forall in Hpos. apply (Hpos _ H).
  - intros [-> Hn]. rewrite <- Hcount in *. now apply count_of_positive_In.
Qed.

End CountingFacts.

(* ================================================================= *)
(** ** What the aggregator returns *)

Section Rankings.
Import Contribution Collections CollectionsFacts RankingFacts CountingFacts.

Lemma map_fst_with_count (g : string -> nat) (n : nat) (l : list (string * nat)) :
  (forall item, In item l -> snd item = g (fst item)) ->
  map fst (Spec.with_count n l) = filter (fun key => (g key =? n)%nat) (map fst l).
Proof.
  unfold Spec.with_count. induction l as [|x l IH]; intros Hl; [reflexivity |].
  cbn [filter map]. rewrite <- (Hl x (or_introl eq_refl)).
  destruct (snd x =? n)%nat; cbn [map]; rewrite IH; try reflexivity;
    intros item Hitem; apply Hl; now right.
Qed.

(** [Counter(keys).most_common(n)] is the top ranking of [keys]. *)
Lemma most_common_top_ranking (n : nat) (keys : list string) :
  Spec.top_ranking n keys (most_common (Some n) (Spec.counter_of keys)).
Proof.
  cbn [most_common].
  destruct (counter_of_entries keys) as (Hnodup & Hcount & Hentries & _).
  cbv zeta in *.
  set (c := Spec.counter_of keys) in *.
  pose proof (sorted_desc_Permutation c) as Hperm.
  pose proof (sorted_desc_sorted c) as Hsorted.
  pose proof (firstn_skipn n (sorted_desc c)) as Hsplit.
  assert (Hin : forall item, In item (firstn n (sorted_desc c)) -> In item c).
  { intros item Hitem. apply sorted_desc_In. rewrite <- Hsplit.
    apply in_or_app. now left. }
  unfold Spec.top_ranking. split; [| split; [| split; [| split; [| split]]]].
  - rewrite length_firstn, (Permutation_length Hperm).
    rewrite <- (counter_of_keys keys). fold c. now rewrite length_map.
  - now apply StronglySorted_firstn.
  - assert (Hall : NoDup (map fst (sorted_desc c)))
      by (eapply Permutation_NoDup; [symmetry; apply Permutation_map, Hperm | exact Hnodup]).
    rewrite <- Hsplit, map_app in Hall. now apply NoDup_app_remove_r in Hall.
  - intros name count Hitem. now apply Hentries, Hin.
  - intros name Hname Hnot entry Hentry.
    assert (Hc : In (name, count_occ string_dec keys name) c).
    { apply Hentries. split; [reflexivity |]. now apply count_occ_In. }
    apply sorted_desc_In_rev in Hc. rewrite <- Hsplit in Hc.
    apply in_app_or in Hc as [Hc | Hc].
    + elim Hnot. apply in_map_iff. now exists (name, count_occ string_dec keys name).
    + rewrite <- Hsplit in Hsorted.
      exact (StronglySorted_app_outranks _ _ Hsorted _ _ Hentry Hc).
  - intros count.
    exists (map fst (Spec.with_count count (skipn n (sorted_desc c)))).
    rewrite <- map_app. unfold Spec.with_count at 1 2. rewrite <- filter_app, Hsplit.
    fold (Spec.with_count count (sorted_desc c)).
    rewrite sorted_desc_with_count.
    rewrite (map_fst_with_count (count_occ string_dec keys)).
    + unfold c. now rewrite (counter_of_keys keys).
    + intros [name v] Hitem. cbn [fst snd]. now apply Hentries.
Qed.

Lemma fold_count_pr_authors (prs : list pull_request) : forall t,
  authors (fold_left count_pr prs t)
  = fold_left (fun c key => incr key c) (map author_of prs) (authors t).
Proof.
  induction prs as [|pr rest IH]; intros t; [reflexivity |].
  cbn [fold_left map]. now rewrite IH.
Qed.

Lemma fold_count_pr_repositories (prs : list pull_request) : forall t,
  repositories (fold_left count_pr prs t)
  = fold_left (fun c key => incr key c) (map Spec.repository_of prs) (repositories t).
Proof.
  induction prs as [|pr rest IH]; intros t; [reflexivity |].
  cbn [fold_left map]. now rewrite IH.
Qed.

Lemma fold_count_pr_projects (prs : list pull_request) : forall t,
  projects (fold_left count_pr prs t)
  = fold_left (fun c key => incr key c) (map Spec.project_name_of prs) (projects t).
Proof.
  induction prs as [|pr rest IH]; intros t; [reflexivity |].
  cbn [fold_left map]. now rewrite IH.
Qed.

Lemma count_reviewers_fold (l : list identity) : forall c,
  count_reviewers l c
  = fold_left (fun c key => incr key c) (filter is_human (map display_name l)) c.
Proof.
  induction l as [|reviewer rest IH]; intros c; [reflexivity |].
  cbn [count_reviewers map filter].
  destruct (is_human (display_name reviewer)); cbn [fold_left]; apply IH.
Qed.

Lemma fold_count_pr_reviewers (prs : list pull_request) : forall t,
  reviewers_count (fold_left count_pr prs t)
  = fold_left (fun c key => incr key c) (flat_map Spec.counted_reviewers prs)
      (reviewers_count t).
Proof.
  induction prs as [|pr rest IH]; intros t; [reflexivity |].
  cbn [fold_left flat_map]. rewrite IH, fold_left_app.
  cbn [count_pr reviewers_count]. now rewrite count_reviewers_fold.
Qed.

(** X6. The three top-ten lists of [analyze_pr_data] are the top rankings
    of the authors, of the reviewers that pass the service-account test
    (one key per reviewer entry) and of the repositories of the records: at
    most ten entries, each a name with the number of its occurrences, most
    frequent first, names of equal count in the order of their first
    occurrence, and no name left out occurs more often than a name
    shown. *)
Theorem top_ten_are_the_most_frequent (prs : list pull_request) :
  let s := analyze_pr_data prs in
  Spec.top_ranking 10 (map author_of prs) (stats_authors s)
  /\ Spec.top_ranking 10 (flat_map Spec.counted_reviewers prs) (stats_reviewers s)
  /\ Spec.top_ranking 10 (map Spec.repository_of prs) (stats_repositories s).
Proof.
  cbv zeta. unfold analyze_pr_data, tally_prs.
  cbn [stats_authors stats_reviewers stats_repositories].
  rewrite fold_count_pr_authors, fold_count_pr_reviewers, fold_count_pr_repositories.
  cbn [authors reviewers_count repositories].
  split; [| split]; apply most_common_top_ranking.
Qed.

(** X7. The project breakdown of [analyze_pr_data] lists every project
    that a record carries, each once and with the number of its records, in
    non-increasing order of count; its counts add up to [total_prs], which
    is the number of records. The counts of a top-ten list add up to at
    most that. *)
Theorem project_breakdown_adds_up (prs : list pull_request) :
  let s := analyze_pr_data prs in
  total_prs s = List.length prs
  /\ list_sum (map snd (stats_projects s)) = total_prs s
  /\ StronglySorted Spec.outranks (stats_projects s)
  /\ NoDup (map fst (stats_projects s))
  /\ (forall name count,
        In (name, count) (stats_projects s)
        <-> count = Spec.occurrences Spec.project_name_of prs name /\ 0 < count)
  /\ list_sum (map snd (stats_authors s)) <= total_prs s
  /\ list_sum (map snd (stats_repositories s)) <= total_prs s.
Proof.
  cbv zeta. unfold analyze_pr_data, tally_prs.
  cbn [stats_authors stats_repositories stats_projects total_prs most_common].
  rewrite fold_count_pr_authors, fold_count_pr_projects, fold_count_pr_repositories.
  cbn [authors repositories projects].
  fold (Spec.counter_of (map author_of prs)).
  fold (Spec.counter_of (map Spec.project_name_of prs)).
  fold (Spec.counter_of (map Spec.repository_of prs)).
  assert (Hle : forall keys n,
            list_sum (map snd (firstn n (sorted_desc (Spec.counter_of keys))))
            <= List.length keys).
  { intros keys n.
    destruct (counter_of_entries keys) as (_ & _ & _ & Hsum). cbv zeta in Hsum.
    rewrite <- Hsum.
    rewrite <- (Permutation_list_sum
                  (Permutation_map snd (sorted_desc_Permutation (Spec.counter_of keys)))).
    rewrite <- (firstn_skipn n (sorted_desc (Spec.counter_of keys))) at 2.
    rewrite map_app, list_sum_app. lia. }
  destruct (counter_of_entries (map Spec.project_name_of prs))
    as (Hnodup & _ & Hentries & Hsum). cbv zeta in *.
  pose proof (sorted_desc_Permutation (Spec.counter_of (map Spec.project_name_of prs)))
    as Hperm.
  split; [reflexivity |].
  split; [rewrite (Permutation_list_sum (Permutation_map snd Hperm)), Hsum;
          apply length_map |].
  split; [apply sorted_desc_sorted |].
  split; [eapply Permutation_NoDup;
          [symmetry; apply Permutation_map, Hperm | exact Hnodup] |].
  split.
  - intros name count. unfold Spec.occurrences. rewrite <- Hentries. split.
    + apply sorted_desc_In.
    + apply sorted_desc_In_rev.
  - split; [rewrite <- (length_map author_of prs) | rewrite <- (length_map Spec.repository_of prs)];
      apply Hle.
Qed.

End Rankings.

(* ================================================================= *)
(** ** The periods [get_date_range] resolves, under the reference runtime *)

Section Periods.
Import DateRangeFacts.

Lemma range_checks (lo hi n : Z) :
  (lo <= n <= hi)%Z -> ((n <? lo) || (n >? hi))%Z = false.
Proof.
  intros H. apply orb_false_iff. rewrite Z.gtb_ltb. split; apply Z.ltb_ge; lia.
Qed.

Lemma range_checks_out (lo hi n : Z) :
  ~ (lo <= n <= hi)%Z -> ((n <? lo) || (n >? hi))%Z = true.
Proof.
  intros H. apply orb_true_iff. rewrite Z.gtb_ltb, !Z.ltb_lt. lia.
Qed.

Lemma format_0d_is_december (m : Z) :
  (1 <= m <= 12)%Z -> String.eqb (format_0d 2 m) "12" = (m =? 12)%Z.
Proof.
  intros Hm. destruct (m =? 12)%Z eqn:H12.
  - apply Z.eqb_eq in H12 as ->. reflexivity.
  - apply Z.eqb_neq in H12. apply not_true_is_false. intros Heq. apply H12.
    apply String.eqb_eq in Heq.
    pose proof (py_int_format_0d 2 m (int_reads_back_2 m ltac:(lia))) as Hread.
    rewrite Heq in Hread. now injection Hread as <-.
Qed.

(** A whole year, for a year argument that [int] reads in range. *)
Lemma get_date_range_year env (year_str : string) (month : option string) (y : Z) :
  Reference.py_int year_str = Some y ->
  (2000 <= y <= 2030)%Z ->
  @Contribution.get_date_range Reference.runtime env (Some year_str) month false true
  = ret (strftime_Y_m_d (mkDate y 1 1), strftime_Y_m_d (mkDate (y + 1) 1 1),
         "for the year " +:+ format_0d 4 y).
Proof.
  intros Hy Hrange. unfold Contribution.get_date_range, Contribution.validate_year_input.
  cbn [py_int Reference.runtime]. rewrite Hy, (range_checks 2000 2030 y Hrange).
  rewrite bind_ret. unfold Contribution.int_of. cbn [py_int Reference.runtime].
  rewrite (py_int_format_0d 4 y) by (apply int_reads_back_4; lia).
  rewrite bind_ret. reflexivity.
Qed.

(** One month, for year and month arguments that [int] reads in range. *)
Lemma get_date_range_month env (year_str month_str : string) (y m : Z) :
  Reference.py_int year_str = Some y ->
  Reference.py_int month_str = Some m ->
  (2000 <= y <= 2030)%Z ->
  (1 <= m <= 12)%Z ->
  @Contribution.get_date_range Reference.runtime env (Some year_str) (Some month_str)
    false false
  = ret (strftime_Y_m_d (mkDate y m 1), strftime_Y_m_d (Spec.first_of_next_month y m),
         "for " +:+ strftime_Y_m (mkDate y m 1)).
Proof.
  intros Hy Hm Hyr Hmr.
  unfold Contribution.get_date_range, Contribution.validate_date_inputs.
  cbn [py_int Reference.runtime].
  rewrite Hy, Hm, (range_checks 2000 2030 y Hyr), (range_checks 1 12 m Hmr).
  rewrite bind_ret, (format_0d_is_december m Hmr).
  unfold Contribution.int_of, Spec.first_of_next_month. cbn [py_int Reference.runtime].
  destruct (m =? 12)%Z eqn:H12.
  - rewrite (py_int_format_0d 4 y) by (apply int_reads_back_4; lia).
    rewrite !bind_ret. reflexivity.
  - rewrite (py_int_format_0d 2 m) by (apply int_reads_back_2; lia).
    rewrite !bind_ret. reflexivity.
Qed.

(** The validators reject, with the message and exit code 1, whatever
    [int] does not read in range. *)
Lemma get_date_range_year_invalid env (year_str : string) (month : option string) :
  (forall y, Reference.py_int year_str = Some y -> ~ (2000 <= y <= 2030)%Z) ->
  @Contribution.get_date_range Reference.runtime env (Some year_str) month false true
  = (Some (Raise (SystemExit 1)), [Stderr InvalidDate]).
Proof.
  intros Hbad. unfold Contribution.get_date_range, Contribution.validate_year_input.
  cbn [py_int Reference.runtime].
  destruct (Reference.py_int year_str) as [y|]; [| reflexivity].
  now rewrite (range_checks_out 2000 2030 y (Hbad y eq_refl)).
Qed.


(** The dates of a month window, of a year window and of the window of the
    current month. *)
Lemma month_window_dates (y m : Z) (d : date) :
  (1 <= m <= 12)%Z ->
  (1 <= month d <= 12)%Z -> (1 <= day d)%Z ->
  Spec.in_window (mkDate y m 1) (Spec.first_of_next_month y m) d
  <-> year d = y /\ month d = m.
Proof.
  intros Hm Hmonth Hday. unfold Spec.in_window, date_le, date_lt, Spec.first_of_next_month.
  rewrite date_leb_le, date_ltb_ge.
  destruct (m =? 12)%Z eqn:H12; rewrite !date_ltb_lt; cbn [year month day].
  - apply Z.eqb_eq in H12. lia.
  - apply Z.eqb_neq in H12. lia.
Qed.

Lemma year_window_dates (y : Z) (d : date) :
  (1 <= month d <= 12)%Z -> (1 <= day d)%Z ->
  Spec.in_window (mkDate y 1 1) (mkDate (y + 1) 1 1) d <-> year d = y.
Proof.
  intros Hmonth Hday. unfold Spec.in_window, date_le, date_lt.
  rewrite date_leb_le, date_ltb_ge, !date_ltb_lt. cbn [year month day]. lia.
Qed.

Lemma current_month_window_dates (today d : date) :
  Reference.valid_date (year today) (month today) (day today) = true ->
  Reference.valid_date (year d) (month d) (day d) = true ->
  Spec.in_window (replace_day_1 today) (next_day today) d
  <-> year d = year today /\ month d = month today /\ (day d <= day today)%Z.
Proof.
  intros Htoday Hd. apply valid_date_bounds in Htoday, Hd.
  unfold Spec.in_window, date_le, date_lt, replace_day_1, next_day.
  rewrite date_leb_le, date_ltb_ge.
  destruct (day today <? days_in_month (year today) (month today))%Z eqn:Hlast;
    [| destruct (month today <? 12)%Z eqn:Hdec];
    rewrite !date_ltb_lt; cbn [year month day].
  - apply Z.ltb_lt in Hlast. lia.
  - apply Z.ltb_ge in Hlast. apply Z.ltb_lt in Hdec.
    split; [| lia]. intros [H1 H2].
    assert (year d = year today /\ month d = month today) as [Hy Hm] by lia.
    rewrite Hy, Hm in Hd. lia.
  - apply Z.ltb_ge in Hlast, Hdec.
    split; [| lia]. intros [H1 H2].
    assert (year d = year today /\ month d = month today) as [Hy Hm] by lia.
    rewrite Hy, Hm in Hd. lia.
Qed.

End Periods.

(* ================================================================= *)
(** ** Periods and the command line of the per-project script *)

Section PeriodTheorems.
Import DateRangeFacts.

Lemma valid_first_of_month (y m : Z) :
  (1 <= y <= 9999)%Z -> (1 <= m <= 12)%Z -> Reference.valid_date y m 1 = true.
Proof.
  intros Hy Hm. apply valid_date_bounds.
  pose proof (days_in_month_bounds y m). lia.
Qed.

Lemma valid_first_of_next_month (y m : Z) :
  (1 <= y < 9999)%Z -> (1 <= m <= 12)%Z ->
  Reference.valid_date (year (Spec.first_of_next_month y m))
    (month (Spec.first_of_next_month y m)) (day (Spec.first_of_next_month y m)) = true.
Proof.
  intros Hy Hm. unfold Spec.first_of_next_month.
  destruct (m =? 12)%Z eqn:H12; cbn [year month day]; apply valid_first_of_month;
    try lia.
Qed.


(** X8. Under the reference runtime, for a year argument that [int] reads
    in [2000, 2030] and a month argument that [int] reads in [1, 12],
    whatever their spelling, [get_date_range] returns a window whose two
    ends parse, and a calendar date is in that window, start included and
    end excluded, exactly when it is a day of that month of that year. *)
Theorem month_window_is_the_calendar_month env (year_str month_str : string) (y m : Z) :
  Reference.py_int year_str = Some y ->
  Reference.py_int month_str = Some m ->
  (2000 <= y <= 2030)%Z ->
  (1 <= m <= 12)%Z ->
  exists start_date end_date period_desc start_dt end_dt,
    @Contribution.get_date_range Reference.runtime env (Some year_str)
      (Some month_str) false false = ret (start_date, end_date, period_desc)
    /\ @Contribution.date_of_iso Reference.runtime start_date = Ok start_dt
    /\ @Contribution.date_of_iso Reference.runtime end_date = Ok end_dt
    /\ forall d, Reference.valid_date (year d) (month d) (day d) = true ->
         (Spec.in_window start_dt end_dt d <-> year d = y /\ month d = m).
Proof.
  intros Hy Hm Hyr Hmr.
  exists (strftime_Y_m_d (mkDate y m 1)),
         (strftime_Y_m_d (Spec.first_of_next_month y m)),
         ("for " +:+ strftime_Y_m (mkDate y m 1)),
         (mkDate y m 1), (Spec.first_of_next_month y m).
  split; [now apply get_date_range_month |].
  split; [apply date_of_iso_strftime, valid_first_of_month; cbn [year month]; lia |].
  split; [apply date_of_iso_strftime, valid_first_of_next_month; lia |].
  intros d Hd. apply valid_date_bounds in Hd. apply month_window_dates; lia.
Qed.

(** X9. Under the reference runtime, for a year argument that [int] reads
    in [2000, 2030], the whole-year window of [get_date_range] parses, and
    a calendar date is in it exactly when it is a day of that year. *)
Theorem year_window_is_the_calendar_year env (year_str : string) (month_arg : option string)
    (y : Z) :
  Reference.py_int year_str = Some y ->
  (2000 <= y <= 2030)%Z ->
  exists start_date end_date period_desc start_dt end_dt,
    @Contribution.get_date_range Reference.runtime env (Some year_str) month_arg false true
      = ret (start_date, end_date, period_desc)
    /\ @Contribution.date_of_iso Reference.runtime start_date = Ok start_dt
    /\ @Contribution.date_of_iso Reference.runtime end_date = Ok end_dt
    /\ forall d, Reference.valid_date (year d) (month d) (day d) = true ->
         (Spec.in_window start_dt end_dt d <-> year d = y).
Proof.
  intros Hy Hyr.
  exists (strftime_Y_m_d (mkDate y 1 1)), (strftime_Y_m_d (mkDate (y + 1) 1 1)),
         ("for the year " +:+ format_0d 4 y), (mkDate y 1 1), (mkDate (y + 1) 1 1).
  split; [now apply get_date_range_year |].
  split; [apply date_of_iso_strftime, valid_first_of_month; cbn [year month]; lia |].
  split; [apply date_of_iso_strftime, valid_first_of_month; cbn [year month]; lia |].
  intros d Hd. apply valid_date_bounds in Hd. apply year_window_dates; lia.
Qed.

(** X10. Under the reference runtime, in current-month mode, whatever the
    year and month arguments: the window of [get_date_range] parses, and a
    calendar date is in it exactly when it is a day of the current month up
    to and including today. *)
Theorem current_month_window_is_the_month_to_date env (year_arg month_arg : option string)
    (use_whole_year : bool) :
  Spec.valid_today (dt_date (now env)) ->
  let today := dt_date (now env) in
  exists start_date end_date period_desc start_dt end_dt,
    @Contribution.get_date_range Reference.runtime env year_arg month_arg true
      use_whole_year = ret (start_date, end_date, period_desc)
    /\ @Contribution.date_of_iso Reference.runtime start_date = Ok start_dt
    /\ @Contribution.date_of_iso Reference.runtime end_date = Ok end_dt
    /\ forall d, Reference.valid_date (year d) (month d) (day d) = true ->
         (Spec.in_window start_dt end_dt d
          <-> year d = year today /\ month d = month today
              /\ (day d <= day today)%Z).
Proof.
  intros Htoday today. pose proof Htoday as [Hvalid Hyear].
  exists (strftime_Y_m_d (replace_day_1 today)), (strftime_Y_m_d (next_day today)),
         ("for the current month (" +:+ strftime_Y_m today +:+ ") up to today"),
         (replace_day_1 today), (next_day today).
  split; [reflexivity |].
  split; [apply date_of_iso_strftime; now apply valid_replace_day_1 |].
  split; [apply date_of_iso_strftime; now apply valid_next_day |].
  intros d Hd. now apply current_month_window_dates.
Qed.

End PeriodTheorems.

Lemma month_window_is_the_calendar_month_witness :
  exists start_date end_date period_desc start_dt end_dt,
    @Contribution.get_date_range Reference.runtime Scenario.env_two_projects
      (Some "2024") (Some " 2") false false = ret (start_date, end_date, period_desc)
    /\ @Contribution.date_of_iso Reference.runtime start_date = Ok start_dt
    /\ @Contribution.date_of_iso Reference.runtime end_date = Ok end_dt
    /\ forall d, Reference.valid_date (year d) (month d) (day d) = true ->
         (Spec.in_window start_dt end_dt d <-> year d = 2024%Z /\ month d = 2%Z).
Proof.
  apply (month_window_is_the_calendar_month Scenario.env_two_projects "2024" " 2"
           2024 2 eq_refl eq_refl); lia.
Defined.

Lemma year_window_is_the_calendar_year_witness :
  exists start_date end_date period_desc start_dt end_dt,
    @Contribution.get_date_range Reference.runtime Scenario.env_two_projects
      (Some "2030") None false true = ret (start_date, end_date, period_desc)
    /\ @Contribution.date_of_iso Reference.runtime start_date = Ok start_dt
    /\ @Contribution.date_of_iso Reference.runtime end_date = Ok end_dt
    /\ forall d, Reference.valid_date (year d) (month d) (day d) = true ->
         (Spec.in_window start_dt end_dt d <-> year d = 2030%Z).
Proof.
  apply (year_window_is_the_calendar_year Scenario.env_two_projects "2030" None
           2030 eq_refl); lia.
Defined.

Lemma current_month_window_is_the_month_to_date_witness :
  exists start_date end_date period_desc start_dt end_dt,
    @Contribution.get_date_range Reference.runtime Scenario.env_two_projects
      None None true false = ret (start_date, end_date, period_desc)
    /\ @Contribution.date_of_iso Reference.runtime start_date = Ok start_dt
    /\ @Contribution.date_of_iso Reference.runtime end_date = Ok end_dt
    /\ forall d, Reference.valid_date (year d) (month d) (day d) = true ->
         (Spec.in_window start_dt end_dt d
          <-> year d = 2025%Z /\ month d = 3%Z /\ (day d <= 20)%Z).
Proof.
  apply (current_month_window_is_the_month_to_date Scenario.env_two_projects None None
           false).
  split; [reflexivity | cbn; lia].
Defined.

(* ================================================================= *)
(** ** From the command line to the window *)

Section CommandLineStage.
Import DateRangeFacts.








End CommandLineStage.


(* ================================================================= *)
(** ** The verbosity flags *)

Section Verbosity.
Context {rt : Runtime}.

Lemma strip_verbosity_positional (argv : list string) : forall VERBOSITY,
  Contribution.strip_verbosity argv VERBOSITY
  = (Spec.last_flag argv VERBOSITY, Spec.positional argv).
Proof.
  unfold Spec.last_flag, Spec.positional, Spec.is_verbosity_flag.
  induction argv as [|arg rest IH]; intros v; [reflexivity |].
  cbn [Contribution.strip_verbosity fold_left filter].
  destruct (String.eqb arg "-vv"); [apply IH |].
  destruct (String.eqb arg "-v"); [apply IH |].
  cbn [orb negb]. now rewrite IH.
Qed.

Lemma positional_idempotent (argv : list string) :
  Spec.positional (Spec.positional argv) = Spec.positional argv.
Proof.
  unfold Spec.positional. induction argv as [|arg rest IH]; [reflexivity |].
  cbn [filter]. destruct (negb (Spec.is_verbosity_flag arg)) eqn:Harg; [| exact IH].
  cbn [filter]. now rewrite Harg, IH.
Qed.

(** X12. The first loop of [parse_arguments] removes every [-v] and [-vv],
    wherever it stands, and keeps the other arguments in order; the
    verbosity becomes that of the last flag and stays as it was when there
    is none; and what [parse_arguments] returns is what it returns for the
    same command line without the flags, so a flag is never read as a
    project, a year or a month. *)
Theorem verbosity_flags_are_not_arguments (argv : list string) (VERBOSITY : nat) :
  Contribution.strip_verbosity argv VERBOSITY
    = (Spec.last_flag argv VERBOSITY, Spec.positional argv)
  /\ fst (Contribution.parse_arguments argv VERBOSITY) = Spec.last_flag argv VERBOSITY
  /\ (forall arg, In arg (Spec.positional argv) -> arg <> "-v" /\ arg <> "-vv")
  /\ snd (Contribution.parse_arguments argv VERBOSITY)
     = snd (Contribution.parse_arguments (Spec.positional argv) VERBOSITY)
  /\ (Spec.positional argv = argv ->
      fst (Contribution.parse_arguments argv VERBOSITY) = VERBOSITY).
Proof.
  split; [apply strip_verbosity_positional |].
  split; [unfold Contribution.parse_arguments;
          now rewrite strip_verbosity_positional |].
  split.
  - intros arg Harg. apply filter_In in Harg as [_ Harg].
    unfold Spec.is_verbosity_flag in Harg. apply negb_true_iff in Harg.
    apply orb_false_iff in Harg as [Hvv Hv].
    apply String.eqb_neq in Hvv, Hv. now split.
  - split.
    + unfold Contribution.parse_arguments.
      now rewrite !strip_verbosity_positional, positional_idempotent.
    + intros Hnone. unfold Contribution.parse_arguments.
      rewrite strip_verbosity_positional. cbn [fst].
      unfold Spec.last_flag, Spec.positional in *.
      revert VERBOSITY. induction argv as [|arg rest IH]; intros v; [reflexivity |].
      cbn [filter] in Hnone. cbn [fold_left].
      destruct (negb (Spec.is_verbosity_flag arg)) eqn:Harg.
      * unfold Spec.is_verbosity_flag in Harg. apply negb_true_iff in Harg.
        apply orb_false_iff in Harg as [-> ->]. apply IH. now injection Hnone.
      * exfalso.
        assert (Hlen : List.length (filter (fun a => negb (Spec.is_verbosity_flag a)) rest)
                       <= List.length rest) by apply filter_length_le.
        rewrite Hnone in Hlen. cbn in Hlen. lia.
Qed.

End Verbosity.

(* ================================================================= *)
(** ** Authentication *)

Section Authentication.
Context (env : environment).







End Authentication.

(* ================================================================= *)
(** ** The report of the organization-wide script *)

Module DictFacts.
Import Collections.

Lemma dict_set_fresh (key : string) (value : nat) (d : list (string * nat)) :
  ~ In key (map fst d) -> dict_set key value d = d ++ [(key, value)].
Proof.
  induction d as [|[k v] d IH]; cbn [dict_set map fst app In]; intros Hnot;
    [reflexivity |].
  destruct (String.eqb k key) eqn:Hk.
  - apply String.eqb_eq in Hk. destruct Hnot. now left.
  - rewrite IH; [reflexivity |]. intros Hin. apply Hnot. now right.
Qed.

(** Setting keys that are new and distinct appends them in order. *)
Lemma fold_dict_set_fresh (names : list string) : forall (counts : list nat) d,
  NoDup names ->
  (forall name, In name names -> ~ In name (map fst d)) ->
  List.length counts = List.length names ->
  fold_left (fun d entry => dict_set (fst entry) (snd entry) d) (combine names counts) d
  = d ++ combine names counts.
Proof.
  induction names as [|name names IH]; intros counts d Hnodup Hfresh Hlen.
  - cbn. now rewrite app_nil_r.
  - destruct counts as [|count counts]; [discriminate |].
    apply NoDup_cons_iff in Hnodup as [Hname Hnodup].
    cbn [combine fold_left fst snd].
    rewrite dict_set_fresh by (apply Hfresh; now left).
    rewrite IH; [now rewrite <- app_assoc | exact Hnodup | | now injection Hlen].
    intros other Hother. rewrite map_app, in_app_iff. cbn [map fst In].
    intros [Hin | [<- | []]]; [| contradiction].
    apply (Hfresh other); [now right | exact Hin].
Qed.

Lemma map_fst_combine (names : list string) : forall counts : list nat,
  List.length counts = List.length names -> map fst (combine names counts) = names.
Proof.
  induction names as [|name names IH]; intros [|count counts] Hlen; try discriminate;
    [reflexivity |].
  cbn [combine map fst]. f_equal. apply IH. now injection Hlen.
Qed.

Lemma map_snd_combine (names : list string) : forall counts : list nat,
  List.length counts = List.length names -> map snd (combine names counts) = counts.
Proof.
  induction names as [|name names IH]; intros [|count counts] Hlen; try discriminate;
    [reflexivity |].
  cbn [combine map snd]. f_equal. apply IH. now injection Hlen.
Qed.

Lemma list_sum_Permutation (l l' : list nat) :
  Permutation l l' -> list_sum l = list_sum l'.
Proof.
  induction 1 as [|x l l' _ IH|x y l|l l' l'' _ IH1 _ IH2];
    repeat change (list_sum (?x :: ?l)) with (x + list_sum l); lia.
Qed.

Lemma filter_length_Permutation {A} (f : A -> bool) (l l' : list A) :
  Permutation l l' -> List.length (filter f l) = List.length (filter f l').
Proof.
  induction 1 as [|x l l' _ IH|x y l|l l' l'' _ IH1 _ IH2]; cbn [filter];
    [reflexivity | | | congruence].
  - destruct (f x); cbn [List.length]; congruence.
  - destruct (f x), (f y); reflexivity.
Qed.

Lemma StronglySorted_filter {A} (R : A -> A -> Prop) (f : A -> bool) (l : list A) :
  StronglySorted R l -> StronglySorted R (filter f l).
Proof.
  induction 1 as [|x l _ IH Hx]; cbn [filter]; [constructor |].
  destruct (f x); [| exact IH]. constructor; [exact IH |].
  apply Forall_forall. intros y Hy. apply filter_In in Hy as [Hy _].
  rewrite Forall_forall in Hx. now apply Hx.
Qed.

Lemma NoDup_map_filter {A B} (g : A -> B) (f : A -> bool) (l : list A) :
  NoDup (map g l) -> NoDup (map g (filter f l)).
Proof.
  induction l as [|x l IH]; cbn [map filter]; intros Hl; [constructor |].
  apply NoDup_cons_iff in Hl as [Hx Hl].
  destruct (f x); [| now apply IH]. cbn [map]. constructor; [| now apply IH].
  intros Hin. apply Hx. apply in_map_iff in Hin as (y & <- & Hy).
  apply filter_In in Hy as [Hy _]. now apply in_map.
Qed.

(** Leaving out entries that count zero does not change the sum. *)
Lemma list_sum_positive_entries (show_zero : bool) (l : list (string * nat)) :
  list_sum (map snd (filter (fun item => (0 <? snd item)%nat || show_zero) l))
  = list_sum (map snd l).
Proof.
  induction l as [|[k v] l IH]; cbn [filter map snd]; [reflexivity |].
  destruct ((0 <? v)%nat || show_zero) eqn:Hv; cbn [map snd];
    repeat change (list_sum (?x :: ?l)) with (x + list_sum l); rewrite IH;
    [reflexivity |].
  apply orb_false_iff in Hv as [Hv _]. apply Nat.ltb_ge in Hv. lia.
Qed.

Lemma filter_positive_entries (show_zero : bool) (l : list (string * nat)) :
  filter (fun item => (0 <? snd item)%nat)
    (filter (fun item => (0 <? snd item)%nat || show_zero) l)
  = filter (fun item => (0 <? snd item)%nat) l.
Proof.
  induction l as [|[k v] l IH]; cbn [filter map snd]; [reflexivity |].
  destruct (0 <? v)%nat eqn:Hv; cbn [orb filter snd].
  - rewrite Hv. now f_equal.
  - destruct show_zero; cbn [filter snd]; [rewrite Hv |]; exact IH.
Qed.

End DictFacts.

Section OrgReport.
Context {rt : Runtime} (env : environment).

(** One turn of the loop over the projects, when it goes on: a count is
    set under the name of the project and added to the total. *)
Lemma count_projects_turn fuel api start_date end_date project_name project_counts
    total_prs project_counts' total_prs' :
  fst (try_except_Exception
         (project_pr_count <- OrgCount.count_project_prs env fuel api project_name
                                start_date end_date OrgCount.USE_CREATION_DATE ;;
          ret (Collections.dict_set project_name project_pr_count project_counts,
               total_prs + project_pr_count))%io
         (fun e =>
            emit (Stderr (WarningProjectFailed project_name e)) ;;
            ret (Collections.dict_set project_name 0 project_counts, total_prs))%io)
    = Some (Ok (project_counts', total_prs')) ->
  exists count,
    project_counts' = Collections.dict_set project_name count project_counts
    /\ total_prs' = total_prs + count.
Proof.
  destruct (OrgCount.count_project_prs env fuel api project_name start_date end_date
              OrgCount.USE_CREATION_DATE) as [[[count|e]|] tr];
    cbn [bind ret try_except_Exception fst snd].
  - intros [= <- <-]. now exists count.
  - destruct (is_Exception e); cbn [bind emit ret fst snd]; [| discriminate].
    intros [= <- <-]. exists 0. split; [reflexivity | lia].
  - discriminate.
Qed.

(** What the loop over the projects returns: one count per project, set
    under the name of the project, and added to the total. *)
Lemma count_projects_returns fuel api start_date end_date projects :
  forall project_counts total_prs project_counts' total_prs',
  fst (OrgCount.count_projects env fuel api start_date end_date projects project_counts
         total_prs) = Some (Ok (project_counts', total_prs')) ->
  exists counts,
    List.length counts = List.length projects
    /\ project_counts'
       = fold_left (fun d entry => Collections.dict_set (fst entry) (snd entry) d)
           (combine (map project_name projects) counts) project_counts
    /\ total_prs' = total_prs + list_sum counts.
Proof.
  induction projects as [|project rest IH];
    intros project_counts total_prs project_counts' total_prs'.
  - cbn. intros [= <- <-]. exists []. cbn. split; [reflexivity | split; [reflexivity | lia]].
  - cbn [OrgCount.count_projects].
    pose proof (count_projects_turn fuel api start_date end_date (project_name project)
                  project_counts total_prs) as Hturn.
    destruct (try_except_Exception _ _) as [[[[d t]|e]|] tr]; cbn [bind fst snd];
      try discriminate.
    destruct (Hturn d t eq_refl) as (count & -> & ->). intros Hrest.
    destruct (IH (Collections.dict_set (project_name project) count project_counts)
                (total_prs + count) project_counts' total_prs') as (counts & Hlen & -> & ->).
    { destruct (OrgCount.count_projects env fuel api start_date end_date rest _ _)
        as [r tr']. exact Hrest. }
    exists (count :: counts). cbn [List.length map combine fold_left fst snd].
    split; [now rewrite Hlen | split; [reflexivity |]].
    change (list_sum (count :: counts)) with (count + list_sum counts). lia.
Qed.

(** What [main] reports, when it reports. *)
Lemma org_main_returns fuel VERBOSITY start_date end_date report :
  fst (OrgCount.main env fuel VERBOSITY start_date end_date) = Some (Ok report) ->
  exists projects counts,
    projects_of env = Success projects
    /\ projects <> []
    /\ List.length counts = List.length projects
    /\ let project_counts :=
         fold_left (fun d entry => Collections.dict_set (fst entry) (snd entry) d)
           (combine (map project_name projects) counts) [] in
       report
       = {| OrgCount.report_total_prs := list_sum counts;
            OrgCount.breakdown :=
              filter (fun item => (0 <? snd item)%nat || (2 <=? VERBOSITY)%nat)
                (Collections.sorted_desc project_counts);
            OrgCount.projects_analyzed := List.length projects;
            OrgCount.projects_with_prs :=
              List.length (filter (fun item => (0 <? snd item)%nat) project_counts) |}.
Proof.
  unfold OrgCount.main, OrgCount.new_AzureDevOpsOrgAPI, OrgCount.get_all_projects.
  destruct (OrgCount._setup_authentication env) as [[[[]|e]|] tr0];
    cbn [bind ret fst snd try_except_Exception];
    [| destruct (is_Exception e); discriminate | discriminate].
  destruct (projects_of env) as [projects| |code|];
    cbn [bind ret raise emit fst snd try_except_Exception is_Exception sys_exit app];
    try discriminate.
  destruct projects as [|project rest];
    cbn [bind ret raise emit fst snd try_except_Exception is_Exception sys_exit app];
    [discriminate |].
  pose proof (count_projects_returns fuel (OrgCount.mkAPI (configured_organization env))
                start_date end_date (project :: rest) [] 0) as Hloop.
  destruct (OrgCount.count_projects env fuel _ start_date end_date (project :: rest) [] 0)
    as [[[[d t]|e]|] tr]; cbn [bind ret fst snd try_except_Exception];
    [| destruct (is_Exception e); discriminate | discriminate].
  destruct (Hloop d t eq_refl) as (counts & Hlen & -> & ->).
  intros [= <-]. exists (project :: rest), counts.
  split; [reflexivity | split; [discriminate | split; [exact Hlen | reflexivity]]].
Qed.

End OrgReport.

Section OrgReportTheorem.
Context {rt : Runtime} (env : environment).
Import DictFacts.

(** X14. When the projects the service lists have distinct names and [main]
    of the organization-wide script comes to its report: the projects
    analysed are the projects listed; the breakdown is in non-increasing
    order of count, names no project twice and only listed projects; its
    counts add up to the total reported; the number of projects with pull
    requests is the number of its entries with a count above zero; below
    verbosity 2 every entry has a count above zero, and from verbosity 2 on
    every listed project has its entry. *)
Theorem org_report_adds_up fuel VERBOSITY start_date end_date projects report :
  projects_of env = Success projects ->
  NoDup (map project_name projects) ->
  fst (OrgCount.main env fuel VERBOSITY start_date end_date) = Some (Ok report) ->
  OrgCount.projects_analyzed report = List.length projects
  /\ StronglySorted Spec.outranks (OrgCount.breakdown report)
  /\ NoDup (map fst (OrgCount.breakdown report))
  /\ (forall name, In name (map fst (OrgCount.breakdown report)) ->
        In name (map project_name projects))
  /\ list_sum (map snd (OrgCount.breakdown report)) = OrgCount.report_total_prs report
  /\ OrgCount.projects_with_prs report
     = List.length (filter (fun item => (0 <? snd item)%nat) (OrgCount.breakdown report))
  /\ (VERBOSITY < 2 ->
        Forall (fun item => 0 < snd item) (OrgCount.breakdown report)
        /\ OrgCount.projects_with_prs report = List.length (OrgCount.breakdown report))
  /\ (2 <= VERBOSITY ->
        Permutation (map fst (OrgCount.breakdown report)) (map project_name projects)).
Proof.
  intros Hprojects Hnodup Hmain.
  apply org_main_returns in Hmain as (projects' & counts & Hprojects' & _ & Hlen & ->).
  rewrite Hprojects in Hprojects'. injection Hprojects' as <-.
  rewrite <- (length_map project_name) in Hlen.
  rewrite fold_dict_set_fresh by (assumption || (intros name _ [])).
  cbn [app OrgCount.projects_analyzed OrgCount.breakdown OrgCount.report_total_prs
         OrgCount.projects_with_prs].
  set (project_counts := combine (map project_name projects) counts).
  assert (Hkeys : map fst project_counts = map project_name projects)
    by now apply map_fst_combine.
  assert (Hsorted : Permutation (Collections.sorted_desc project_counts) project_counts)
    by apply RankingFacts.sorted_desc_Permutation.
  split; [reflexivity |].
  split; [apply StronglySorted_filter, RankingFacts.sorted_desc_sorted |].
  split.
  { apply NoDup_map_filter.
    apply (Permutation_NoDup (l := map fst project_counts));
      [now apply Permutation_map, Permutation_sym | now rewrite Hkeys]. }
  split.
  { intros name Hname. apply in_map_iff in Hname as (item & <- & Hitem).
    apply filter_In in Hitem as [Hitem _]. rewrite <- Hkeys. apply in_map.
    now apply (Permutation_in _ Hsorted). }
  split.
  { rewrite list_sum_positive_entries.
    rewrite (list_sum_Permutation _ (map snd project_counts))
      by now apply Permutation_map.
    unfold project_counts. now rewrite map_snd_combine. }
  split.
  { rewrite filter_positive_entries. symmetry. now apply filter_length_Permutation. }
  split.
  - intros Hquiet.
    assert (Hlevel : (2 <=? VERBOSITY)%nat = false) by (apply Nat.leb_gt; lia).
    rewrite Hlevel.
    assert (Hsame : forall l : list (string * nat),
              filter (fun item => (0 <? snd item)%nat || false) l
              = filter (fun item => (0 <? snd item)%nat) l)
      by (intros l; apply filter_ext; intros item; apply orb_false_r).
    rewrite Hsame. split.
    + apply Forall_forall. intros item Hitem. apply filter_In in Hitem as [_ Hitem].
      now apply Nat.ltb_lt.
    + symmetry. now apply filter_length_Permutation.
  - intros Hloud.
    assert (Hlevel : (2 <=? VERBOSITY)%nat = true) by (apply Nat.leb_le; lia).
    rewrite Hlevel.
    assert (Hall : forall l : list (string * nat),
              filter (fun item => (0 <? snd item)%nat || true) l = l).
    { intros l. induction l as [|item l IH]; [reflexivity |].
      cbn [filter]. rewrite orb_true_r. now f_equal. }
    rewrite Hall, <- Hkeys. now apply Permutation_map.
Qed.

End OrgReportTheorem.

Lemma org_report_adds_up_witness :
  let report :=
    {| OrgCount.report_total_prs := 2;
       OrgCount.breakdown := [("Payments", 2); ("Legacy", 0)];
       OrgCount.projects_analyzed := 2;
       OrgCount.projects_with_prs := 1 |} in
  fst (@OrgCount.main Reference.runtime Scenario.env_two_projects 3 2 "2025-03-01"
         "2025-04-01") = Some (Ok report)
  /\ list_sum (map snd (OrgCount.breakdown report)) = OrgCount.report_total_prs report
  /\ Permutation (map fst (OrgCount.breakdown report)) ["Legacy"; "Payments"].
Proof.
  intros report.
  assert (Hmain : fst (@OrgCount.main Reference.runtime Scenario.env_two_projects 3 2
                         "2025-03-01" "2025-04-01") = Some (Ok report))
    by (vm_compute; reflexivity).
  assert (Hnodup : NoDup (map project_name [mkProject "Legacy"; mkProject "Payments"])).
  { repeat constructor; cbn; intuition discriminate. }
  destruct (@org_report_adds_up Reference.runtime Scenario.env_two_projects 3 2
              "2025-03-01" "2025-04-01" [mkProject "Legacy"; mkProject "Payments"]
              report eq_refl Hnodup Hmain)
    as (_ & _ & _ & _ & Hsum & _ & _ & Hall).
  split; [exact Hmain | split; [exact Hsum | apply Hall; lia]].
Defined.
